(** * auto_remove.py: fixed-position watermark removal, watched directory

    A shallow embedding of [src/auto_remove.py] and the properties of its
    image pipeline (resize, mask construction, dilation + inpainting, save)
    and of its file-arrival handler.

    Python integers are [Z]; image coordinates and sizes are [Z] as well.
    A numpy array is a nested list in row-major order ([arr[y][x]] or
    [arr[y][x][c]]).  The file system is a finite map from paths to file
    contents together with a finite set of directories.  Code that prints,
    sleeps, touches the file system or raises runs in a state-and-exception
    monad over a [World].

    What the script imports (Pillow's codecs, its resampling filters, its
    colour conversions that are not spelled out below, and OpenCV's
    inpainting) is not part of the repository: it is taken as a record of
    functions, [External], over which every definition is parametrised. *)

From Stdlib Require Import ZArith List String Ascii Strings.Byte Bool Lia.
From stdpp Require Import gmap strings.

Local Open Scope string_scope.
Local Open Scope Z_scope.

(** ** Python [str] methods used by the script *)

Module Str.

(** [c.lower()] on one character: only ASCII capitals change.  Bytes above
    127 (the UTF-8 encoding of other characters) are left as they are. *)
Definition lower_ascii (c : ascii) : ascii :=
  let n := nat_of_ascii c in
  if ((65 <=? n)%nat && (n <=? 90)%nat)%bool then ascii_of_nat (n + 32) else c.

(** [s.lower()] *)
Fixpoint lower (s : string) : string :=
  match s with
  | EmptyString => EmptyString
  | String c t => String (lower_ascii c) (lower t)
  end.

(** [s.startswith(p)] *)
Fixpoint startswith (s p : string) : bool :=
  match p, s with
  | EmptyString, _ => true
  | String a p', String b s' => (Ascii.eqb a b && startswith s' p')%bool
  | String _ _, EmptyString => false
  end.

(** [s[n:]] for [0 <= n] *)
Fixpoint drop (n : nat) (s : string) : string :=
  match n, s with
  | O, _ => s
  | S n', String _ t => drop n' t
  | S _, EmptyString => EmptyString
  end.

(** [s[:n]] for [0 <= n] *)
Fixpoint take (n : nat) (s : string) : string :=
  match n, s with
  | O, _ => EmptyString
  | S n', String c t => String c (take n' t)
  | S _, EmptyString => EmptyString
  end.

(** [s.endswith(suffix)]: the last [len(suffix)] characters are [suffix]. *)
Definition endswith (s suffix : string) : bool :=
  ((String.length suffix <=? String.length s)%nat
   && String.eqb (drop (String.length s - String.length suffix) s) suffix)%bool.

(** [s.endswith((a, b, ...))]: with a tuple, any of its members. *)
Definition endswith_any (s : string) (suffixes : list string) : bool :=
  existsb (endswith s) suffixes.

(** [s.rfind(c)]: the highest index of [c] in [s], or [-1]. *)
Fixpoint rfind (c : ascii) (s : string) : Z :=
  match s with
  | EmptyString => -1
  | String a t =>
      let r := rfind c t in
      if 0 <=? r then r + 1 else if Ascii.eqb a c then 0 else -1
  end.

(** [c in s] *)
Fixpoint contains (c : ascii) (s : string) : bool :=
  match s with
  | EmptyString => false
  | String a t => (Ascii.eqb a c || contains c t)%bool
  end.

(** [s.rstrip(c)] *)
Fixpoint rstrip (c : ascii) (s : string) : string :=
  match s with
  | EmptyString => EmptyString
  | String a t =>
      match rstrip c t with
      | EmptyString => if Ascii.eqb a c then EmptyString else String a EmptyString
      | t' => String a t'
      end
  end.

End Str.

(** ** [os.path] (posixpath) *)

Module Posixpath.

Definition sep : ascii := "/"%char.

(** [posixpath.basename]: [i = p.rfind('/') + 1; return p[i:]] *)
Definition basename (p : string) : string :=
  let i := Str.rfind sep p + 1 in
  Str.drop (Z.to_nat i) p.

(** [posixpath.dirname]: [head = p[:i]], stripped of trailing slashes
    unless it consists of slashes only. *)
Definition dirname (p : string) : string :=
  let i := Str.rfind sep p + 1 in
  let head := Str.take (Z.to_nat i) p in
  match Str.rstrip sep head with
  | EmptyString => head
  | stripped => stripped
  end.

(** [posixpath.join(a, b)] with two arguments. *)
Definition join (a b : string) : string :=
  if Str.startswith b "/" then b
  else if (String.eqb a "" || Str.endswith a "/")%bool then a ++ b
  else a ++ "/" ++ b.

End Posixpath.

(** ** Exceptions

    [exception] lists instances of Python's [Exception]; [raised] is
    [BaseException]: what an [except Exception] clause catches is exactly
    the [Exc] case. *)

Inductive exception : Type :=
| FileNotFoundError (path : string)
| IsADirectoryError (path : string)
| NotADirectoryError (path : string)
| FileExistsError (path : string)
| UnidentifiedImageError (detail : string)
| OSError (detail : string)
| ValueError (detail : string)
| TypeError (detail : string)
| cv2_error (detail : string)
| UnicodeEncodeError (detail : string).

Inductive raised : Type :=
| Exc (e : exception)
| SystemExit (code : Z)
| KeyboardInterrupt.

(** ** Pillow images *)

Module PIL.

Inductive mode : Type :=
| M_1 | M_L | M_P | M_LA | M_RGB | M_RGBA | M_CMYK | M_YCbCr | M_I | M_F.

Definition mode_eqb (a b : mode) : bool :=
  match a, b with
  | M_1, M_1 | M_L, M_L | M_P, M_P | M_LA, M_LA | M_RGB, M_RGB
  | M_RGBA, M_RGBA | M_CMYK, M_CMYK | M_YCbCr, M_YCbCr | M_I, M_I | M_F, M_F => true
  | _, _ => false
  end.

(** [len(img.getbands())] *)
Definition bands (m : mode) : nat :=
  match m with
  | M_1 | M_L | M_P | M_I | M_F => 1
  | M_LA => 2
  | M_RGB | M_YCbCr => 3
  | M_RGBA | M_CMYK => 4
  end.

(** An image object: its mode, its size and its pixel access
    ([im_px img x y c] is band [c] of [img.getpixel((x, y))]). *)
Record Image : Type := mkImage {
  im_mode : mode;
  im_width : Z;
  im_height : Z;
  im_px : Z -> Z -> nat -> Z
}.

Inductive Resampling : Type :=
| NEAREST | BOX | BILINEAR | HAMMING | BICUBIC | LANCZOS.

End PIL.
Export PIL.

(** ** numpy arrays of dtype uint8, two- or three-dimensional *)

Inductive ndarray : Type :=
| Arr2 (rows : list (list Z))
| Arr3 (rows : list (list (list Z))).

Inductive InpaintFlag : Type := INPAINT_NS | INPAINT_TELEA.
Inductive ThresholdType : Type := THRESH_BINARY | THRESH_BINARY_INV.
Inductive ColorCode : Type := COLOR_RGB2BGR | COLOR_BGR2RGB.

(** ** What the imported libraries provide

    - [pil_decode]: the image decoders behind [Image.open] (and the loading
      that [resize] triggers), on the bytes of a file;
    - [pil_resample]: the resampling filters of [Image.resize];
      [pil_resample f img w h] is the pixel access of the resized image;
    - [pil_convert_px]: the pixel conversions of [Image.convert] that are
      not written out in [Image_convert] below;
    - [pil_encode]: the encoders behind [Image.save], from the file name
      (whose extension selects the format), the image and the [quality]
      option; on an error, the bytes written so far, or [None] when the
      error comes before the file is opened (no encoder for this name);
    - [cv2_inpaint]: [cv2.inpaint(src, inpaintMask, inpaintRadius, flags)]. *)

Record External : Type := mkExternal {
  pil_decode : list byte -> exception + Image;
  pil_resample : Resampling -> Image -> Z -> Z -> (Z -> Z -> nat -> Z);
  pil_convert_px : mode -> mode -> (nat -> Z) -> (nat -> Z);
  pil_encode : string -> Image -> Z -> (exception * option (list byte)) + list byte;
  cv2_inpaint : ndarray -> ndarray -> Z -> InpaintFlag -> exception + ndarray
}.

(** [config.json], and the directory of the script. *)
Record Config : Type := mkConfig {
  cfg_INPUT_DIR : string;
  cfg_OUTPUT_DIR : string;
  cfg_MASK_FILENAME : string;
  cfg_SCRIPT_DIR : string
}.

(** [ztab n f] is [[f 0; f 1; ...; f (n-1)]] (empty when [n <= 0]). *)
Definition ztab {A} (n : Z) (f : Z -> A) : list A :=
  map (fun i => f (Z.of_nat i)) (seq 0 (Z.to_nat n)).

Section Imaging.

Variable ext : External.

(** [img.resize((w, h), resample)] *)
Definition Image_resize (img : Image) (size : Z * Z) (resample : Resampling) : Image :=
  let '(w, h) := size in
  {| im_mode := im_mode img;
     im_width := w;
     im_height := h;
     im_px := pil_resample ext resample img w h |}.

(** One pixel of [img.convert(dst)]: an alpha band is dropped, a grey
    level is copied to every colour band, a conversion to the same mode
    copies; the others are the library's. *)
Definition convert_px (src dst : mode) (p : nat -> Z) : nat -> Z :=
  match src, dst with
  | M_RGBA, M_RGB => fun c => p c
  | M_LA, M_L => fun c => p c
  | M_L, M_RGB => fun _ => p 0%nat
  | M_LA, M_RGB => fun _ => p 0%nat
  | _, _ => if mode_eqb src dst then p else pil_convert_px ext src dst p
  end.

(** [img.convert(dst)] *)
Definition Image_convert (img : Image) (dst : mode) : Image :=
  {| im_mode := dst;
     im_width := im_width img;
     im_height := im_height img;
     im_px := fun x y => convert_px (im_mode img) dst (im_px img x y) |}.

(** [Image.new(m, (w, h), color)] *)
Definition Image_new (m : mode) (size : Z * Z) (color : Z) : Image :=
  let '(w, h) := size in
  {| im_mode := m; im_width := w; im_height := h; im_px := fun _ _ _ => color |}.

(** [canvas.paste(im, (x0, y0))]: the box has the size of [im]; [im] is
    converted to the mode of the canvas when the modes differ; what falls
    outside the canvas is never read back, since the size is unchanged.
    The canvas is mutated in place; the script holds no other reference
    to it, so the updated image is returned. *)
Definition Image_paste (canvas im : Image) (box : Z * Z) : Image :=
  let '(x0, y0) := box in
  let im' := if mode_eqb (im_mode im) (im_mode canvas) then im
             else Image_convert im (im_mode canvas) in
  {| im_mode := im_mode canvas;
     im_width := im_width canvas;
     im_height := im_height canvas;
     im_px := fun x y =>
       if ((x0 <=? x) && (x <? x0 + im_width im') && (y0 <=? y) && (y <? y0 + im_height im'))%bool
       then im_px im' (x - x0) (y - y0)
       else im_px canvas x y |}.

(** [np.array(img)]: shape [(h, w)] for a one-band image and
    [(h, w, bands)] otherwise.  (The script only converts modes L and
    RGB, whose dtype is uint8.) *)
Definition np_array (img : Image) : ndarray :=
  let w := im_width img in
  let h := im_height img in
  if (bands (im_mode img) =? 1)%nat
  then Arr2 (ztab h (fun y => ztab w (fun x => im_px img x y 0%nat)))
  else Arr3 (ztab h (fun y => ztab w (fun x =>
               map (im_px img x y) (seq 0 (bands (im_mode img)))))).

(** [np.ones((h, w), np.uint8)] *)
Definition np_ones (shape : Z * Z) : ndarray :=
  let '(h, w) := shape in
  Arr2 (ztab h (fun _ => ztab w (fun _ => 1))).

(** [Image.fromarray(arr)] for uint8 arrays: mode L for two dimensions,
    RGB or RGBA for three or four channels. *)
Definition Image_fromarray (arr : ndarray) : exception + Image :=
  match arr with
  | Arr2 rows =>
      inr {| im_mode := M_L;
             im_width := Z.of_nat (length (hd [] rows));
             im_height := Z.of_nat (length rows);
             im_px := fun x y _ => nth (Z.to_nat x) (nth (Z.to_nat y) rows []) 0 |}
  | Arr3 rows =>
      let channels := length (hd [] (hd [] rows)) in
      let img m :=
        {| im_mode := m;
           im_width := Z.of_nat (length (hd [] rows));
           im_height := Z.of_nat (length rows);
           im_px := fun x y c =>
             nth c (nth (Z.to_nat x) (nth (Z.to_nat y) rows []) []) 0 |} in
      if (channels =? 3)%nat then inr (img M_RGB)
      else if (channels =? 4)%nat then inr (img M_RGBA)
      else inl (TypeError "Cannot handle this data type")
  end.

(** *** OpenCV *)

(** One pixel of a red/blue swap: three channels, or four whose alpha is
    dropped. *)
Definition swap_rb (px : list Z) : option (list Z) :=
  match px with
  | [c0; c1; c2] => Some [c2; c1; c0]
  | [c0; c1; c2; _] => Some [c2; c1; c0]
  | _ => None
  end.

(** [cv2.cvtColor(src, code)] for the two codes the script uses, which
    are the same channel swap; the source must have 3 or 4 channels. *)
Definition cv2_cvtColor (src : ndarray) (code : ColorCode) : exception + ndarray :=
  match src with
  | Arr2 _ => inl (cv2_error "Invalid number of channels in input image")
  | Arr3 rows =>
      match mapM (mapM swap_rb) rows with
      | Some rows' => inr (Arr3 rows')
      | None => inl (cv2_error "Invalid number of channels in input image")
      end
  end.

Definition threshold_value (thresh maxval : Z) (type : ThresholdType) (v : Z) : Z :=
  match type with
  | THRESH_BINARY => if v >? thresh then maxval else 0
  | THRESH_BINARY_INV => if v >? thresh then 0 else maxval
  end.

(** [cv2.threshold(src, thresh, maxval, type)] returns the threshold
    used and the thresholded array. *)
Definition cv2_threshold (src : ndarray) (thresh maxval : Z) (type : ThresholdType)
  : Z * ndarray :=
  (thresh,
   match src with
   | Arr2 rows => Arr2 (map (map (threshold_value thresh maxval type)) rows)
   | Arr3 rows => Arr3 (map (map (map (threshold_value thresh maxval type))) rows)
   end).

(** [src[y][x]], and the border value 0 outside the array (the default
    border of a dilation never wins the maximum). *)
Definition get2 (src : list (list Z)) (y x : Z) : Z :=
  if ((0 <=? y) && (0 <=? x))%bool
  then nth (Z.to_nat x) (nth (Z.to_nat y) src []) 0
  else 0.

(** The offsets [(dy, dx)] of the nonzero entries of a structuring
    element, relative to its anchor, the centre by default. *)
Definition kernel_offsets (kernel : list (list Z)) : list (Z * Z) :=
  let ay := Z.of_nat (length kernel) / 2 in
  let ax := Z.of_nat (length (hd [] kernel)) / 2 in
  concat (imap (fun i row =>
            concat (imap (fun j v =>
                      if v =? 0 then [] else [(Z.of_nat i - ay, Z.of_nat j - ax)]) row))
          kernel).

(** [dst(x, y) = max over the element of src(x + dx, y + dy)] *)
Definition dilate_at (src : list (list Z)) (offsets : list (Z * Z)) (y x : Z) : Z :=
  fold_right Z.max 0 (map (fun d => get2 src (y + fst d) (x + snd d)) offsets).

Definition dilate_once (offsets : list (Z * Z)) (src : list (list Z)) : list (list Z) :=
  imap (fun y row => imap (fun x _ => dilate_at src offsets (Z.of_nat y) (Z.of_nat x)) row) src.

Fixpoint dilate_iter (n : nat) (offsets : list (Z * Z)) (src : list (list Z)) : list (list Z) :=
  match n with
  | O => src
  | S n' => dilate_iter n' offsets (dilate_once offsets src)
  end.

(** The same on an array with channels, each channel on its own. *)
Definition get3 (src : list (list (list Z))) (y x : Z) (c : nat) : Z :=
  if ((0 <=? y) && (0 <=? x))%bool
  then nth c (nth (Z.to_nat x) (nth (Z.to_nat y) src []) []) 0
  else 0.

Definition dilate_once3 (offsets : list (Z * Z)) (src : list (list (list Z)))
  : list (list (list Z)) :=
  imap (fun y row =>
    imap (fun x px =>
      imap (fun c _ =>
        fold_right Z.max 0
          (map (fun d => get3 src (Z.of_nat y + fst d) (Z.of_nat x + snd d) c) offsets))
        px) row) src.

Fixpoint dilate_iter3 (n : nat) (offsets : list (Z * Z)) (src : list (list (list Z)))
  : list (list (list Z)) :=
  match n with
  | O => src
  | S n' => dilate_iter3 n' offsets (dilate_once3 offsets src)
  end.

(** An array without elements: no rows, no columns or no channels
    ([src.empty()] in OpenCV). *)
Definition array_empty (a : ndarray) : bool :=
  match a with
  | Arr2 [] | Arr2 ([] :: _) => true
  | Arr2 _ => false
  | Arr3 [] | Arr3 ([] :: _) | Arr3 (([] :: _) :: _) => true
  | Arr3 _ => false
  end.

(** [cv2.dilate(src, kernel, iterations=n)]; the kernel is a
    two-dimensional array, and an empty source is refused (the assertion
    [!src.empty()] of OpenCV).  (OpenCV runs [n] iterations of a full
    rectangle as one pass of a larger rectangle, which is the same
    function.) *)
Definition cv2_dilate (src kernel : ndarray) (iterations : Z) : exception + ndarray :=
  match kernel with
  | Arr2 k =>
      if array_empty src then inl (cv2_error "dilate: (-215:Assertion failed) !src.empty()")
      else
        let offsets := kernel_offsets k in
        match src with
        | Arr2 rows => inr (Arr2 (dilate_iter (Z.to_nat iterations) offsets rows))
        | Arr3 rows => inr (Arr3 (dilate_iter3 (Z.to_nat iterations) offsets rows))
        end
  | Arr3 _ => inl (cv2_error "dilate: the kernel must be two-dimensional")
  end.

End Imaging.

(** ** The world: file system and what the process does to its surroundings *)

(** The lines the script prints, with the values they interpolate. *)
Inductive message : Type :=
| Msg_loading_and_resizing (input_path : string)
| Msg_error_reading_image (e : exception)
| Msg_critical_mask_not_found (mask_path : string)
| Msg_saving_result (output_path : string)
| Msg_done (name : string)
| Msg_new_image_detected (filename : string)
| Msg_failed_to_process (filename : string) (e : exception)
| Msg_mask_not_found (mask_filename script_dir : string)
| Msg_place_mask_file
| Msg_started_watching (input_dir : string)
| Msg_saving_to (output_dir : string)
| Msg_using_mask (mask_path : string)
| Msg_press_ctrl_c.

(** The calls that leave the script, in the order they are made. *)
Inductive event : Type :=
| Print (m : message)
| Sleep (seconds : Z)
| PathExists (path : string)
| Makedirs (path : string)
| Open (path : string)
| Inpaint (radius : Z) (flags : InpaintFlag)
| Save (path : string) (quality : Z)
| ObserverSchedule (path : string) (recursive : bool)
| ObserverStart
| ObserverStop
| ObserverJoin.

(** Paths are taken literally, as names in normal form: no symbolic
    links, no [.] or [..], no doubled or trailing slash.  Every file can
    be read and every directory written to. *)
Record World : Type := mkWorld {
  fs_files : gmap string (list byte);
  fs_dirs : gset string;
  trace : list event
}.

Inductive outcome (A : Type) : Type :=
| Ret (a : A)
| Raise (r : raised).
Arguments Ret {A} a.
Arguments Raise {A} r.

(** A computation changes the world and returns or raises. *)
Definition M (A : Type) : Type := World -> outcome A * World.

Definition ret {A} (a : A) : M A := fun w => (Ret a, w).

Definition raise {A} (r : raised) : M A := fun w => (Raise r, w).

Definition bind {A B} (c : M A) (k : A -> M B) : M B :=
  fun w =>
    match c w with
    | (Ret a, w') => k a w'
    | (Raise r, w') => (Raise r, w')
    end.

Declare Scope py_scope.
Delimit Scope py_scope with py.
Notation "x <- c1 ;; c2" := (bind c1 (fun x => c2))
  (at level 100, c1 at next level, right associativity) : py_scope.
Notation "c1 ;; c2" := (bind c1 (fun _ => c2))
  (at level 100, right associativity) : py_scope.
Local Open Scope py_scope.

(** A library call that returns or raises an [Exception]. *)
Definition lift {A} (r : exception + A) : M A :=
  match r with
  | inr a => ret a
  | inl e => raise (Exc e)
  end.

(** [try: body / except Exception as e: handler(e)] *)
Definition try_except {A} (body : M A) (handler : exception -> M A) : M A :=
  fun w =>
    match body w with
    | (Raise (Exc e), w') => handler e w'
    | r => r
    end.

Definition log (ev : event) : M unit :=
  fun w => (Ret tt, {| fs_files := fs_files w; fs_dirs := fs_dirs w; trace := trace w ++ [ev] |}).

(** [print(...)] on a console that takes the line.  A console that
    cannot encode a line makes [print] raise: that is [print_on] below,
    and the functions that handle a file are given a second time there,
    with the console as a parameter. *)
Definition print (m : message) : M unit := log (Print m).

(** [time.sleep(seconds)] *)
Definition time_sleep (seconds : Z) : M unit := log (Sleep seconds).

(** [sys.exit(code)] *)
Definition sys_exit {A} (code : Z) : M A := raise (SystemExit code).

Definition is_file (w : World) (p : string) : bool := bool_decide (is_Some (fs_files w !! p)).
Definition is_dir (w : World) (p : string) : bool := bool_decide (p ∈ fs_dirs w).

(** [os.path.exists(p)] *)
Definition os_path_exists (p : string) : M bool :=
  log (PathExists p) ;;
  fun w => (Ret (is_file w p || is_dir w p)%bool, w).

(** The directories above [d], nearest first. *)
Fixpoint parents (fuel : nat) (d : string) : list string :=
  match fuel with
  | O => []
  | S fuel' =>
      let h := Posixpath.dirname d in
      if (String.eqb (Str.rstrip Posixpath.sep h) "" || String.eqb h d)%bool then []
      else h :: parents fuel' h
  end.

(** What opening or creating [p] raises when [p] is not there: a regular
    file above it makes it [NotADirectoryError], otherwise the path is
    missing. *)
Definition path_error (w : World) (p : string) : exception :=
  if existsb (is_file w) (parents (String.length p) p)
  then NotADirectoryError p
  else FileNotFoundError p.

(** The exception of [open(p)] for reading when [p] is no regular file. *)
Definition open_error (w : World) (p : string) : exception :=
  if is_dir w p then IsADirectoryError p else path_error w p.

(** The path [os.makedirs] fails at when a regular file is above [name]:
    it climbs to the nearest path that exists and makes the directories
    from there down, so [mkdir] fails directly below that file. *)
Definition below_file (w : World) (name : string) : string :=
  default name
    (find (fun d => is_file w (Posixpath.dirname d))
          (name :: parents (String.length name) name)).

(** [os.makedirs(name, exist_ok=exist_ok)]: the leaf directory and the
    missing ones above it.  The empty name is no path. *)
Definition os_makedirs (name : string) (exist_ok : bool) : M unit :=
  log (Makedirs name) ;;
  fun w =>
    let above := parents (String.length name) name in
    if String.eqb name "" then (Raise (Exc (FileNotFoundError name)), w)
    else if existsb (is_file w) above
         then (Raise (Exc (NotADirectoryError (below_file w name))), w)
    else if (is_file w name || (is_dir w name && negb exist_ok))%bool
         then (Raise (Exc (FileExistsError name)), w)
    else if is_dir w name then (Ret tt, w)
    else (Ret tt, {| fs_files := fs_files w;
                     fs_dirs := fs_dirs w ∪ {[ name ]} ∪ list_to_set above;
                     trace := trace w |}).

Section Files.

Variable ext : External.

(** [Image.open(p)], together with the decoding of the file. *)
Definition Image_open (p : string) : M Image :=
  log (Open p) ;;
  fun w =>
    match fs_files w !! p with
    | Some content => lift (pil_decode ext content) w
    | None => (Raise (Exc (open_error w p)), w)
    end.

(** The directory a new file goes to exists: the current directory
    ([dirname] empty), the root, or a directory of the file system. *)
Definition parent_exists (w : World) (p : string) : bool :=
  let d := Posixpath.dirname p in
  (String.eqb (Str.rstrip Posixpath.sep d) "" || is_dir w d)%bool.

Definition write_file (p : string) (content : list byte) (w : World) : World :=
  {| fs_files := <[ p := content ]> (fs_files w); fs_dirs := fs_dirs w; trace := trace w |}.

(** [img.save(p, quality=q)].  The encoder is chosen from the name before
    the file is opened; the file is then opened for writing, which
    creates or truncates it, and written.  When the encoder fails in the
    middle, a file that [save] created is removed again and a file that
    was there keeps what had been written. *)
Definition Image_save (img : Image) (p : string) (quality : Z) : M unit :=
  log (Save p quality) ;;
  fun w =>
    match pil_encode ext p img quality with
    | inl (e, None) => (Raise (Exc e), w)
    | encoded =>
        if is_dir w p then (Raise (Exc (IsADirectoryError p)), w)
        else if negb (parent_exists w p) then (Raise (Exc (path_error w p)), w)
        else match encoded with
             | inr content => (Ret tt, write_file p content w)
             | inl (e, partial) =>
                 (Raise (Exc e),
                  if is_file w p then write_file p (default [] partial) w else w)
             end
    end.

End Files.

(** A creation event of the watchdog library. *)
Record FileSystemEvent : Type := mkEvent {
  is_directory : bool;
  src_path : string
}.

(** ** The script *)

Section Script.

Variable cfg : Config.
Variable ext : External.

Definition INPUT_DIR : string := cfg_INPUT_DIR cfg.
Definition OUTPUT_DIR : string := cfg_OUTPUT_DIR cfg.
Definition MASK_FILENAME : string := cfg_MASK_FILENAME cfg.
Definition SCRIPT_DIR : string := cfg_SCRIPT_DIR cfg.

Definition TARGET_WIDTH : Z := 1280.
Definition TARGET_HEIGHT : Z := 720.
Definition MASK_SIZE : Z := 45.
Definition PADDING_RIGHT : Z := 30.
Definition PADDING_BOTTOM : Z := 30.

(** Lines 29-31, run when the module is loaded. *)
Definition ensure_directories : M unit :=
  os_makedirs INPUT_DIR true ;;
  os_makedirs OUTPUT_DIR true.

Definition MASK_PATH : string := Posixpath.join SCRIPT_DIR MASK_FILENAME.

Definition resize_image (input_path : string) : M (option ndarray) :=
  print (Msg_loading_and_resizing input_path) ;;
  try_except
    (img <- Image_open ext input_path ;;
     let resized_img := Image_resize ext img (TARGET_WIDTH, TARGET_HEIGHT) LANCZOS in
     let resized_img :=
       if negb (mode_eqb (im_mode resized_img) M_RGB)
       then Image_convert ext resized_img M_RGB
       else resized_img in
     img_cv <- lift (cv2_cvtColor (np_array resized_img) COLOR_RGB2BGR) ;;
     ret (Some img_cv))
    (fun e =>
       print (Msg_error_reading_image e) ;;
       ret None).

Definition create_mask (mask_path : string) : M ndarray :=
  mask_img <- Image_open ext mask_path ;;
  let mask_resized := Image_resize ext mask_img (MASK_SIZE, MASK_SIZE) LANCZOS in
  let mask_resized :=
    if negb (mode_eqb (im_mode mask_resized) M_L)
    then Image_convert ext mask_resized M_L
    else mask_resized in
  let offset_x := TARGET_WIDTH - MASK_SIZE - PADDING_RIGHT in
  let offset_y := TARGET_HEIGHT - MASK_SIZE - PADDING_BOTTOM in
  let mask_canvas := Image_new M_L (TARGET_WIDTH, TARGET_HEIGHT) 0 in
  let mask_canvas := Image_paste ext mask_canvas mask_resized (offset_x, offset_y) in
  let mask_cv := np_array mask_canvas in
  let '(_, mask_binary) := cv2_threshold mask_cv 127 255 THRESH_BINARY in
  ret mask_binary.

Definition inpaint_image (img_cv mask_binary : ndarray) : M ndarray :=
  let kernel := np_ones (3, 3) in
  mask_dilated <- lift (cv2_dilate mask_binary kernel 2) ;;
  log (Inpaint 15 INPAINT_NS) ;;
  result_cv <- lift (cv2_inpaint ext img_cv mask_dilated 15 INPAINT_NS) ;;
  ret result_cv.

Definition process_file_logic (input_path output_path : string) : M unit :=
  mask_found <- os_path_exists MASK_PATH ;;
  if negb mask_found then
    print (Msg_critical_mask_not_found MASK_PATH)
  else
    img_cv <- resize_image input_path ;;
    match img_cv with
    | None => ret tt
    | Some img_cv =>
        mask_binary <- create_mask MASK_PATH ;;
        result_cv <- inpaint_image img_cv mask_binary ;;
        print (Msg_saving_result output_path) ;;
        rgb <- lift (cv2_cvtColor result_cv COLOR_BGR2RGB) ;;
        result_img <- lift (Image_fromarray rgb) ;;
        Image_save ext result_img output_path 95 ;;
        print (Msg_done (Posixpath.basename output_path))
    end.

Definition image_extensions : list string :=
  [".png"; ".jpg"; ".jpeg"; ".bmp"; ".tiff"].

(** [WatermarkHandler.on_created] *)
Definition on_created (ev : FileSystemEvent) : M unit :=
  if is_directory ev then ret tt
  else
    let filename := Posixpath.basename (src_path ev) in
    if negb (Str.endswith_any (Str.lower filename) image_extensions) then ret tt
    else
      time_sleep 1 ;;
      print (Msg_new_image_detected filename) ;;
      let output_path := Posixpath.join OUTPUT_DIR filename in
      try_except
        (process_file_logic (src_path ev) output_path)
        (fun e => print (Msg_failed_to_process filename e)).

(** The observer thread hands the creation events to the handler one
    after the other; an exception that escapes the handler ends the
    thread, and the events behind it are never handled. *)
Fixpoint observer_run (events : list FileSystemEvent) : M unit :=
  match events with
  | [] => ret tt
  | ev :: rest => on_created ev ;; observer_run rest
  end.

(** The main block.  [events] are the creation events that the observer
    delivers before the interrupt; the main thread only sleeps meanwhile
    (its sleeps are not recorded), and an exception in the observer
    thread does not reach it. *)
Definition main (events : list FileSystemEvent) : M unit :=
  mask_found <- os_path_exists MASK_PATH ;;
  (if negb mask_found then
     print (Msg_mask_not_found MASK_FILENAME SCRIPT_DIR) ;;
     print Msg_place_mask_file ;;
     sys_exit 1
   else ret tt) ;;
  log (ObserverSchedule INPUT_DIR false) ;;
  log ObserverStart ;;
  print (Msg_started_watching INPUT_DIR) ;;
  print (Msg_saving_to OUTPUT_DIR) ;;
  print (Msg_using_mask MASK_PATH) ;;
  print Msg_press_ctrl_c ;;
  (fun w => (Ret tt, snd (observer_run events w))) ;;
  log ObserverStop ;;
  log ObserverJoin.

(** The whole script: module level, then the main block. *)
Definition script (events : list FileSystemEvent) : M unit :=
  ensure_directories ;;
  main events.

(** The exit status of the process. *)
Definition exit_code (r : outcome unit) : Z :=
  match r with
  | Ret _ => 0
  | Raise (SystemExit code) => code
  | Raise _ => 1
  end.

End Script.

(** ** The handler on a console that can refuse a line

    [print] raises when the console does not take the line:
    [UnicodeEncodeError] when the encoding of the console has no code for
    a character of it (a file name can hold such a character),
    [BrokenPipeError], an [OSError], when the output is a pipe that was
    closed.  [console m] is what printing the line [m] raises, if
    anything; a line that is refused is not printed.  The functions that
    handle a file are repeated here with this [print], line for line; on
    a console that takes every line they are the ones above. *)

Section OnConsole.

Variable cfg : Config.
Variable ext : External.
Variable console : message -> option exception.

Definition print_on (m : message) : M unit :=
  match console m with
  | None => log (Print m)
  | Some e => raise (Exc e)
  end.

Definition resize_image_on (input_path : string) : M (option ndarray) :=
  print_on (Msg_loading_and_resizing input_path) ;;
  try_except
    (img <- Image_open ext input_path ;;
     let resized_img := Image_resize ext img (TARGET_WIDTH, TARGET_HEIGHT) LANCZOS in
     let resized_img :=
       if negb (mode_eqb (im_mode resized_img) M_RGB)
       then Image_convert ext resized_img M_RGB
       else resized_img in
     img_cv <- lift (cv2_cvtColor (np_array resized_img) COLOR_RGB2BGR) ;;
     ret (Some img_cv))
    (fun e =>
       print_on (Msg_error_reading_image e) ;;
       ret None).

Definition process_file_logic_on (input_path output_path : string) : M unit :=
  mask_found <- os_path_exists (MASK_PATH cfg) ;;
  if negb mask_found then
    print_on (Msg_critical_mask_not_found (MASK_PATH cfg))
  else
    img_cv <- resize_image_on input_path ;;
    match img_cv with
    | None => ret tt
    | Some img_cv =>
        mask_binary <- create_mask ext (MASK_PATH cfg) ;;
        result_cv <- inpaint_image ext img_cv mask_binary ;;
        print_on (Msg_saving_result output_path) ;;
        rgb <- lift (cv2_cvtColor result_cv COLOR_BGR2RGB) ;;
        result_img <- lift (Image_fromarray rgb) ;;
        Image_save ext result_img output_path 95 ;;
        print_on (Msg_done (Posixpath.basename output_path))
    end.

Definition on_created_on (ev : FileSystemEvent) : M unit :=
  if is_directory ev then ret tt
  else
    let filename := Posixpath.basename (src_path ev) in
    if negb (Str.endswith_any (Str.lower filename) image_extensions) then ret tt
    else
      time_sleep 1 ;;
      print_on (Msg_new_image_detected filename) ;;
      let output_path := Posixpath.join (OUTPUT_DIR cfg) filename in
      try_except
        (process_file_logic_on (src_path ev) output_path)
        (fun e => print_on (Msg_failed_to_process filename e)).

Fixpoint observer_run_on (events : list FileSystemEvent) : M unit :=
  match events with
  | [] => ret tt
  | ev :: rest => on_created_on ev ;; observer_run_on rest
  end.

End OnConsole.

(** ** Vocabulary of the statements *)

(** The world after some more events. *)
Definition add_events (w : World) (evs : list event) : World :=
  {| fs_files := fs_files w; fs_dirs := fs_dirs w; trace := trace w ++ evs |}.

(** The same files and directories. *)
Definition same_fs (w w' : World) : Prop :=
  fs_files w' = fs_files w /\ fs_dirs w' = fs_dirs w.

(** A raster of [h] rows of [w] values. *)
Definition raster_shape (rows : list (list Z)) (h w : Z) : Prop :=
  Z.of_nat (length rows) = h /\ Forall (fun row => Z.of_nat (length row) = w) rows.

(** An array of [h] rows of [w] pixels of [c] channels. *)
Definition image_shape (rows : list (list (list Z))) (h w c : Z) : Prop :=
  Z.of_nat (length rows) = h /\
  Forall (fun row => Z.of_nat (length row) = w /\
                     Forall (fun px => Z.of_nat (length px) = c) row) rows.

(** Only the values 0 and 255. *)
Definition binary (rows : list (list Z)) : Prop :=
  Forall (Forall (fun v => v = 0 \/ v = 255)) rows.

(** All values at least 0, as in every uint8 array. *)
Definition nonneg (rows : list (list Z)) : Prop :=
  Forall (Forall (fun v => 0 <= v)) rows.

(** [(x, y)] is a pixel of the raster. *)
Definition in_raster (rows : list (list Z)) (y x : Z) : Prop :=
  exists row v, rows !! Z.to_nat y = Some row /\ row !! Z.to_nat x = Some v /\ 0 <= y /\ 0 <= x.

(** [(x, y)] is a pixel of the nonzero region of the raster. *)
Definition nonzero_at (rows : list (list Z)) (y x : Z) : Prop :=
  exists row v, rows !! Z.to_nat y = Some row /\ row !! Z.to_nat x = Some v /\
                0 <= y /\ 0 <= x /\ v <> 0.

(** The nonzero region of [big] contains that of [small]. *)
Definition region_included (small big : list (list Z)) : Prop :=
  forall y x, nonzero_at small y x -> nonzero_at big y x.

(** ... and has a pixel more. *)
Definition region_strictly_larger (small big : list (list Z)) : Prop :=
  region_included small big /\
  exists y x, nonzero_at big y x /\ ~ nonzero_at small y x.

(** The 3 x 3 all-ones structuring element, as offsets from its centre. *)
Definition square3 : list (Z * Z) :=
  [(-1, -1); (-1, 0); (-1, 1); (0, -1); (0, 0); (0, 1); (1, -1); (1, 0); (1, 1)].

(** The mask asset as [create_mask] pastes it: resized, then grey. *)
Definition mask_resized (ext : External) (asset : Image) : Image :=
  let r := Image_resize ext asset (MASK_SIZE, MASK_SIZE) LANCZOS in
  if negb (mode_eqb (im_mode r) M_L) then Image_convert ext r M_L else r.

(** The input image as [resize_image] hands it to numpy: resized, then RGB. *)
Definition working_rgb (ext : External) (img : Image) : Image :=
  let r := Image_resize ext img (TARGET_WIDTH, TARGET_HEIGHT) LANCZOS in
  if negb (mode_eqb (im_mode r) M_RGB) then Image_convert ext r M_RGB else r.

(** The array [resize_image] returns for a three-band image: rows of
    pixels in blue, green, red order. *)
Definition bgr_array (im : Image) : ndarray :=
  Arr3 (ztab (im_height im) (fun y =>
          ztab (im_width im) (fun x =>
            [im_px im x y 2%nat; im_px im x y 1%nat; im_px im x y 0%nat]))).

(** The value of the mask at [(x, y)]: inside the 45 x 45 box at
    [(1205, 645)] the thresholded asset, zero elsewhere. *)
Definition mask_value (grey : Image) (x y : Z) : Z :=
  if ((1205 <=? x) && (x <? 1250) && (645 <=? y) && (y <? 690))%bool
  then (if im_px grey (x - 1205) (y - 645) 0%nat >? 127 then 255 else 0)
  else 0.

Definition mask_rows (grey : Image) : list (list Z) :=
  ztab 720 (fun y => ztab 1280 (fun x => mask_value grey x y)).

(** The extension of a file name: what follows its last dot. *)
Definition extension (filename : string) : option string :=
  let i := Str.rfind "."%char filename in
  if i <? 0 then None else Some (Str.drop (Z.to_nat (i + 1)) filename).

Definition allowed_extensions : list string := ["png"; "jpg"; "jpeg"; "bmp"; "tiff"].

(** The extension, compared without regard to case, is on the allow-list. *)
Definition has_allowed_extension (filename : string) : bool :=
  match extension filename with
  | Some e => existsb (String.eqb (Str.lower e)) allowed_extensions
  | None => false
  end.

(** An event the handler does not drop. *)
Definition qualifies (ev : FileSystemEvent) : bool :=
  (negb (is_directory ev) && has_allowed_extension (Posixpath.basename (src_path ev)))%bool.

(** A run of [process_file_logic] that went through: it returned and its
    last line is the one that reports the file as done. *)
Definition successful_run (r : outcome unit * World) : Prop :=
  fst r = Ret tt /\
  exists name, last (trace (snd r)) = Some (Print (Msg_done name)).

(** What a run of [process_file_logic] that goes through does, in order. *)
Definition success_events (cfg : Config) (input_path output_path : string) : list event :=
  [PathExists (MASK_PATH cfg);
   Print (Msg_loading_and_resizing input_path);
   Open input_path;
   Open (MASK_PATH cfg);
   Inpaint 15 INPAINT_NS;
   Print (Msg_saving_result output_path);
   Save output_path 95;
   Print (Msg_done (Posixpath.basename output_path))].

(** The steps before the save succeed in the world [w], and [result_img]
    is the image handed to [save]: the input decodes, the mask asset
    decodes, the inpainting of the working image under the dilated mask
    returns, and its result, converted from BGR back to RGB, is an image. *)
Definition reaches_save (cfg : Config) (ext : External) (input_path : string)
    (w : World) (result_img : Image) : Prop :=
  exists bytes img bytes' asset result_cv rgb,
    fs_files w !! input_path = Some bytes /\ pil_decode ext bytes = inr img /\
    fs_files w !! MASK_PATH cfg = Some bytes' /\ pil_decode ext bytes' = inr asset /\
    cv2_inpaint ext (bgr_array (working_rgb ext img))
      (Arr2 (dilate_once square3 (dilate_once square3
               (mask_rows (mask_resized ext asset)))))
      15 INPAINT_NS = inr result_cv /\
    cv2_cvtColor result_cv COLOR_BGR2RGB = inr rgb /\
    Image_fromarray rgb = inr result_img.

(** Every step succeeds, and [content] is what the last one writes: the
    result encoded with quality 95, at an output path that can be written. *)
Definition pipeline_ok (cfg : Config) (ext : External) (input_path output_path : string)
    (w : World) (content : list byte) : Prop :=
  exists result_img,
    reaches_save cfg ext input_path w result_img /\
    pil_encode ext output_path result_img 95 = inr content /\
    is_dir w output_path = false /\
    parent_exists w output_path = true.

(** Reading a trace: the file names the handler announces, the paths
    whose existence is looked up, the saves that are attempted. *)
Definition detection (e : event) : option string :=
  match e with
  | Print (Msg_new_image_detected filename) => Some filename
  | _ => None
  end.

Definition existence_check (e : event) : option string :=
  match e with
  | PathExists p => Some p
  | _ => None
  end.

Definition save_attempt (e : event) : option (string * Z) :=
  match e with
  | Save p quality => Some (p, quality)
  | _ => None
  end.

(** [(y', x')] is at most [r] rows and [r] columns away from [(y, x)]. *)
Definition within (r y x y' x' : Z) : Prop :=
  Z.abs (y' - y) <= r /\ Z.abs (x' - x) <= r.

(** Nothing but an [Exception] comes out of [c]: no [SystemExit], no
    [KeyboardInterrupt]. *)
Definition exceptions_only {A} (c : M A) : Prop :=
  forall w r, fst (c w) = Raise r -> exists e, r = Exc e.

(** A console that takes every line. *)
Definition takes_all : message -> option exception := fun _ => None.

(** *** A small instance, for examples *)

Module Demo.

Definition cfg : Config :=
  {| cfg_INPUT_DIR := "in"; cfg_OUTPUT_DIR := "out";
     cfg_MASK_FILENAME := "mask.png"; cfg_SCRIPT_DIR := "/app" |}.

(** A toy decoder: the first byte gives the mode, the second the grey
    level of a 2 x 2 image; no bytes, no image. *)
Definition decode (content : list byte) : exception + Image :=
  match content with
  | m :: v :: _ =>
      inr {| im_mode := match Byte.to_nat m with
                        | O => M_L | 1%nat => M_RGB | 2%nat => M_RGBA | _ => M_P
                        end;
             im_width := 2; im_height := 2;
             im_px := fun _ _ c => Z.of_nat (Byte.to_nat v) - Z.of_nat c |}
  | _ => inl (UnidentifiedImageError "cannot identify image file")
  end.

(** Nearest neighbour. *)
Definition resample (_ : Resampling) (img : Image) (w h : Z) : Z -> Z -> nat -> Z :=
  fun x y c => im_px img (x * im_width img / w) (y * im_height img / h) c.

(** An encoder that writes the quality and knows no [.gif]. *)
Definition encode (p : string) (img : Image) (quality : Z)
  : (exception * option (list byte)) + list byte :=
  if Str.endswith p ".gif" then inl (ValueError "unknown file extension", None)
  else inr [Byte.x50; default Byte.x00 (Byte.of_nat (Z.to_nat quality))].

(** An inpainting that returns one fixed BGR pixel, and refuses a mask
    with channels. *)
Definition inpaint (src mask : ndarray) (radius : Z) (flags : InpaintFlag)
  : exception + ndarray :=
  match mask with
  | Arr2 _ => inr (Arr3 [[[10; 20; 30]]])
  | Arr3 _ => inl (cv2_error "inpaintMask must be single-channel")
  end.

Definition ext : External :=
  {| pil_decode := decode;
     pil_resample := resample;
     pil_convert_px := fun _ _ p _ => p 0%nat;
     pil_encode := encode;
     cv2_inpaint := inpaint |}.

Definition white : list byte := [Byte.x00; Byte.xff].
Definition black : list byte := [Byte.x00; Byte.x00].
Definition photo : list byte := [Byte.x02; Byte.x64].

(** The mask asset next to the script, one photo in the input directory. *)
Definition world : World :=
  {| fs_files := {[ "/app/mask.png" := white; "in/photo.jpg" := photo ]};
     fs_dirs := {[ "in"; "out"; "/app" ]};
     trace := [] |}.

(** The same with a file that is no image. *)
Definition world_corrupt : World :=
  {| fs_files := {[ "/app/mask.png" := white; "in/bad.png" := [] ]};
     fs_dirs := {[ "in"; "out"; "/app" ]};
     trace := [] |}.

(** The same after the output directory was removed. *)
Definition world_no_out : World :=
  {| fs_files := {[ "/app/mask.png" := white; "in/photo.jpg" := photo ]};
     fs_dirs := {[ "in"; "/app" ]};
     trace := [] |}.

(** The same without the mask asset. *)
Definition world_no_mask : World :=
  {| fs_files := {[ "in/photo.jpg" := photo ]};
     fs_dirs := {[ "in"; "out"; "/app" ]};
     trace := [] |}.

(** The same with an all-dark mask asset. *)
Definition world_dark_mask : World :=
  {| fs_files := {[ "/app/mask.png" := black; "in/photo.jpg" := photo ]};
     fs_dirs := {[ "in"; "out"; "/app" ]};
     trace := [] |}.

Definition photo_created : FileSystemEvent :=
  {| is_directory := false; src_path := "in/photo.jpg" |}.

Definition bad_created : FileSystemEvent :=
  {| is_directory := false; src_path := "in/bad.png" |}.

(** Input and output in the same directory. *)
Definition cfg_in_place : Config :=
  {| cfg_INPUT_DIR := "in"; cfg_OUTPUT_DIR := "in";
     cfg_MASK_FILENAME := "mask.png"; cfg_SCRIPT_DIR := "/app" |}.

(** A directory where the mask asset should be. *)
Definition world_mask_is_dir : World :=
  {| fs_files := {[ "in/photo.jpg" := photo ]};
     fs_dirs := {[ "in"; "out"; "/app"; "/app/mask.png" ]};
     trace := [] |}.

(** A file where the output directory should be. *)
Definition world_out_is_file : World :=
  {| fs_files := {[ "/app/mask.png" := white; "out" := [] ]};
     fs_dirs := {[ "/app" ]};
     trace := [] |}.

(** Before the module is loaded: no input and no output directory yet. *)
Definition world_fresh : World :=
  {| fs_files := {[ "/app/mask.png" := white ]};
     fs_dirs := {[ "/app" ]};
     trace := [] |}.

(** [str.isascii] *)
Fixpoint isascii (s : string) : bool :=
  match s with
  | EmptyString => true
  | String c t => ((nat_of_ascii c <? 128)%nat && isascii t)%bool
  end.

(** The text an exception is printed with holds the path or the detail
    it was made with. *)
Definition exception_text (e : exception) : string :=
  match e with
  | FileNotFoundError s | IsADirectoryError s | NotADirectoryError s
  | FileExistsError s | UnidentifiedImageError s | OSError s | ValueError s
  | TypeError s | cv2_error s | UnicodeEncodeError s => s
  end.

(** A console whose encoding is ASCII.  It refuses a line with a
    character beyond: every line that reports a file as done, for the
    check mark the script starts it with, and any line with such a
    character in what it interpolates. *)
Definition ascii_console (m : message) : option exception :=
  let ok :=
    match m with
    | Msg_loading_and_resizing s | Msg_critical_mask_not_found s | Msg_saving_result s
    | Msg_new_image_detected s | Msg_started_watching s | Msg_saving_to s
    | Msg_using_mask s => isascii s
    | Msg_error_reading_image e => isascii (exception_text e)
    | Msg_failed_to_process s e => (isascii s && isascii (exception_text e))%bool
    | Msg_mask_not_found a b => (isascii a && isascii b)%bool
    | Msg_done _ => false
    | Msg_place_mask_file | Msg_press_ctrl_c => true
    end in
  if ok then None else Some (UnicodeEncodeError "'ascii' codec can't encode character").

(** A file name with an accent, in UTF-8: [caf\xc3\xa9.png]. *)
Definition accent_png : string :=
  String "c" (String "a" (String "f" (String "195" (String "169" ".png")))).

Definition accent_created : FileSystemEvent :=
  {| is_directory := false; src_path := Posixpath.join "in" accent_png |}.

End Demo.

(** ** Strings and paths *)

Example basename_ex : Posixpath.basename "in/photo.jpg" = "photo.jpg".
Proof. reflexivity. Qed.
Example dirname_ex : Posixpath.dirname "out/photo.jpg" = "out".
Proof. reflexivity. Qed.
Example dirname_root_ex : Posixpath.dirname "/photo.jpg" = "/".
Proof. reflexivity. Qed.
Example join_ex : Posixpath.join "out" "photo.jpg" = "out/photo.jpg".
Proof. reflexivity. Qed.
Example join_slash_ex : Posixpath.join "out/" "photo.jpg" = "out/photo.jpg".
Proof. reflexivity. Qed.
Example endswith_ex :
  Str.endswith_any (Str.lower "A.JPeG") [".png"; ".jpg"; ".jpeg"] = true.
Proof. reflexivity. Qed.
Example mask_path_ex : MASK_PATH Demo.cfg = "/app/mask.png".
Proof. reflexivity. Qed.

(** ** Lists built by index *)

Lemma length_ztab {A} (n : Z) (f : Z -> A) : length (ztab n f) = Z.to_nat n.
Proof. unfold ztab. by rewrite length_map, length_seq. Qed.

Lemma lookup_ztab {A} (n : Z) (f : Z -> A) (i : nat) :
  (i < Z.to_nat n)%nat -> ztab n f !! i = Some (f (Z.of_nat i)).
Proof.
  intros Hi. unfold ztab.
  rewrite list_lookup_fmap, lookup_seq_lt by done. reflexivity.
Qed.

Lemma lookup_ztab_Some {A} (n : Z) (f : Z -> A) (i : nat) (a : A) :
  ztab n f !! i = Some a -> (i < Z.to_nat n)%nat /\ a = f (Z.of_nat i).
Proof.
  intros H.
  assert (Hi : (i < Z.to_nat n)%nat).
  { apply lookup_lt_Some in H. by rewrite length_ztab in H. }
  split; [done|]. rewrite lookup_ztab in H by done. congruence.
Qed.

Lemma Forall_ztab {A} (P : A -> Prop) (n : Z) (f : Z -> A) :
  (forall i, 0 <= i < n -> P (f i)) -> Forall P (ztab n f).
Proof.
  intros H. apply Forall_lookup. intros i a Hia.
  apply lookup_ztab_Some in Hia as [Hi ->]. apply H. lia.
Qed.

Lemma ztab_ext {A} (n : Z) (f g : Z -> A) :
  (forall i, 0 <= i < n -> f i = g i) -> ztab n f = ztab n g.
Proof.
  intros H. unfold ztab. apply map_ext_in. intros i Hi.
  apply in_seq in Hi. apply H. lia.
Qed.

Lemma map_ztab {A B} (g : A -> B) (n : Z) (f : Z -> A) :
  map g (ztab n f) = ztab n (fun i => g (f i)).
Proof. unfold ztab. by rewrite map_map. Qed.

Lemma mapM_pointwise {A B} (g : A -> option B) (h : A -> B) (l : list A) :
  Forall (fun a => g a = Some (h a)) l -> mapM g l = Some (map h l).
Proof.
  induction 1 as [|a l Ha _ IH]; [reflexivity|].
  cbn. rewrite Ha. cbn. rewrite IH. reflexivity.
Qed.

Lemma mapM_ztab {A B} (g : A -> option B) (h : A -> B) (n : Z) (f : Z -> A) :
  (forall i, 0 <= i < n -> g (f i) = Some (h (f i))) ->
  mapM g (ztab n f) = Some (ztab n (fun i => h (f i))).
Proof.
  intros H. rewrite <- (map_ztab h n f). apply mapM_pointwise, Forall_ztab. exact H.
Qed.

(** ** The monad *)

Lemma add_events_nil (w : World) : add_events w [] = w.
Proof. destruct w. unfold add_events. simpl. by rewrite app_nil_r. Qed.

Lemma add_events_app (w : World) (a b : list event) :
  add_events (add_events w a) b = add_events w (a ++ b).
Proof. unfold add_events. simpl. by rewrite app_assoc. Qed.

Lemma log_run (ev : event) (w : World) : log ev w = (Ret tt, add_events w [ev]).
Proof. reflexivity. Qed.

Lemma same_fs_add_events (w : World) (evs : list event) : same_fs w (add_events w evs).
Proof. by split. Qed.

Lemma mode_eqb_eq (a b : mode) : mode_eqb a b = true <-> a = b.
Proof. split; [by destruct a, b | intros ->; by destruct b]. Qed.

(** ** The image transformer *)

Section Transformer.

Variable ext : External.

Lemma working_rgb_mode (img : Image) : im_mode (working_rgb ext img) = M_RGB.
Proof.
  unfold working_rgb. cbn [Image_resize im_mode].
  destruct (mode_eqb (im_mode img) M_RGB) eqn:E; cbn [negb].
  - cbn [im_mode]. by apply mode_eqb_eq.
  - reflexivity.
Qed.

Lemma working_rgb_width (img : Image) : im_width (working_rgb ext img) = 1280.
Proof.
  unfold working_rgb. cbn [Image_resize im_mode].
  by destruct (negb (mode_eqb (im_mode img) M_RGB)).
Qed.

Lemma working_rgb_height (img : Image) : im_height (working_rgb ext img) = 720.
Proof.
  unfold working_rgb. cbn [Image_resize im_mode].
  by destruct (negb (mode_eqb (im_mode img) M_RGB)).
Qed.

(** When the input has an alpha band, the working image has the red,
    green and blue of the resized input and nothing of its alpha. *)
Lemma working_rgb_drops_alpha (img : Image) (x y : Z) (c : nat) :
  im_mode img = M_RGBA ->
  im_px (working_rgb ext img) x y c =
  im_px (Image_resize ext img (TARGET_WIDTH, TARGET_HEIGHT) LANCZOS) x y c.
Proof.
  intros Hm. unfold working_rgb. cbn [Image_resize im_mode]. rewrite Hm.
  reflexivity.
Qed.

(** The channel swap succeeds on the array of a three-band image. *)
Lemma cvtColor_three_bands (im : Image) (code : ColorCode) :
  bands (im_mode im) = 3%nat ->
  cv2_cvtColor (np_array im) code = inr (bgr_array im).
Proof.
  intros Hb. unfold np_array, cv2_cvtColor, bgr_array. rewrite Hb.
  cbn [Nat.eqb seq map].
  set (rev3 := fun px : list Z => [nth 2 px 0; nth 1 px 0; nth 0 px 0]).
  rewrite (mapM_ztab (mapM swap_rb) (map rev3)).
  - do 2 f_equal. apply ztab_ext. intros y _. by rewrite map_ztab.
  - intros y _. apply mapM_pointwise, Forall_ztab. reflexivity.
Qed.

Lemma Image_open_file (p : string) (w : World) (content : list byte) :
  fs_files w !! p = Some content ->
  Image_open ext p w =
  match pil_decode ext content with
  | inr img => (Ret img, add_events w [Open p])
  | inl e => (Raise (Exc e), add_events w [Open p])
  end.
Proof.
  intros H. unfold Image_open, bind. rewrite log_run.
  cbn [add_events fs_files]. rewrite H.
  by destruct (pil_decode ext content).
Qed.

Lemma Image_open_absent (p : string) (w : World) :
  fs_files w !! p = None ->
  Image_open ext p w = (Raise (Exc (open_error w p)), add_events w [Open p]).
Proof.
  intros H. unfold Image_open, bind. rewrite log_run.
  change (fs_files (add_events w [Open p])) with (fs_files w).
  change (open_error (add_events w [Open p]) p) with (open_error w p).
  by rewrite H.
Qed.


Lemma Image_open_missing (p : string) (w : World) :
  fs_files w !! p = None ->
  exists e, Image_open ext p w = (Raise (Exc e), add_events w [Open p]).
Proof.
  intros H. unfold Image_open, bind. rewrite log_run.
  cbn [add_events fs_files]. rewrite H. eauto.
Qed.

(** An input that decodes gives the working image, in BGR order. *)
Lemma resize_image_decoded (p : string) (w : World) (content : list byte) (img : Image) :
  fs_files w !! p = Some content ->
  pil_decode ext content = inr img ->
  resize_image ext p w =
  (Ret (Some (bgr_array (working_rgb ext img))),
   add_events w [Print (Msg_loading_and_resizing p); Open p]).
Proof.
  intros Hf Hd. unfold resize_image, try_except, bind at 1, print.
  rewrite log_run. unfold bind at 1.
  rewrite (Image_open_file p _ content) by exact Hf. rewrite Hd.
  fold (working_rgb ext img).
  rewrite cvtColor_three_bands by (by rewrite working_rgb_mode).
  cbn [lift bind ret]. unfold bind, ret. by rewrite add_events_app.
Qed.

(** An input that cannot be opened or decoded gives [None], after the
    line that reports the error; files and directories are as before. *)
Lemma resize_image_unreadable (p : string) (w : World) :
  (fs_files w !! p = None \/
   exists content e, fs_files w !! p = Some content /\ pil_decode ext content = inl e) ->
  exists e,
    resize_image ext p w =
    (Ret None,
     add_events w [Print (Msg_loading_and_resizing p); Open p;
                   Print (Msg_error_reading_image e)]).
Proof.
  intros H. unfold resize_image, try_except, bind at 1, print.
  rewrite log_run. unfold bind at 1.
  destruct H as [Hn | (content & e & Hf & Hd)].
  - destruct (Image_open_missing p (add_events w [Print (Msg_loading_and_resizing p)]))
      as [e He]; [exact Hn|].
    exists e. rewrite He. unfold bind. rewrite log_run. unfold ret.
    by rewrite !add_events_app.
  - exists e. rewrite (Image_open_file p _ content) by exact Hf. rewrite Hd.
    unfold bind. rewrite log_run. unfold ret. by rewrite !add_events_app.
Qed.

Lemma bgr_array_shape (im : Image) :
  0 <= im_height im -> 0 <= im_width im ->
  match bgr_array im with
  | Arr3 rows => image_shape rows (im_height im) (im_width im) 3
  | Arr2 _ => False
  end.
Proof.
  intros Hh Hw. unfold bgr_array, image_shape. split.
  - rewrite length_ztab. lia.
  - apply Forall_ztab. intros y _. split.
    + rewrite length_ztab. lia.
    + apply Forall_ztab. intros x _. reflexivity.
Qed.

(** C2. Every input image that decodes, whatever its size and colour
    model, comes out of [resize_image] as an array of 720 rows of 1280
    pixels of exactly 3 channels; an alpha band of the input is not in
    it: the channels are the blue, green and red of the resized input. *)
Theorem resize_image_canonical_three_channels
    (p : string) (w : World) (content : list byte) (img : Image) :
  fs_files w !! p = Some content ->
  pil_decode ext content = inr img ->
  exists rows,
    fst (resize_image ext p w) = Ret (Some (Arr3 rows)) /\
    image_shape rows TARGET_HEIGHT TARGET_WIDTH 3 /\
    (forall x y, 0 <= x < TARGET_WIDTH -> 0 <= y < TARGET_HEIGHT ->
       rows !! Z.to_nat y ≫= (.!! Z.to_nat x) =
       Some [im_px (working_rgb ext img) x y 2%nat;
             im_px (working_rgb ext img) x y 1%nat;
             im_px (working_rgb ext img) x y 0%nat]) /\
    (im_mode img = M_RGBA ->
     forall x y c, (c < 3)%nat ->
       im_px (working_rgb ext img) x y c =
       im_px (Image_resize ext img (TARGET_WIDTH, TARGET_HEIGHT) LANCZOS) x y c).
Proof.
  intros Hf Hd.
  rewrite (resize_image_decoded p w content img Hf Hd). cbn [fst].
  pose proof (bgr_array_shape (working_rgb ext img)) as Hs.
  unfold bgr_array in *.
  rewrite working_rgb_width, working_rgb_height in *.
  eexists. split; [reflexivity|]. split; [apply Hs; lia|]. split.
  - intros x y Hx Hy. unfold TARGET_WIDTH, TARGET_HEIGHT in *.
    rewrite lookup_ztab by lia. cbn [mbind option_bind].
    rewrite lookup_ztab by lia. by rewrite !Z2Nat.id by lia.
  - intros Hm x y c _. by apply working_rgb_drops_alpha.
Qed.

End Transformer.

(** ** The mask builder *)

Section MaskBuilder.

Variable ext : External.

Lemma mask_resized_mode (asset : Image) : im_mode (mask_resized ext asset) = M_L.
Proof.
  unfold mask_resized. cbn [Image_resize im_mode].
  destruct (mode_eqb (im_mode asset) M_L) eqn:E; cbn [negb].
  - cbn [im_mode]. by apply mode_eqb_eq.
  - reflexivity.
Qed.

Lemma mask_resized_size (asset : Image) :
  im_width (mask_resized ext asset) = 45 /\ im_height (mask_resized ext asset) = 45.
Proof.
  unfold mask_resized. cbn [Image_resize im_mode].
  by destruct (negb (mode_eqb (im_mode asset) M_L)).
Qed.

(** The thresholded canvas, pixel by pixel. *)
Lemma pasted_threshold (grey : Image) (x y : Z) :
  im_mode grey = M_L -> im_width grey = 45 -> im_height grey = 45 ->
  threshold_value 127 255 THRESH_BINARY
    (im_px (Image_paste ext (Image_new M_L (TARGET_WIDTH, TARGET_HEIGHT) 0) grey
              (TARGET_WIDTH - MASK_SIZE - PADDING_RIGHT,
               TARGET_HEIGHT - MASK_SIZE - PADDING_BOTTOM)) x y 0%nat)
  = mask_value grey x y.
Proof.
  intros Hm Hw Hh. unfold Image_paste, Image_new, mask_value, threshold_value.
  cbn [im_mode im_px im_width im_height]. rewrite Hm. cbn [mode_eqb].
  rewrite Hw, Hh.
  change (TARGET_WIDTH - MASK_SIZE - PADDING_RIGHT) with 1205.
  change (TARGET_HEIGHT - MASK_SIZE - PADDING_BOTTOM) with 645.
  change (1205 + 45) with 1250. change (645 + 45) with 690.
  by destruct ((1205 <=? x) && (x <? 1250) && (645 <=? y) && (y <? 690))%bool.
Qed.

(** A mask asset that decodes gives the mask described by [mask_rows]. *)
Lemma create_mask_decoded (p : string) (w : World) (content : list byte) (asset : Image) :
  fs_files w !! p = Some content ->
  pil_decode ext content = inr asset ->
  create_mask ext p w =
  (Ret (Arr2 (mask_rows (mask_resized ext asset))), add_events w [Open p]).
Proof.
  intros Hf Hd. unfold create_mask, bind.
  rewrite (Image_open_file ext p w content) by exact Hf. rewrite Hd.
  fold (mask_resized ext asset).
  pose proof (mask_resized_mode asset) as Hm.
  destruct (mask_resized_size asset) as [Hw Hh].
  set (canvas := Image_paste ext _ _ _).
  change (np_array canvas)
    with (Arr2 (ztab 720 (fun y => ztab 1280 (fun x => im_px canvas x y 0%nat)))).
  unfold cv2_threshold, ret, mask_rows.
  do 3 f_equal. rewrite map_ztab. apply ztab_ext. intros y _.
  rewrite map_ztab. apply ztab_ext. intros x _.
  subst canvas. by apply pasted_threshold.
Qed.

Lemma mask_value_binary (grey : Image) (x y : Z) :
  mask_value grey x y = 0 \/ mask_value grey x y = 255.
Proof.
  unfold mask_value.
  destruct ((1205 <=? x) && (x <? 1250) && (645 <=? y) && (y <? 690))%bool; [|by left].
  destruct (im_px grey (x - 1205) (y - 645) 0%nat >? 127); [by right|by left].
Qed.

Lemma mask_value_nonzero (grey : Image) (x y : Z) :
  mask_value grey x y <> 0 -> 1205 <= x < 1250 /\ 645 <= y < 690.
Proof.
  unfold mask_value.
  destruct ((1205 <=? x) && (x <? 1250) && (645 <=? y) && (y <? 690))%bool eqn:E;
    [|done].
  intros _. apply andb_true_iff in E as [E E4]. apply andb_true_iff in E as [E E3].
  apply andb_true_iff in E as [E1 E2]. lia.
Qed.

Lemma mask_rows_lookup (grey : Image) (y x : Z) (row : list Z) (v : Z) :
  0 <= y -> 0 <= x ->
  mask_rows grey !! Z.to_nat y = Some row -> row !! Z.to_nat x = Some v ->
  y < 720 /\ x < 1280 /\ v = mask_value grey x y.
Proof.
  intros Hy Hx Hr Hv. unfold mask_rows in Hr.
  apply lookup_ztab_Some in Hr as [Hy' ->].
  apply lookup_ztab_Some in Hv as [Hx' ->].
  rewrite !Z2Nat.id by lia. repeat split; lia.
Qed.

(** C1. For every mask asset that decodes, [create_mask] returns a
    single-channel raster of 720 rows of 1280 values, each 0 or 255: 255
    exactly where the 45 x 45 resized asset, pasted at (1205, 645) on a
    zero canvas, is above 127; so every nonzero pixel lies in
    x in [1205, 1250), y in [645, 690). *)
Theorem create_mask_canonical_binary
    (p : string) (w : World) (content : list byte) (asset : Image) :
  fs_files w !! p = Some content ->
  pil_decode ext content = inr asset ->
  exists rows,
    fst (create_mask ext p w) = Ret (Arr2 rows) /\
    raster_shape rows 720 1280 /\
    binary rows /\
    (forall x y, 0 <= x < 1280 -> 0 <= y < 720 ->
       rows !! Z.to_nat y ≫= (.!! Z.to_nat x) =
       Some (if ((1205 <=? x) && (x <? 1250) && (645 <=? y) && (y <? 690))%bool
             then (if im_px (mask_resized ext asset) (x - 1205) (y - 645) 0%nat >? 127
                   then 255 else 0)
             else 0)) /\
    (forall x y, nonzero_at rows y x -> 1205 <= x < 1250 /\ 645 <= y < 690).
Proof.
  intros Hf Hd. rewrite (create_mask_decoded p w content asset Hf Hd). cbn [fst].
  set (grey := mask_resized ext asset).
  exists (mask_rows grey). split; [reflexivity|]. split; [|split; [|split]].
  - split; [unfold mask_rows; by rewrite length_ztab|].
    apply Forall_ztab. intros y _. by rewrite length_ztab.
  - apply Forall_ztab. intros y _. apply Forall_ztab. intros x _.
    apply mask_value_binary.
  - intros x y Hx Hy. unfold mask_rows.
    rewrite lookup_ztab by lia. cbn [mbind option_bind].
    rewrite lookup_ztab by lia. by rewrite !Z2Nat.id by lia.
  - intros x y (row & v & Hr & Hv & Hy & Hx & Hnz).
    destruct (mask_rows_lookup grey y x row v Hy Hx Hr Hv) as (_ & _ & ->).
    exact (mask_value_nonzero grey x y Hnz).
Qed.

End MaskBuilder.

(** ** Dilation *)

Section Dilation.

Implicit Types (src rows : list (list Z)) (offsets : list (Z * Z)).

Lemma binary_nonneg rows : binary rows -> nonneg rows.
Proof.
  unfold binary, nonneg. intros H.
  eapply Forall_impl; [exact H|]. intros row Hrow.
  eapply Forall_impl; [exact Hrow|]. intros v [-> | ->]; lia.
Qed.

Lemma get2_lookup rows (y x : Z) :
  0 <= y -> 0 <= x ->
  get2 rows y x = default 0 (rows !! Z.to_nat y ≫= (.!! Z.to_nat x)).
Proof.
  intros Hy Hx. unfold get2.
  destruct (Z.leb_spec 0 y); [|lia]. destruct (Z.leb_spec 0 x); [|lia].
  cbn [andb]. rewrite !nth_lookup.
  destruct (rows !! Z.to_nat y) as [row|]; cbn; [reflexivity|].
  by rewrite lookup_nil.
Qed.

Lemma get2_outside rows (y x : Z) : ~ in_raster rows y x -> get2 rows y x = 0.
Proof.
  intros Hout. unfold get2.
  destruct (Z.leb_spec 0 y); [|reflexivity].
  destruct (Z.leb_spec 0 x); [|reflexivity]. cbn [andb].
  rewrite !nth_lookup.
  destruct (rows !! Z.to_nat y) as [row|] eqn:Er; cbn; [|by rewrite lookup_nil].
  destruct (row !! Z.to_nat x) as [v|] eqn:Ev; cbn; [|reflexivity].
  exfalso. apply Hout. exists row, v. auto.
Qed.

Lemma nonzero_at_get2 rows (y x : Z) : nonzero_at rows y x <-> get2 rows y x <> 0.
Proof.
  split.
  - intros (row & v & Hr & Hv & Hy & Hx & Hnz).
    rewrite get2_lookup by done. rewrite Hr. cbn. by rewrite Hv.
  - intros Hnz.
    destruct (decide (0 <= y)) as [Hy|Hy];
      [|unfold get2 in Hnz; destruct (Z.leb_spec 0 y); [lia|done]].
    destruct (decide (0 <= x)) as [Hx|Hx];
      [|unfold get2 in Hnz; destruct (Z.leb_spec 0 x); [|by rewrite andb_false_r in Hnz]; lia].
    rewrite get2_lookup in Hnz by done.
    destruct (rows !! Z.to_nat y) as [row|] eqn:Er; cbn in Hnz; [|done].
    destruct (row !! Z.to_nat x) as [v|] eqn:Ev; cbn in Hnz; [|done].
    exists row, v. auto.
Qed.

Lemma in_raster_get2 rows (y x : Z) :
  nonneg rows -> in_raster rows y x -> 0 <= get2 rows y x.
Proof.
  intros Hn (row & v & Hr & Hv & Hy & Hx).
  rewrite get2_lookup by done. rewrite Hr. cbn. rewrite Hv. cbn.
  eapply Forall_lookup_1 in Hn; [|exact Hr].
  eapply Forall_lookup_1 in Hn; [|exact Hv]. exact Hn.
Qed.

Lemma get2_nonneg rows (y x : Z) : nonneg rows -> 0 <= get2 rows y x.
Proof.
  intros Hn. destruct (decide (get2 rows y x = 0)) as [->|Hnz]; [lia|].
  apply nonzero_at_get2 in Hnz as (row & v & Hr & Hv & Hy & Hx & _).
  apply in_raster_get2; [done|]. exists row, v. auto.
Qed.

Lemma fold_max_ge (l : list Z) (v : Z) : In v l -> v <= fold_right Z.max 0 l.
Proof.
  induction l as [|a l IH]; [done|]. intros [-> | Hin]; cbn; [lia|].
  specialize (IH Hin). lia.
Qed.

Lemma fold_max_nonneg (l : list Z) : 0 <= fold_right Z.max 0 l.
Proof. induction l as [|a l IH]; cbn; lia. Qed.

Lemma fold_max_zero (l : list Z) : Forall (fun v => v = 0) l -> fold_right Z.max 0 l = 0.
Proof. induction 1 as [|a l -> _ IH]; cbn; [done|]. rewrite IH. reflexivity. Qed.

(** The dilated raster has the pixels of the source. *)
Lemma in_raster_dilate_once offsets src (y x : Z) :
  in_raster (dilate_once offsets src) y x <-> in_raster src y x.
Proof.
  unfold in_raster, dilate_once. split.
  - intros (row & v & Hr & Hv & Hy & Hx).
    rewrite list_lookup_imap in Hr.
    destruct (src !! Z.to_nat y) as [row0|] eqn:Er; [|done].
    cbn in Hr. injection Hr as <-.
    rewrite list_lookup_imap in Hv.
    destruct (row0 !! Z.to_nat x) as [v0|] eqn:Ev; [|done].
    exists row0, v0. auto.
  - intros (row & v & Hr & Hv & Hy & Hx).
    eexists _, _. rewrite list_lookup_imap, Hr. cbn.
    split; [reflexivity|]. rewrite list_lookup_imap, Hv. cbn. auto.
Qed.

(** Inside, its value is the maximum over the structuring element. *)
Lemma get2_dilate_once offsets src (y x : Z) :
  in_raster src y x ->
  get2 (dilate_once offsets src) y x = dilate_at src offsets y x.
Proof.
  intros (row & v & Hr & Hv & Hy & Hx).
  rewrite get2_lookup by done. unfold dilate_once.
  rewrite list_lookup_imap, Hr. cbn.
  rewrite list_lookup_imap, Hv. cbn. by rewrite !Z2Nat.id.
Qed.

Lemma dilate_once_nonneg offsets src : nonneg (dilate_once offsets src).
Proof.
  unfold nonneg, dilate_once.
  apply Forall_lookup. intros i row Hi.
  rewrite list_lookup_imap in Hi.
  destruct (src !! i) as [row0|]; [|done]. cbn in Hi. injection Hi as <-.
  apply Forall_lookup. intros j v Hj.
  rewrite list_lookup_imap in Hj.
  destruct (row0 !! j); [|done]. cbn in Hj. injection Hj as <-.
  apply fold_max_nonneg.
Qed.

Lemma dilate_once_ge offsets src (y x : Z) (d : Z * Z) :
  in_raster src y x -> In d offsets ->
  get2 src (y + fst d) (x + snd d) <= get2 (dilate_once offsets src) y x.
Proof.
  intros Hin Hd. rewrite get2_dilate_once by done.
  unfold dilate_at. apply fold_max_ge.
  apply in_map_iff. exists d. auto.
Qed.

(** With the anchor in the element, nothing of the region is lost. *)
Lemma dilate_once_included offsets src :
  nonneg src -> In (0, 0) offsets ->
  region_included src (dilate_once offsets src).
Proof.
  intros Hn H0 y x Hnz. apply nonzero_at_get2.
  assert (Hin : in_raster src y x).
  { destruct Hnz as (row & v & ? & ? & ? & ? & _). exists row, v. auto. }
  apply nonzero_at_get2 in Hnz.
  pose proof (in_raster_get2 src y x Hn Hin).
  pose proof (dilate_once_ge offsets src y x (0, 0) Hin H0) as Hge.
  cbn [fst snd] in Hge. rewrite !Z.add_0_r in Hge. lia.
Qed.

(** A pixel next to the region, along the element, joins it. *)
Lemma dilate_once_reaches offsets src (y x : Z) (d : Z * Z) :
  nonneg src -> in_raster src y x -> In d offsets ->
  nonzero_at src (y + fst d) (x + snd d) ->
  nonzero_at (dilate_once offsets src) y x.
Proof.
  intros Hn Hin Hd Hnz. apply nonzero_at_get2.
  apply nonzero_at_get2 in Hnz.
  pose proof (get2_nonneg src (y + fst d) (x + snd d) Hn).
  pose proof (dilate_once_ge offsets src y x d Hin Hd). lia.
Qed.

(** An empty region stays empty. *)
Lemma dilate_once_empty offsets src :
  (forall y x, ~ nonzero_at src y x) ->
  forall y x, ~ nonzero_at (dilate_once offsets src) y x.
Proof.
  intros Hempty y x Hnz.
  assert (Hin : in_raster src y x).
  { apply in_raster_dilate_once with offsets.
    destruct Hnz as (row & v & ? & ? & ? & ? & _). exists row, v. auto. }
  apply nonzero_at_get2 in Hnz. apply Hnz.
  rewrite get2_dilate_once by done. unfold dilate_at.
  apply fold_max_zero, Forall_forall. intros v Hv.
  apply list_elem_of_fmap in Hv as (d & -> & _).
  destruct (decide (get2 src (y + fst d) (x + snd d) = 0)) as [E|E]; [done|].
  apply nonzero_at_get2 in E. by apply Hempty in E.
Qed.

End Dilation.

(** ** The edge of the region *)

Section Edge.

Implicit Types (rows : list (list Z)).

(** Between a point where [f] holds and a later one where it does not,
    there is a last point where it holds. *)
Lemma last_true_before (f : Z -> bool) (n : nat) (a : Z) :
  f a = true -> f (a + Z.of_nat n) = false ->
  exists i, a <= i < a + Z.of_nat n /\ f i = true /\ f (i + 1) = false.
Proof.
  revert a. induction n as [|n IH]; intros a Ha Hb.
  - rewrite Z.add_0_r in Hb. congruence.
  - destruct (f (a + 1)) eqn:E.
    + destruct (IH (a + 1) E) as (i & Hi & Hti & Hfi).
      { rewrite <- Hb. f_equal. lia. }
      exists i. split; [lia|done].
    + exists a. split; [lia|done].
Qed.

(** The same in either direction: a neighbouring pair on the segment
    where [f] changes. *)
Lemma change_between (f : Z -> bool) (a b : Z) :
  f a = true -> f b = false ->
  exists i s, (s = 1 \/ s = -1) /\
              Z.min a b <= i <= Z.max a b /\ Z.min a b <= i + s <= Z.max a b /\
              f i = true /\ f (i + s) = false.
Proof.
  intros Ha Hb. destruct (Z.le_gt_cases a b) as [Hab|Hab].
  - destruct (last_true_before f (Z.to_nat (b - a)) a Ha) as (i & Hi & Hti & Hfi).
    { rewrite <- Hb. f_equal. lia. }
    exists i, 1. repeat split; try lia; auto.
  - destruct (last_true_before (fun z => f (- z)) (Z.to_nat (a - b)) (- a))
      as (i & Hi & Hti & Hfi).
    { by rewrite Z.opp_involutive. }
    { rewrite <- Hb. f_equal. lia. }
    exists (- i), (-1). repeat split; try lia; auto.
    rewrite <- Hfi. f_equal. lia.
Qed.

Lemma in_raster_rectangle rows (h w y x : Z) :
  raster_shape rows h w ->
  in_raster rows y x <-> (0 <= y < h /\ 0 <= x < w).
Proof.
  intros [Hh Hw]. split.
  - intros (row & v & Hr & Hv & Hy & Hx).
    pose proof (lookup_lt_Some _ _ _ Hr).
    pose proof (lookup_lt_Some _ _ _ Hv).
    eapply Forall_lookup_1 in Hw; [|exact Hr]. lia.
  - intros [Hy Hx].
    destruct (lookup_lt_is_Some_2 rows (Z.to_nat y)) as [row Hr]; [lia|].
    pose proof Hw as Hw'. eapply Forall_lookup_1 in Hw'; [|exact Hr].
    destruct (lookup_lt_is_Some_2 row (Z.to_nat x)) as [v Hv]; [lia|].
    exists row, v. repeat split; auto; lia.
Qed.

Lemma nonzero_in_raster rows (y x : Z) : nonzero_at rows y x -> in_raster rows y x.
Proof. intros (row & v & ? & ? & ? & ? & _). exists row, v. auto. Qed.

(** A rectangular raster with a nonzero and a zero pixel has a zero pixel
    with a nonzero neighbour in its row or in its column. *)
Lemma zero_pixel_next_to_region rows (h w py px qy qx : Z) :
  raster_shape rows h w ->
  nonzero_at rows py px ->
  in_raster rows qy qx -> ~ nonzero_at rows qy qx ->
  exists y x d,
    In d [(0, 1); (0, -1); (1, 0); (-1, 0)] /\
    in_raster rows y x /\ ~ nonzero_at rows y x /\
    nonzero_at rows (y + fst d) (x + snd d).
Proof.
  intros Hs Hp Hq Hqz.
  pose proof (nonzero_in_raster _ _ _ Hp) as Hpin.
  rewrite (in_raster_rectangle rows h w) in Hpin, Hq by done.
  set (nz := fun y x => bool_decide (get2 rows y x <> 0)).
  assert (Hnz : forall y x, nz y x = true <-> nonzero_at rows y x).
  { intros y x. unfold nz. rewrite bool_decide_eq_true. symmetry.
    apply nonzero_at_get2. }
  assert (Hz : forall y x, nz y x = false <-> ~ nonzero_at rows y x).
  { intros y x. rewrite <- Hnz. by destruct (nz y x). }
  destruct (nz py qx) eqn:E.
  - (* the change is in column [qx], between rows [py] and [qy] *)
    destruct (change_between (fun y => nz y qx) py qy) as (i & s & Hs' & Hi & His & Ht & Hf).
    { exact E. } { by apply Hz. }
    exists (i + s), qx, (- s, 0). cbn [fst snd].
    replace (i + s + - s) with i by lia. rewrite Z.add_0_r.
    split; [destruct Hs' as [-> | ->]; cbn; tauto|].
    split; [apply (in_raster_rectangle rows h w); [done|lia]|].
    split; [by apply Hz | by apply Hnz].
  - (* the change is in row [py], between columns [px] and [qx] *)
    destruct (change_between (fun x => nz py x) px qx) as (i & s & Hs' & Hi & His & Ht & Hf).
    { by apply Hnz. } { exact E. }
    exists py, (i + s), (0, - s). cbn [fst snd].
    replace (i + s + - s) with i by lia. rewrite Z.add_0_r.
    split; [destruct Hs' as [-> | ->]; cbn; tauto|].
    split; [apply (in_raster_rectangle rows h w); [done|lia]|].
    split; [by apply Hz | by apply Hnz].
Qed.

Lemma kernel_offsets_ones3 :
  kernel_offsets [[1; 1; 1]; [1; 1; 1]; [1; 1; 1]] = square3.
Proof. reflexivity. Qed.

Lemma cv2_dilate_square3_twice rows :
  array_empty (Arr2 rows) = false ->
  cv2_dilate (Arr2 rows) (np_ones (3, 3)) 2 =
  inr (Arr2 (dilate_once square3 (dilate_once square3 rows))).
Proof. by destruct rows as [|[|v row] rows]. Qed.

(** The empty array is refused. *)
Lemma cv2_dilate_empty src kernel iterations :
  array_empty src = true ->
  exists e, cv2_dilate src kernel iterations = inl e.
Proof.
  intros H. unfold cv2_dilate. rewrite H. destruct kernel; eauto.
Qed.

Lemma raster_not_empty rows (h w : Z) :
  raster_shape rows h w -> 0 < h -> 0 < w -> array_empty (Arr2 rows) = false.
Proof.
  intros [Hh Hw] Hhp Hwp. destruct rows as [|[|v row] rows]; [|exfalso..|done].
  - cbn [length] in Hh. lia.
  - apply Forall_cons in Hw as [Hw _]. cbn [length] in Hw. lia.
Qed.

Lemma mask_rows_not_empty (grey : Image) :
  array_empty (Arr2 (mask_rows grey)) = false.
Proof. reflexivity. Qed.

(** Two passes of the 3 x 3 element keep the region, and enlarge it
    unless it is empty or everything. *)
Lemma dilate_twice_included rows :
  binary rows ->
  region_included rows (dilate_once square3 (dilate_once square3 rows)).
Proof.
  intros Hb y x Hnz.
  apply dilate_once_included; [apply dilate_once_nonneg | cbn; tauto |].
  apply dilate_once_included; [by apply binary_nonneg | cbn; tauto | done].
Qed.

Lemma dilate_twice_strictly_larger rows (h w : Z) :
  binary rows -> raster_shape rows h w ->
  (exists y x, nonzero_at rows y x) ->
  (exists y x, in_raster rows y x /\ ~ nonzero_at rows y x) ->
  region_strictly_larger rows (dilate_once square3 (dilate_once square3 rows)).
Proof.
  intros Hb Hs (py & px & Hp) (qy & qx & Hq & Hqz).
  split; [by apply dilate_twice_included|].
  destruct (zero_pixel_next_to_region rows h w py px qy qx Hs Hp Hq Hqz)
    as (y & x & d & Hd & Hin & Hzero & Hnext).
  exists y, x. split; [|done].
  apply dilate_once_included; [apply dilate_once_nonneg | cbn; tauto |].
  apply (dilate_once_reaches square3 rows y x d);
    [by apply binary_nonneg | done | | done].
  cbn in Hd. cbn. intuition (subst; auto).
Qed.

Lemma dilate_twice_empty rows :
  (forall y x, ~ nonzero_at rows y x) ->
  forall y x, ~ nonzero_at (dilate_once square3 (dilate_once square3 rows)) y x.
Proof. intros H. by do 2 apply dilate_once_empty. Qed.

End Edge.

(** ** The inpainter *)

Section Inpainter.

Variable ext : External.

Lemma inpaint_image_run (img_cv : ndarray) (rows : list (list Z)) (w : World) :
  array_empty (Arr2 rows) = false ->
  inpaint_image ext img_cv (Arr2 rows) w =
  (match cv2_inpaint ext img_cv
           (Arr2 (dilate_once square3 (dilate_once square3 rows))) 15 INPAINT_NS with
   | inr result_cv => Ret result_cv
   | inl e => Raise (Exc e)
   end,
   add_events w [Inpaint 15 INPAINT_NS]).
Proof.
  intros Hne. unfold inpaint_image. rewrite cv2_dilate_square3_twice by exact Hne.
  cbn [lift]. unfold bind, ret. rewrite log_run.
  by destruct (cv2_inpaint ext _ _ _ _).
Qed.

(** On an array without elements the dilation raises, and the
    inpainting is not called. *)
Lemma inpaint_image_empty (img_cv mask_binary : ndarray) (w : World) :
  array_empty mask_binary = true ->
  exists e, inpaint_image ext img_cv mask_binary w = (Raise (Exc e), w).
Proof.
  intros H. destruct (cv2_dilate_empty mask_binary (np_ones (3, 3)) 2 H) as [e He].
  exists e. unfold inpaint_image. cbv zeta. unfold bind. by rewrite He.
Qed.

(** C4, as it holds of the code. [inpaint_image] dilates the mask with the 3 x 3
    all-ones element, twice, and hands the dilated mask to the
    Navier-Stokes inpainting with radius 15.  For a binary mask that is a
    raster with at least one row and one column the dilated region
    contains the region of the mask; it is strictly larger when the mask
    has at least one nonzero and at least one zero pixel.  (The empty
    array is refused by the dilation and never reaches the inpainting:
    [inpaint_image_empty].) *)
Theorem inpaint_image_dilates_before_filling
    (img_cv : ndarray) (rows : list (list Z)) (h wd : Z) (w : World) :
  binary rows ->
  raster_shape rows h wd ->
  0 < h -> 0 < wd ->
  let dilated := dilate_once square3 (dilate_once square3 rows) in
  kernel_offsets [[1; 1; 1]; [1; 1; 1]; [1; 1; 1]] = square3 /\
  cv2_dilate (Arr2 rows) (np_ones (3, 3)) 2 = inr (Arr2 dilated) /\
  inpaint_image ext img_cv (Arr2 rows) w =
    (match cv2_inpaint ext img_cv (Arr2 dilated) 15 INPAINT_NS with
     | inr result_cv => Ret result_cv
     | inl e => Raise (Exc e)
     end,
     add_events w [Inpaint 15 INPAINT_NS]) /\
  region_included rows dilated /\
  ((exists y x, nonzero_at rows y x) ->
   (exists y x, in_raster rows y x /\ ~ nonzero_at rows y x) ->
   region_strictly_larger rows dilated).
Proof.
  intros Hb Hs Hh Hwd dilated.
  pose proof (raster_not_empty rows h wd Hs Hh Hwd) as Hne.
  split; [reflexivity|]. split; [by apply cv2_dilate_square3_twice|].
  split; [by apply inpaint_image_run|]. split.
  - by apply dilate_twice_included.
  - by apply dilate_twice_strictly_larger with h wd.
Qed.

End Inpainter.

(** ** The orchestrator *)

Section Orchestrator.

Variable cfg : Config.
Variable ext : External.

Lemma os_path_exists_run (p : string) (w : World) :
  os_path_exists p w = (Ret (is_file w p || is_dir w p)%bool, add_events w [PathExists p]).
Proof. reflexivity. Qed.

Lemma create_mask_fails (p : string) (w : World) :
  (fs_files w !! p = None \/
   exists content e, fs_files w !! p = Some content /\ pil_decode ext content = inl e) ->
  exists e, create_mask ext p w = (Raise (Exc e), add_events w [Open p]).
Proof.
  intros H. unfold create_mask, bind.
  destruct H as [Hn | (content & e & Hf & Hd)].
  - destruct (Image_open_missing ext p w Hn) as [e He]. exists e. by rewrite He.
  - exists e. by rewrite (Image_open_file ext p w content Hf), Hd.
Qed.

(** What [save] does: it writes the encoded image, or raises and leaves
    the directories as they are, and the files too unless the encoder
    failed on a file that was there. *)
Lemma Image_save_cases (img : Image) (p : string) (q : Z) (w : World) :
  (exists content,
     pil_encode ext p img q = inr content /\
     is_dir w p = false /\ parent_exists w p = true /\
     Image_save ext img p q w = (Ret tt, write_file p content (add_events w [Save p q])))
  \/
  (exists e w',
     Image_save ext img p q w = (Raise (Exc e), w') /\
     trace w' = (trace w ++ [Save p q])%list /\
     fs_dirs w' = fs_dirs w /\
     (fs_files w' = fs_files w \/
      exists partial, is_file w p = true /\ fs_files w' = <[p := partial]> (fs_files w)) /\
     (parent_exists w p = false -> fs_files w' = fs_files w)).
Proof.
  unfold Image_save, bind. rewrite log_run.
  change (is_dir (add_events w [Save p q]) p) with (is_dir w p).
  change (parent_exists (add_events w [Save p q]) p) with (parent_exists w p).
  change (is_file (add_events w [Save p q]) p) with (is_file w p).
  destruct (pil_encode ext p img q) as [[e [partial|]]|content] eqn:Eenc.
  - right. destruct (is_dir w p) eqn:Ed; [eauto 10|].
    destruct (parent_exists w p) eqn:Ep; cbn [negb]; [|eauto 10].
    destruct (is_file w p) eqn:Ef.
    + exists e. eexists. split; [reflexivity|]. cbn.
      repeat split; [right; eauto | done].
    + eauto 10.
  - right. eauto 10.
  - destruct (is_dir w p) eqn:Ed; [right; eauto 10|].
    destruct (parent_exists w p) eqn:Ep; cbn [negb]; [|right; eauto 10].
    left. eauto 10.
Qed.

Local Abbreviation MASK := (MASK_PATH cfg).

(** Closes the description of a world that differs by events only. *)
Local Ltac events_only :=
  unfold add_events; cbn [trace fs_dirs fs_files];
  rewrite <- ?app_assoc; cbn [app take success_events];
  repeat split; auto.

(** The four ways a run of [process_file_logic] can go:
    the mask asset is missing; the input cannot be read; a later step
    raises; everything goes through. *)
Lemma process_file_logic_cases (input_path output_path : string) (w : World) :
  let run := process_file_logic cfg ext input_path output_path w in
  ((is_file w MASK || is_dir w MASK)%bool = false /\
   run = (Ret tt, add_events w [PathExists MASK;
                                Print (Msg_critical_mask_not_found MASK)]))
  \/
  ((is_file w MASK || is_dir w MASK)%bool = true /\
   (fs_files w !! input_path = None \/
    exists bytes e, fs_files w !! input_path = Some bytes /\ pil_decode ext bytes = inl e) /\
   exists e,
     run = (Ret tt, add_events w [PathExists MASK;
                                  Print (Msg_loading_and_resizing input_path);
                                  Open input_path;
                                  Print (Msg_error_reading_image e)]))
  \/
  (exists e n w',
     (4 <= n <= 7)%nat /\
     run = (Raise (Exc e), w') /\
     trace w' = (trace w ++ take n (success_events cfg input_path output_path))%list /\
     fs_dirs w' = fs_dirs w /\
     ((n < 7)%nat -> fs_files w' = fs_files w) /\
     (parent_exists w output_path = false -> fs_files w' = fs_files w) /\
     (fs_files w' = fs_files w \/
      exists partial, is_file w output_path = true /\
                      fs_files w' = <[output_path := partial]> (fs_files w)))
  \/
  (exists content,
     pipeline_ok cfg ext input_path output_path w content /\
     run = (Ret tt, write_file output_path content
                      (add_events w (success_events cfg input_path output_path)))).
Proof.
  intros run. assert (Hrun : run = process_file_logic cfg ext input_path output_path w)
    by reflexivity.
  clearbody run.
  unfold process_file_logic, bind at 1 in Hrun. rewrite os_path_exists_run in Hrun.
  destruct (is_file w MASK || is_dir w MASK)%bool eqn:Em; cbn [negb] in Hrun.
  2: { left. split; [done|]. unfold print in Hrun. rewrite log_run in Hrun.
       by rewrite add_events_app in Hrun. }
  right. unfold bind at 1 in Hrun.
  set (w1 := add_events w [PathExists MASK]) in Hrun.
  destruct (fs_files w !! input_path) as [bytes|] eqn:Ein.
  2: { left. split; [done|]. split; [by left|].
       destruct (resize_image_unreadable ext input_path w1) as [e He];
         [left; exact Ein|].
       exists e. rewrite He in Hrun. unfold ret, w1 in Hrun.
       by rewrite add_events_app in Hrun. }
  destruct (pil_decode ext bytes) as [e|img] eqn:Edec.
  { left. split; [done|]. split; [right; eauto|].
    destruct (resize_image_unreadable ext input_path w1) as [e' He];
      [right; exists bytes, e; split; [exact Ein|exact Edec]|].
    exists e'. rewrite He in Hrun. unfold ret, w1 in Hrun.
    by rewrite add_events_app in Hrun. }
  right.
  rewrite (resize_image_decoded ext input_path w1 bytes img) in Hrun by done.
  unfold w1 in Hrun. rewrite add_events_app in Hrun. cbn [app] in Hrun.
  set (w2 := add_events w _) in Hrun. unfold bind at 1 in Hrun.
  destruct (fs_files w !! MASK) as [bytes'|] eqn:Emask.
  2: { left. destruct (create_mask_fails MASK w2) as [e He]; [by left|].
       rewrite He in Hrun. exists e, 4%nat. eexists. split; [lia|].
       split; [exact Hrun|]. unfold w2. events_only. }
  destruct (pil_decode ext bytes') as [e|asset] eqn:Edec'.
  { left. destruct (create_mask_fails MASK w2) as [e' He]; [right; eauto|].
    rewrite He in Hrun. exists e', 4%nat. eexists. split; [lia|].
    split; [exact Hrun|]. unfold w2. events_only. }
  rewrite (create_mask_decoded ext MASK w2 bytes' asset) in Hrun by done.
  unfold w2 in Hrun. rewrite add_events_app in Hrun. cbn [app] in Hrun.
  unfold bind at 1 in Hrun. rewrite inpaint_image_run in Hrun by apply mask_rows_not_empty.
  rewrite add_events_app in Hrun.
  cbn [app] in Hrun.
  destruct (cv2_inpaint ext _ _ _ _) as [e|result_cv] eqn:Einp.
  { left. exists e, 5%nat. eexists. split; [lia|]. split; [exact Hrun|].
    events_only. }
  unfold bind at 1, print in Hrun. rewrite log_run, add_events_app in Hrun.
  cbn [app] in Hrun. unfold bind at 1 in Hrun.
  destruct (cv2_cvtColor result_cv COLOR_BGR2RGB) as [e|rgb] eqn:Ecvt; cbn [lift] in Hrun.
  { left. exists e, 6%nat. eexists. split; [lia|]. split; [exact Hrun|].
    events_only. }
  unfold ret at 1 in Hrun. unfold bind at 1 in Hrun.
  destruct (Image_fromarray rgb) as [e|result_img] eqn:Efrom; cbn [lift] in Hrun.
  { left. exists e, 6%nat. eexists. split; [lia|]. split; [exact Hrun|].
    events_only. }
  unfold ret at 1 in Hrun. unfold bind at 1 in Hrun.
  set (w6 := add_events w _) in Hrun.
  destruct (Image_save_cases result_img output_path 95 w6)
    as [(content & Henc & Hnd & Hpar & Hsave) | (e & w' & Hsave & Htr & Hdirs & Hfiles & Hpar)];
    rewrite Hsave in Hrun.
  - right. exists content. split.
    + exists result_img. split; [unfold reaches_save; eauto 20|]. auto.
    + rewrite log_run in Hrun. rewrite Hrun.
      unfold w6, write_file, add_events. cbn. by rewrite <- !app_assoc.
  - left. exists e, 7%nat, w'. split; [lia|]. split; [exact Hrun|].
    split; [rewrite Htr; unfold w6; cbn; by rewrite <- app_assoc|].
    split; [exact Hdirs|]. split; [lia|]. split; [exact Hpar|exact Hfiles].
Qed.

End Orchestrator.

(** ** File names *)

Section Names.

Implicit Types (s t a b : string) (c : ascii).

Lemma append_nil b : ("" ++ b)%string = b.
Proof. reflexivity. Qed.

Lemma append_cons c a b : (String c a ++ b)%string = String c (a ++ b).
Proof. reflexivity. Qed.

Lemma str_app_assoc a b t : ((a ++ b) ++ t)%string = (a ++ b ++ t)%string.
Proof. induction a as [|x a IH]; [done|]. rewrite !append_cons. by f_equal. Qed.

Lemma str_length_app a b :
  String.length (a ++ b) = (String.length a + String.length b)%nat.
Proof.
  induction a as [|x a IH]; [done|]. rewrite append_cons.
  cbn [String.length]. by rewrite IH.
Qed.

Lemma str_drop_app_length a b : Str.drop (String.length a) (a ++ b) = b.
Proof.
  induction a as [|x a IH]; [rewrite append_nil; by destruct b|].
  rewrite append_cons. exact IH.
Qed.

Lemma str_take_drop s (n : nat) : (Str.take n s ++ Str.drop n s)%string = s.
Proof.
  revert s. induction n as [|n IH]; intros [|x s]; try done.
  cbn [Str.take Str.drop]. rewrite append_cons. by rewrite IH.
Qed.

Lemma str_drop_length s (n : nat) :
  String.length (Str.drop n s) = (String.length s - n)%nat.
Proof. revert s. induction n as [|n IH]; intros [|x s]; cbn; auto. Qed.

Lemma rfind_range c s : -1 <= Str.rfind c s < Z.of_nat (String.length s).
Proof.
  induction s as [|x s IH]; cbn [Str.rfind String.length]; [lia|].
  destruct (Z.leb_spec 0 (Str.rfind c s)); [lia|].
  destruct (Ascii.eqb x c); lia.
Qed.

Lemma rfind_absent c s : Str.rfind c s < 0 <-> Str.contains c s = false.
Proof.
  induction s as [|x s IH]; cbn [Str.rfind Str.contains]; [split; [done|lia]|].
  pose proof (rfind_range c s).
  destruct (Z.leb_spec 0 (Str.rfind c s)).
  - split; [lia|]. intros H'. apply orb_false_iff in H' as [_ H'].
    apply IH in H'. lia.
  - destruct (Ascii.eqb x c); cbn [orb]; [split; [lia|done]|].
    rewrite <- IH. split; lia.
Qed.

(** What follows the last occurrence has no occurrence. *)
Lemma rfind_drop_absent c s :
  Str.contains c (Str.drop (Z.to_nat (Str.rfind c s + 1)) s) = false.
Proof.
  induction s as [|x s IH]; [done|].
  cbn [Str.rfind]. pose proof (rfind_range c s).
  destruct (Z.leb_spec 0 (Str.rfind c s)).
  - replace (Z.to_nat (Str.rfind c s + 1 + 1)) with (S (Z.to_nat (Str.rfind c s + 1)))
      by lia.
    exact IH.
  - replace (Str.rfind c s) with (-1) in IH by lia.
    change (Str.contains c s = false) in IH.
    destruct (Ascii.eqb x c) eqn:E.
    + exact IH.
    + change ((Ascii.eqb x c || Str.contains c s)%bool = false). by rewrite E, IH.
Qed.

Lemma rfind_app c a t :
  Str.contains c t = false ->
  Str.rfind c (a ++ String c t) = Z.of_nat (String.length a).
Proof.
  intros Ht.
  induction a as [|x a IH]; rewrite ?append_nil, ?append_cons;
    cbn [Str.rfind String.length].
  - apply rfind_absent in Ht.
    destruct (Z.leb_spec 0 (Str.rfind c t)); [lia|].
    by rewrite Ascii.eqb_refl.
  - rewrite IH. destruct (Z.leb_spec 0 (Z.of_nat (String.length a))); lia.
Qed.

Lemma drop_after_sep c a t :
  Str.drop (Z.to_nat (Z.of_nat (String.length a) + 1)) (a ++ String c t) = t.
Proof.
  replace (Z.to_nat (Z.of_nat (String.length a) + 1))
    with (String.length (a ++ String c EmptyString)).
  - replace (a ++ String c t)%string with ((a ++ String c EmptyString) ++ t)%string
      by (by rewrite str_app_assoc).
    apply str_drop_app_length.
  - rewrite str_length_app. cbn. lia.
Qed.

(** A string splits at the last occurrence of a character it has. *)
Lemma rfind_split c s :
  0 <= Str.rfind c s ->
  s = (Str.take (Z.to_nat (Str.rfind c s)) s
       ++ String c (Str.drop (Z.to_nat (Str.rfind c s + 1)) s))%string.
Proof.
  induction s as [|x s IH]; cbn [Str.rfind]; [lia|].
  pose proof (rfind_range c s).
  destruct (Z.leb_spec 0 (Str.rfind c s)).
  - intros _.
    replace (Z.to_nat (Str.rfind c s + 1 + 1)) with (S (Z.to_nat (Str.rfind c s + 1)))
      by lia.
    replace (Z.to_nat (Str.rfind c s + 1)) with (S (Z.to_nat (Str.rfind c s))) at 1
      by lia.
    cbn [Str.take Str.drop]. rewrite append_cons. f_equal.
    replace (S (Z.to_nat (Str.rfind c s))) with (Z.to_nat (Str.rfind c s + 1)) by lia.
    by apply IH.
  - destruct (Ascii.eqb_spec x c) as [->|]; [|lia]. intros _. reflexivity.
Qed.

Lemma endswith_app a b : Str.endswith (a ++ b) b = true.
Proof.
  unfold Str.endswith. rewrite str_length_app.
  apply andb_true_iff. split; [apply Nat.leb_le; lia|].
  replace (String.length a + String.length b - String.length b)%nat
    with (String.length a) by lia.
  rewrite str_drop_app_length. apply String.eqb_refl.
Qed.

Lemma endswith_split s b : Str.endswith s b = true -> exists a, s = (a ++ b)%string.
Proof.
  unfold Str.endswith. intros H. apply andb_true_iff in H as [_ H].
  apply String.eqb_eq in H.
  set (n := (String.length s - String.length b)%nat) in H.
  exists (Str.take n s). rewrite <- H. by rewrite str_take_drop.
Qed.

Lemma contains_app c a b :
  Str.contains c (a ++ b) = (Str.contains c a || Str.contains c b)%bool.
Proof.
  induction a as [|x a IH]; [done|]. rewrite append_cons.
  cbn [Str.contains]. by rewrite IH, orb_assoc.
Qed.

(** Two splits at a last occurrence are the same split. *)
Lemma last_sep_unique c a b s t :
  Str.contains c s = false -> Str.contains c t = false ->
  (a ++ String c s)%string = (b ++ String c t)%string -> s = t.
Proof.
  intros Hs Ht E.
  pose proof (rfind_app c a s Hs) as Ra. pose proof (rfind_app c b t Ht) as Rb.
  rewrite E in Ra. rewrite Ra in Rb.
  rewrite <- (drop_after_sep c a s), <- (drop_after_sep c b t).
  rewrite E. f_equal. lia.
Qed.

Lemma lower_app a b : Str.lower (a ++ b) = (Str.lower a ++ Str.lower b)%string.
Proof.
  induction a as [|x a IH]; [done|]. rewrite append_cons.
  cbn [Str.lower]. by rewrite IH, append_cons.
Qed.

Lemma lower_ascii_dot c : Str.lower_ascii c = "."%char <-> c = "."%char.
Proof.
  split; [|by intros ->].
  destruct c as [[] [] [] [] [] [] [] []]; vm_compute; congruence.
Qed.

Lemma contains_dot_lower s :
  Str.contains "."%char (Str.lower s) = Str.contains "."%char s.
Proof.
  induction s as [|x s IH]; [done|]. cbn [Str.contains Str.lower].
  rewrite IH. f_equal.
  destruct (Ascii.eqb_spec x "."%char) as [->|Hne]; [reflexivity|].
  apply Ascii.eqb_neq. intros E. apply Hne. apply lower_ascii_dot. exact E.
Qed.

(** [endswith] of the lowered name against a dotted suffix is the
    comparison of the lowered extension. *)
Lemma endswith_extension (filename e : string) :
  Str.contains "."%char e = false ->
  Str.endswith (Str.lower filename) (String "."%char e) =
  match extension filename with
  | Some x => String.eqb (Str.lower x) e
  | None => false
  end.
Proof.
  intros He. unfold extension.
  pose proof (rfind_range "."%char filename) as Hr.
  destruct (Z.ltb_spec (Str.rfind "."%char filename) 0) as [Hneg|Hpos].
  - apply rfind_absent in Hneg.
    destruct (Str.endswith (Str.lower filename) (String "."%char e)) eqn:E; [|done].
    apply endswith_split in E as [a Ha].
    assert (Hc : Str.contains "."%char (Str.lower filename) = true).
    { rewrite Ha, contains_app. cbn [Str.contains].
      rewrite Ascii.eqb_refl. cbn [orb]. by rewrite orb_true_r. }
    rewrite contains_dot_lower in Hc. congruence.
  - pose proof (rfind_split "."%char filename Hpos) as Hsplit.
    pose proof (rfind_drop_absent "."%char filename) as Hx.
    set (stem := Str.take _ filename) in Hsplit.
    set (x := Str.drop _ filename) in *.
    assert (Hl : Str.lower filename
                 = (Str.lower stem ++ String "."%char (Str.lower x))%string).
    { rewrite Hsplit at 1. by rewrite lower_app. }
    destruct (String.eqb_spec (Str.lower x) e) as [<-|Hne].
    + rewrite Hl. apply (endswith_app _ (String "."%char (Str.lower x))).
    + destruct (Str.endswith (Str.lower filename) (String "."%char e)) eqn:E; [|done].
      apply endswith_split in E as [a Ha]. exfalso. apply Hne.
      apply (last_sep_unique "."%char (Str.lower stem) a); [|done|congruence].
      by rewrite contains_dot_lower.
Qed.

(** The test of the handler is the test of the extension. *)
Lemma endswith_any_extension (filename : string) :
  Str.endswith_any (Str.lower filename) image_extensions
  = has_allowed_extension filename.
Proof.
  unfold Str.endswith_any, image_extensions, has_allowed_extension, allowed_extensions.
  cbn [existsb].
  rewrite !(endswith_extension filename) by reflexivity.
  by destruct (extension filename).
Qed.

Lemma basename_no_sep (p : string) :
  Str.contains Posixpath.sep (Posixpath.basename p) = false.
Proof. apply rfind_drop_absent. Qed.

Lemma basename_plain (f : string) :
  Str.contains Posixpath.sep f = false -> Posixpath.basename f = f.
Proof.
  intros H. apply rfind_absent in H. pose proof (rfind_range Posixpath.sep f).
  unfold Posixpath.basename.
  replace (Str.rfind Posixpath.sep f) with (-1) by lia. reflexivity.
Qed.

Lemma basename_after_sep (a f : string) :
  Str.contains Posixpath.sep f = false ->
  Posixpath.basename (a ++ String Posixpath.sep f) = f.
Proof.
  intros H. unfold Posixpath.basename. rewrite rfind_app by done.
  apply drop_after_sep.
Qed.

(** Joining a directory and a plain file name keeps the file name. *)
Lemma basename_join (d f : string) :
  Str.contains Posixpath.sep f = false ->
  Posixpath.basename (Posixpath.join d f) = f.
Proof.
  intros H. unfold Posixpath.join.
  assert (Hs : Str.startswith f "/" = false).
  { destruct f as [|x f]; [done|]. cbn [Str.contains] in H.
    apply orb_false_iff in H as [H _]. unfold Posixpath.sep in H.
    change ((Ascii.eqb "/"%char x && Str.startswith f "")%bool = false).
    by rewrite Ascii.eqb_sym, H. }
  rewrite Hs.
  destruct (String.eqb_spec d "") as [->|_]; cbn [orb].
  - by apply basename_plain.
  - destruct (Str.endswith d "/") eqn:E.
    + apply endswith_split in E as [a ->]. rewrite str_app_assoc.
      by apply basename_after_sep.
    + by apply (basename_after_sep d f).
Qed.

Lemma output_name_is_input_name (d p : string) :
  Posixpath.basename (Posixpath.join d (Posixpath.basename p)) = Posixpath.basename p.
Proof. apply basename_join, basename_no_sep. Qed.

End Names.

(** ** Runs that reach the save *)

Section Saving.

Variable cfg : Config.
Variable ext : External.

Local Abbreviation MASK := (MASK_PATH cfg).

(** When the steps before it succeed, the run is the save followed by
    the line that reports the file as done. *)
Lemma process_file_logic_until_save
    (input_path output_path : string) (w : World) (result_img : Image) :
  reaches_save cfg ext input_path w result_img ->
  process_file_logic cfg ext input_path output_path w =
  (let (r, w') :=
     Image_save ext result_img output_path 95
       (add_events w (take 6 (success_events cfg input_path output_path))) in
   match r with
   | Ret _ => print (Msg_done (Posixpath.basename output_path)) w'
   | Raise r => (Raise r, w')
   end).
Proof.
  intros (bytes & img & bytes' & asset & result_cv & rgb
          & Hin & Hdec & Hmask & Hdec' & Hinp & Hcvt & Hfrom).
  assert (Hm : (is_file w MASK || is_dir w MASK)%bool = true).
  { unfold is_file. rewrite Hmask. by rewrite bool_decide_eq_true_2. }
  unfold process_file_logic, bind at 1. rewrite os_path_exists_run, Hm.
  cbn [negb]. unfold bind at 1.
  rewrite (resize_image_decoded ext input_path _ bytes img) by done.
  rewrite add_events_app. cbn [app]. unfold bind at 1.
  rewrite (create_mask_decoded ext MASK _ bytes' asset) by done.
  rewrite add_events_app. cbn [app]. unfold bind at 1.
  rewrite inpaint_image_run by apply mask_rows_not_empty.
  rewrite add_events_app, Hinp. cbn [app].
  unfold bind at 1, print. rewrite log_run, add_events_app. cbn [app].
  unfold bind at 1. rewrite Hcvt. cbn [lift]. unfold ret at 1.
  unfold bind at 1. rewrite Hfrom. cbn [lift]. unfold ret at 1.
  unfold bind at 1. reflexivity.
Qed.

(** When every step succeeds, the run returns, having written the
    encoded result, after the events of [success_events]. *)
Lemma process_file_logic_ok
    (input_path output_path : string) (w : World) (content : list byte) :
  pipeline_ok cfg ext input_path output_path w content ->
  process_file_logic cfg ext input_path output_path w =
  (Ret tt, write_file output_path content
             (add_events w (success_events cfg input_path output_path))).
Proof.
  intros (result_img & Hreach & Henc & Hnd & Hpar).
  rewrite (process_file_logic_until_save _ _ _ result_img Hreach).
  destruct (Image_save_cases ext result_img output_path 95
              (add_events w (take 6 (success_events cfg input_path output_path))))
    as [(content' & Henc' & _ & _ & Hsave) | (e & w' & Hsave & _)].
  - rewrite Hsave. rewrite Henc in Henc'. injection Henc' as <-.
    unfold print. rewrite log_run.
    unfold write_file, add_events. cbn. by rewrite <- !app_assoc.
  - exfalso. revert Hsave. unfold Image_save, bind. rewrite log_run, Henc.
    change (is_dir (add_events _ _) output_path) with (is_dir w output_path).
    change (parent_exists (add_events _ _) output_path)
      with (parent_exists w output_path).
    by rewrite Hnd, Hpar.
Qed.

(** When the steps before the save succeed and the directory of the
    output path is missing, the save raises [FileNotFoundError]
    ([NotADirectoryError] when a regular file is in the place of a
    directory above), or the error of an encoder that does not know the
    file name; nothing is written and no directory is made. *)
Lemma process_file_logic_no_directory
    (input_path output_path : string) (w : World) (result_img : Image) :
  reaches_save cfg ext input_path w result_img ->
  is_dir w output_path = false ->
  parent_exists w output_path = false ->
  process_file_logic cfg ext input_path output_path w =
  (Raise (Exc match pil_encode ext output_path result_img 95 with
              | inl (e, None) => e
              | _ => path_error w output_path
              end),
   add_events w (take 7 (success_events cfg input_path output_path))).
Proof.
  intros Hreach Hnd Hpar.
  rewrite (process_file_logic_until_save _ _ _ result_img Hreach).
  unfold Image_save, bind. rewrite log_run, add_events_app.
  change (is_dir (add_events _ _) output_path) with (is_dir w output_path).
  change (parent_exists (add_events _ _) output_path)
    with (parent_exists w output_path).
  change (path_error (add_events _ _) output_path) with (path_error w output_path).
  rewrite Hnd, Hpar. cbn [negb].
  by destruct (pil_encode ext output_path result_img 95) as [[e [partial|]]|content].
Qed.

(** A run that went through is a run in which every step succeeded. *)
Lemma successful_run_inv (input_path output_path : string) (w : World) :
  successful_run (process_file_logic cfg ext input_path output_path w) ->
  exists content,
    pipeline_ok cfg ext input_path output_path w content /\
    process_file_logic cfg ext input_path output_path w =
    (Ret tt, write_file output_path content
               (add_events w (success_events cfg input_path output_path))).
Proof.
  intros [Hret [name Hlast]].
  destruct (process_file_logic_cases cfg ext input_path output_path w)
    as [[_ Hrun] | [(_ & _ & e & Hrun) | [(e & n & w' & _ & Hrun & _) | Hok]]].
  - rewrite Hrun in Hlast. cbn [snd add_events trace] in Hlast.
    rewrite last_app in Hlast. discriminate.
  - rewrite Hrun in Hlast. cbn [snd add_events trace] in Hlast.
    rewrite last_app in Hlast. discriminate.
  - rewrite Hrun in Hret. discriminate.
  - exact Hok.
Qed.

End Saving.

(** ** Runs that stop early *)

Section EarlyReturn.

Variable cfg : Config.
Variable ext : External.

Local Abbreviation MASK := (MASK_PATH cfg).

Lemma process_file_logic_mask_missing (input_path output_path : string) (w : World) :
  (is_file w MASK || is_dir w MASK)%bool = false ->
  process_file_logic cfg ext input_path output_path w =
  (Ret tt, add_events w [PathExists MASK; Print (Msg_critical_mask_not_found MASK)]).
Proof.
  intros Hm. unfold process_file_logic, bind at 1.
  rewrite os_path_exists_run, Hm. cbn [negb].
  unfold print. by rewrite log_run, add_events_app.
Qed.

Lemma process_file_logic_unreadable (input_path output_path : string) (w : World) :
  (is_file w MASK || is_dir w MASK)%bool = true ->
  (fs_files w !! input_path = None \/
   exists bytes e, fs_files w !! input_path = Some bytes /\ pil_decode ext bytes = inl e) ->
  exists e,
    process_file_logic cfg ext input_path output_path w =
    (Ret tt, add_events w [PathExists MASK;
                           Print (Msg_loading_and_resizing input_path);
                           Open input_path;
                           Print (Msg_error_reading_image e)]).
Proof.
  intros Hm Hbad. unfold process_file_logic, bind at 1.
  rewrite os_path_exists_run, Hm. cbn [negb]. unfold bind at 1.
  destruct (resize_image_unreadable ext input_path (add_events w [PathExists MASK]))
    as [e He]; [exact Hbad|].
  exists e. rewrite He. unfold ret. by rewrite add_events_app.
Qed.

(** [resize_image] returns [None] exactly for an input that cannot be
    opened or decoded. *)
Lemma resize_image_None (p : string) (w : World) :
  fst (resize_image ext p w) = Ret None ->
  fs_files w !! p = None \/
  exists bytes e, fs_files w !! p = Some bytes /\ pil_decode ext bytes = inl e.
Proof.
  intros H. destruct (fs_files w !! p) as [bytes|] eqn:Ef; [|by left].
  destruct (pil_decode ext bytes) as [e|img] eqn:Ed; [right; eauto|].
  rewrite (resize_image_decoded ext p w bytes img Ef Ed) in H. discriminate.
Qed.

(** A run never ends with anything but a return or an [Exception], it
    makes and removes no directory, and it only adds to the trace. *)
Lemma process_file_logic_outcome (input_path output_path : string) (w : World) :
  let run := process_file_logic cfg ext input_path output_path w in
  (fst run = Ret tt \/ exists e, fst run = Raise (Exc e)) /\
  fs_dirs (snd run) = fs_dirs w /\
  (exists evs, trace (snd run) = (trace w ++ PathExists MASK :: evs)%list) /\
  (parent_exists w output_path = false ->
   fs_files (snd run) = fs_files w /\ ~ successful_run run).
Proof.
  intros run.
  destruct (process_file_logic_cases cfg ext input_path output_path w)
    as [[_ Hrun] | [(_ & _ & e & Hrun)
       | [(e & n & w' & Hn & Hrun & Htr & Hdirs & _ & Hpar & _)
       | (content & Hok & Hrun)]]];
    fold run in Hrun; rewrite Hrun; cbn [fst snd].
  - split; [by left|]. split; [done|]. split; [by eexists|].
    intros _. split; [done|]. intros [_ [name Hl]]. cbn [snd add_events trace] in Hl.
    rewrite last_app in Hl. discriminate.
  - split; [by left|]. split; [done|]. split; [by eexists|].
    intros _. split; [done|]. intros [_ [name Hl]]. cbn [snd add_events trace] in Hl.
    rewrite last_app in Hl. discriminate.
  - split; [right; by exists e|]. split; [done|]. split.
    + rewrite Htr. destruct n as [|n]; [lia|]. by eexists.
    + intros Hp. split; [by apply Hpar|]. intros [Hret _]. discriminate.
  - split; [by left|]. split; [done|]. split; [by eexists|].
    intros Hp. destruct Hok as (result_img & _ & _ & _ & Hp'). congruence.
Qed.

End EarlyReturn.

(** ** The handler and the watcher *)

Section Handler.

Variable cfg : Config.
Variable ext : External.

Local Abbreviation MASK := (MASK_PATH cfg).

(** The file name of an event and the output path the handler builds. *)
Local Abbreviation name_of ev := (Posixpath.basename (src_path ev)).
Local Abbreviation output_of ev :=
  (Posixpath.join (OUTPUT_DIR cfg) (Posixpath.basename (src_path ev))).

Lemma on_created_dropped (ev : FileSystemEvent) (w : World) :
  qualifies ev = false -> on_created cfg ext ev w = (Ret tt, w).
Proof.
  unfold qualifies, on_created. intros H.
  destruct (is_directory ev); [reflexivity|]. cbn [negb andb] in H.
  by rewrite endswith_any_extension, H.
Qed.

Lemma on_created_handled (ev : FileSystemEvent) (w : World) :
  qualifies ev = true ->
  on_created cfg ext ev w =
  try_except
    (process_file_logic cfg ext (src_path ev) (output_of ev))
    (fun e => print (Msg_failed_to_process (name_of ev) e))
    (add_events w [Sleep 1; Print (Msg_new_image_detected (name_of ev))]).
Proof.
  unfold qualifies, on_created. intros H.
  destruct (is_directory ev); [discriminate|]. cbn [negb andb] in H.
  rewrite endswith_any_extension, H. cbn [negb].
  unfold bind, time_sleep, print. by rewrite !log_run, add_events_app.
Qed.

(** The handler returns, whatever the run did: a raised [Exception] is
    logged with the file name. *)
Lemma on_created_run (ev : FileSystemEvent) (w : World) :
  qualifies ev = true ->
  let run := process_file_logic cfg ext (src_path ev) (output_of ev)
               (add_events w [Sleep 1; Print (Msg_new_image_detected (name_of ev))]) in
  on_created cfg ext ev w =
  match fst run with
  | Raise (Exc e) =>
      (Ret tt, add_events (snd run) [Print (Msg_failed_to_process (name_of ev) e)])
  | _ => (Ret tt, snd run)
  end.
Proof.
  intros Hq run. rewrite on_created_handled by done. unfold try_except.
  fold run.
  destruct (process_file_logic_outcome cfg ext (src_path ev) (output_of ev)
              (add_events w [Sleep 1; Print (Msg_new_image_detected (name_of ev))]))
    as [[Hret | [e He]] _]; fold run in Hret || fold run in He;
    destruct run as [r w']; cbn [fst snd] in *; subst r; reflexivity.
Qed.

Lemma on_created_returns (ev : FileSystemEvent) (w : World) :
  fst (on_created cfg ext ev w) = Ret tt.
Proof.
  destruct (qualifies ev) eqn:Hq.
  - rewrite on_created_run by done. cbn zeta.
    by destruct (fst (process_file_logic _ _ _ _ _)) as [[]|[e| |]].
  - by rewrite on_created_dropped.
Qed.

Lemma observer_run_step (ev : FileSystemEvent) (rest : list FileSystemEvent) (w : World) :
  observer_run cfg ext (ev :: rest) w =
  observer_run cfg ext rest (snd (on_created cfg ext ev w)).
Proof.
  cbn [observer_run]. unfold bind.
  pose proof (on_created_returns ev w) as H.
  destruct (on_created cfg ext ev w) as [r w']. cbn [fst snd] in *. by subst r.
Qed.

Lemma observer_run_returns (events : list FileSystemEvent) (w : World) :
  fst (observer_run cfg ext events w) = Ret tt.
Proof.
  revert w. induction events as [|ev rest IH]; intros w; [reflexivity|].
  rewrite observer_run_step. apply IH.
Qed.

(** The handler makes and removes no directory. *)
Lemma on_created_dirs (ev : FileSystemEvent) (w : World) :
  fs_dirs (snd (on_created cfg ext ev w)) = fs_dirs w.
Proof.
  destruct (qualifies ev) eqn:Hq; [|by rewrite on_created_dropped].
  rewrite on_created_run by done. cbn zeta.
  destruct (process_file_logic_outcome cfg ext (src_path ev) (output_of ev)
              (add_events w [Sleep 1; Print (Msg_new_image_detected (name_of ev))]))
    as (_ & Hd & _).
  by destruct (fst (process_file_logic _ _ _ _ _)) as [[]|[e| |]].
Qed.

End Handler.

(** ** The handler on a console that can refuse a line *)

Section Console.

Variable cfg : Config.
Variable ext : External.
Variable console : message -> option exception.

Local Abbreviation MASK := (MASK_PATH cfg).
Local Abbreviation name_of ev := (Posixpath.basename (src_path ev)).
Local Abbreviation output_of ev :=
  (Posixpath.join (OUTPUT_DIR cfg) (Posixpath.basename (src_path ev))).
Local Abbreviation detected w ev :=
  (add_events w [Sleep 1; Print (Msg_new_image_detected (Posixpath.basename (src_path ev)))]).

Lemma print_on_taken (m : message) (w : World) :
  console m = None -> print_on console m w = (Ret tt, add_events w [Print m]).
Proof. intros H. unfold print_on. by rewrite H. Qed.

Lemma print_on_refused (m : message) (e : exception) (w : World) :
  console m = Some e -> print_on console m w = (Raise (Exc e), w).
Proof. intros H. unfold print_on. by rewrite H. Qed.

(** *** Nothing but an [Exception] is raised *)

Lemma exceptions_only_ret {A} (a : A) : exceptions_only (ret a).
Proof. intros w r H. discriminate. Qed.

Lemma exceptions_only_log (ev : event) : exceptions_only (log ev).
Proof. intros w r H. discriminate. Qed.

Lemma exceptions_only_lift {A} (x : exception + A) : exceptions_only (lift x).
Proof.
  intros w r. destruct x as [e|a]; cbn [lift]; unfold raise, ret; cbn [fst].
  - intros [= <-]. by exists e.
  - discriminate.
Qed.

Lemma exceptions_only_bind {A B} (c : M A) (k : A -> M B) :
  exceptions_only c -> (forall a, exceptions_only (k a)) -> exceptions_only (bind c k).
Proof.
  intros Hc Hk w r. unfold bind. destruct (c w) as [[a|r'] w'] eqn:E.
  - apply Hk.
  - cbn [fst]. intros [= <-]. apply (Hc w). by rewrite E.
Qed.

Lemma exceptions_only_try_except {A} (body : M A) (handler : exception -> M A) :
  exceptions_only body -> (forall e, exceptions_only (handler e)) ->
  exceptions_only (try_except body handler).
Proof.
  intros Hb Hh w r. unfold try_except.
  destruct (body w) as [[a|[e|code|]] w'] eqn:E.
  - discriminate.
  - apply Hh.
  - destruct (Hb w (SystemExit code)) as [e He]; [by rewrite E|discriminate].
  - destruct (Hb w KeyboardInterrupt) as [e He]; [by rewrite E|discriminate].
Qed.

Lemma exceptions_only_print_on (m : message) : exceptions_only (print_on console m).
Proof.
  intros w r. unfold print_on. destruct (console m) as [e|].
  - unfold raise. cbn [fst]. intros [= <-]. by exists e.
  - discriminate.
Qed.

Lemma exceptions_only_os_path_exists (p : string) : exceptions_only (os_path_exists p).
Proof. intros w r H. discriminate. Qed.

Lemma exceptions_only_Image_open (p : string) : exceptions_only (Image_open ext p).
Proof.
  intros w r. destruct (fs_files w !! p) as [content|] eqn:E.
  - rewrite (Image_open_file ext p w content E).
    destruct (pil_decode ext content) as [e|img]; cbn [fst]; [|discriminate].
    intros [= <-]. by exists e.
  - rewrite (Image_open_absent ext p w E). cbn [fst]. intros [= <-]. by eexists.
Qed.

Lemma exceptions_only_Image_save (img : Image) (p : string) (q : Z) :
  exceptions_only (Image_save ext img p q).
Proof.
  intros w r.
  destruct (Image_save_cases ext img p q w)
    as [(content & _ & _ & _ & ->) | (e & w' & -> & _)]; cbn [fst]; [discriminate|].
  intros [= <-]. by exists e.
Qed.

Local Ltac solve_exceptions_only :=
  repeat first
    [ apply exceptions_only_ret
    | apply exceptions_only_log
    | apply exceptions_only_lift
    | apply exceptions_only_print_on
    | apply exceptions_only_os_path_exists
    | apply exceptions_only_Image_open
    | apply exceptions_only_Image_save
    | apply exceptions_only_bind; [|intros ?; cbv beta zeta]
    | apply exceptions_only_try_except; [|intros ?; cbv beta zeta]
    | match goal with
      | |- exceptions_only (if ?b then _ else _) => destruct b
      | |- exceptions_only (match ?x with _ => _ end) => destruct x
      end ].

Lemma exceptions_only_create_mask (p : string) : exceptions_only (create_mask ext p).
Proof. unfold create_mask. solve_exceptions_only. Qed.

Lemma exceptions_only_inpaint_image (img_cv mask_binary : ndarray) :
  exceptions_only (inpaint_image ext img_cv mask_binary).
Proof. unfold inpaint_image. cbv zeta. solve_exceptions_only. Qed.

Lemma exceptions_only_resize_image_on (p : string) :
  exceptions_only (resize_image_on ext console p).
Proof. unfold resize_image_on. solve_exceptions_only. Qed.

(** A run ends with a return or an [Exception], whatever the console
    does. *)
Lemma exceptions_only_process_file_logic_on (input_path output_path : string) :
  exceptions_only (process_file_logic_on cfg ext console input_path output_path).
Proof.
  unfold process_file_logic_on.
  apply exceptions_only_bind; [apply exceptions_only_os_path_exists|].
  intros mask_found. destruct (negb mask_found); [apply exceptions_only_print_on|].
  apply exceptions_only_bind; [apply exceptions_only_resize_image_on|].
  intros [img_cv|]; [|apply exceptions_only_ret].
  apply exceptions_only_bind; [apply exceptions_only_create_mask|]. intros mask_binary.
  apply exceptions_only_bind; [apply exceptions_only_inpaint_image|]. intros result_cv.
  solve_exceptions_only.
Qed.

(** *** [resize_image], case by case *)

Lemma resize_image_on_run (p : string) (w : World) :
  resize_image_on ext console p w =
  match console (Msg_loading_and_resizing p) with
  | Some e0 => (Raise (Exc e0), w)
  | None =>
      let w1 := add_events w [Print (Msg_loading_and_resizing p); Open p] in
      let unreadable e :=
        match console (Msg_error_reading_image e) with
        | None => (Ret None, add_events w1 [Print (Msg_error_reading_image e)])
        | Some e1 => (Raise (Exc e1), w1)
        end in
      match fs_files w !! p with
      | Some bytes =>
          match pil_decode ext bytes with
          | inr img => (Ret (Some (bgr_array (working_rgb ext img))), w1)
          | inl e => unreadable e
          end
      | None => unreadable (open_error w p)
      end
  end.
Proof.
  unfold resize_image_on, bind at 1.
  destruct (console (Msg_loading_and_resizing p)) as [e0|] eqn:Ec.
  { by rewrite (print_on_refused _ e0). }
  rewrite print_on_taken by exact Ec. cbv zeta.
  set (w0 := add_events w [Print (Msg_loading_and_resizing p)]).
  assert (Hbad : forall e,
    Image_open ext p w0 = (Raise (Exc e), add_events w0 [Open p]) ->
    try_except
      (img <- Image_open ext p ;;
       img_cv <- lift (cv2_cvtColor (np_array (working_rgb ext img)) COLOR_RGB2BGR) ;;
       ret (Some img_cv))
      (fun e => print_on console (Msg_error_reading_image e) ;; ret None) w0 =
    match console (Msg_error_reading_image e) with
    | None =>
        (Ret None,
         add_events (add_events w [Print (Msg_loading_and_resizing p); Open p])
           [Print (Msg_error_reading_image e)])
    | Some e1 => (Raise (Exc e1), add_events w [Print (Msg_loading_and_resizing p); Open p])
    end).
  { intros e He. unfold try_except, bind at 1. rewrite He. unfold bind.
    unfold w0. rewrite add_events_app. cbn [app].
    destruct (console (Msg_error_reading_image e)) as [e1|] eqn:Ee.
    - by rewrite (print_on_refused _ e1).
    - by rewrite print_on_taken. }
  change (fs_files w !! p) with (fs_files w0 !! p).
  change (open_error w p) with (open_error w0 p).
  destruct (fs_files w0 !! p) as [bytes|] eqn:Ef.
  - destruct (pil_decode ext bytes) as [e|img] eqn:Ed.
    + apply Hbad. by rewrite (Image_open_file ext p w0 bytes Ef), Ed.
    + unfold try_except, bind at 1.
      rewrite (Image_open_file ext p w0 bytes Ef), Ed.
      fold (working_rgb ext img).
      rewrite cvtColor_three_bands by (by rewrite working_rgb_mode).
      cbn [lift bind ret]. unfold bind, ret. unfold w0. by rewrite add_events_app.
  - apply Hbad. by apply Image_open_absent.
Qed.

(** *** The handler *)


Lemma on_created_on_handled (ev : FileSystemEvent) (w : World) :
  qualifies ev = true ->
  on_created_on cfg ext console ev w =
  (print_on console (Msg_new_image_detected (name_of ev)) ;;
   try_except
     (process_file_logic_on cfg ext console (src_path ev) (output_of ev))
     (fun e => print_on console (Msg_failed_to_process (name_of ev) e)))
    (add_events w [Sleep 1]).
Proof.
  unfold qualifies, on_created_on. intros H.
  destruct (is_directory ev); [discriminate|]. cbn [negb andb] in H.
  rewrite endswith_any_extension, H. cbn [negb].
  unfold bind at 1, time_sleep. by rewrite log_run.
Qed.

(** The announcement is outside the [try]: what it raises leaves the
    handler. *)
Lemma on_created_on_refused (ev : FileSystemEvent) (w : World) (e0 : exception) :
  qualifies ev = true ->
  console (Msg_new_image_detected (name_of ev)) = Some e0 ->
  on_created_on cfg ext console ev w = (Raise (Exc e0), add_events w [Sleep 1]).
Proof.
  intros Hq Hc. rewrite on_created_on_handled by done. unfold bind.
  by rewrite (print_on_refused _ e0).
Qed.

(** Once the file is announced, whatever the run raises reaches the
    [except] clause, whose only statement is the line that reports the
    failure. *)
Lemma on_created_on_run (ev : FileSystemEvent) (w : World) :
  qualifies ev = true ->
  console (Msg_new_image_detected (name_of ev)) = None ->
  let run := process_file_logic_on cfg ext console (src_path ev) (output_of ev)
               (detected w ev) in
  on_created_on cfg ext console ev w =
  match fst run with
  | Raise (Exc e) => print_on console (Msg_failed_to_process (name_of ev) e) (snd run)
  | _ => (Ret tt, snd run)
  end.
Proof.
  intros Hq Hc run. rewrite on_created_on_handled by done. unfold bind.
  rewrite print_on_taken by exact Hc. rewrite add_events_app. cbn [app].
  unfold try_except. fold run.
  pose proof (exceptions_only_process_file_logic_on (src_path ev) (output_of ev)
                (detected w ev)) as Hexn. fold run in Hexn.
  destruct run as [[[]|[e|code|]] w']; cbn [fst snd]; try reflexivity.
  - destruct (Hexn (SystemExit code) eq_refl) as [e He]. discriminate.
  - destruct (Hexn KeyboardInterrupt eq_refl) as [e He]. discriminate.
Qed.


(** An exception that leaves the handler ends the observer thread. *)
Lemma observer_run_on_stops
    (ev : FileSystemEvent) (rest : list FileSystemEvent) (w w' : World) (r : raised) :
  on_created_on cfg ext console ev w = (Raise r, w') ->
  observer_run_on cfg ext console (ev :: rest) w = (Raise r, w').
Proof. intros H. cbn [observer_run_on]. unfold bind. by rewrite H. Qed.




End Console.

(** On a console that takes every line, the functions with a console are
    the functions without. *)
Lemma resize_image_on_takes_all (ext : External) (p : string) (w : World) :
  resize_image_on ext takes_all p w = resize_image ext p w.
Proof. reflexivity. Qed.


Lemma on_created_on_takes_all
    (cfg : Config) (ext : External) (ev : FileSystemEvent) (w : World) :
  on_created_on cfg ext takes_all ev w = on_created cfg ext ev w.
Proof. reflexivity. Qed.

Lemma observer_run_on_takes_all
    (cfg : Config) (ext : External) (events : list FileSystemEvent) (w : World) :
  observer_run_on cfg ext takes_all events w = observer_run cfg ext events w.
Proof.
  revert w. induction events as [|ev rest IH]; intros w; [reflexivity|].
  cbn [observer_run_on observer_run]. unfold bind. rewrite on_created_on_takes_all.
  destruct (on_created cfg ext ev w) as [[[]|r] w']; [apply IH|reflexivity].
Qed.

(** ** Start-up *)

Section Startup.

Variable cfg : Config.
Variable ext : External.

Local Abbreviation MASK := (MASK_PATH cfg).

Lemma os_makedirs_returns (name : string) (w w1 : World) :
  os_makedirs name true w = (Ret tt, w1) ->
  existsb (is_file w) (parents (String.length name) name) = false /\
  is_file w name = false /\
  fs_files w1 = fs_files w /\
  is_dir w1 name = true /\
  (forall d, is_dir w d = true -> is_dir w1 d = true) /\
  (is_dir w name = true -> fs_dirs w1 = fs_dirs w) /\
  name <> "".
Proof.
  unfold os_makedirs, bind. rewrite log_run.
  change (is_file (add_events w [Makedirs name])) with (is_file w).
  change (is_dir (add_events w [Makedirs name]) name) with (is_dir w name).
  destruct (String.eqb_spec name "") as [|Hname]; [discriminate|].
  destruct (existsb (is_file w) _) eqn:Ea; [discriminate|].
  cbn [negb]. rewrite andb_false_r, orb_false_r.
  destruct (is_file w name) eqn:Ef; [discriminate|].
  destruct (is_dir w name) eqn:Ed; intros H; apply (f_equal snd) in H;
    cbn [snd] in H; subst w1; cbn [fs_files fs_dirs add_events].
  - repeat split; auto.
  - repeat split; auto; try discriminate.
    + unfold is_dir. cbn [fs_dirs]. apply bool_decide_eq_true. set_solver.
    + intros d Hd. unfold is_dir in *. cbn [fs_dirs].
      apply bool_decide_eq_true. apply bool_decide_eq_true in Hd. set_solver.
Qed.

(** On a directory that is there, [makedirs] with [exist_ok] changes
    nothing. *)
Lemma os_makedirs_existing (name : string) (w : World) :
  existsb (is_file w) (parents (String.length name) name) = false ->
  is_file w name = false ->
  is_dir w name = true ->
  name <> "" ->
  os_makedirs name true w = (Ret tt, add_events w [Makedirs name]).
Proof.
  intros Ea Ef Ed Hname. unfold os_makedirs, bind. rewrite log_run.
  change (is_file (add_events w [Makedirs name])) with (is_file w).
  change (is_dir (add_events w [Makedirs name]) name) with (is_dir w name).
  destruct (String.eqb_spec name "") as [|_]; [done|].
  rewrite Ea, Ef, Ed. reflexivity.
Qed.

(** The empty name is refused. *)
Lemma os_makedirs_empty_name (exist_ok : bool) (w : World) :
  os_makedirs "" exist_ok w =
  (Raise (Exc (FileNotFoundError "")), add_events w [Makedirs ""]).
Proof. reflexivity. Qed.

Lemma is_file_same_files (w w' : World) :
  fs_files w' = fs_files w -> is_file w' = is_file w.
Proof. intros H. unfold is_file. by rewrite H. Qed.

(** The directories are made when the module is loaded, and loading it
    again changes nothing. *)
Lemma ensure_directories_returns (w w' : World) :
  ensure_directories cfg w = (Ret tt, w') ->
  is_dir w' (INPUT_DIR cfg) = true /\
  is_dir w' (OUTPUT_DIR cfg) = true /\
  fs_files w' = fs_files w /\
  ensure_directories cfg w' =
    (Ret tt, add_events w' [Makedirs (INPUT_DIR cfg); Makedirs (OUTPUT_DIR cfg)]).
Proof.
  unfold ensure_directories, bind at 1.
  destruct (os_makedirs (INPUT_DIR cfg) true w) as [[[]|r] w1] eqn:E1; [|discriminate].
  intros E2.
  destruct (os_makedirs_returns _ _ _ E1)
    as (Ha1 & Hf1 & Hfiles1 & Hd1 & Hmono1 & _ & Hname1).
  destruct (os_makedirs_returns _ _ _ E2)
    as (Ha2 & Hf2 & Hfiles2 & Hd2 & Hmono2 & _ & Hname2).
  split; [by apply Hmono2|]. split; [done|]. split; [congruence|].
  unfold bind.
  rewrite (os_makedirs_existing (INPUT_DIR cfg) w').
  - rewrite (os_makedirs_existing (OUTPUT_DIR cfg)).
    + by rewrite add_events_app.
    + change (is_file (add_events w' _)) with (is_file w').
      by rewrite (is_file_same_files w1 w').
    + change (is_file (add_events w' _)) with (is_file w').
      by rewrite (is_file_same_files w1 w').
    + exact Hd2.
    + exact Hname2.
  - rewrite (is_file_same_files w w') by congruence. exact Ha1.
  - rewrite (is_file_same_files w w') by congruence. exact Hf1.
  - by apply Hmono2.
  - exact Hname1.
Qed.

(** Without the mask asset the main block exits with status 1 before
    the observer is scheduled or started. *)
Lemma main_mask_missing (events : list FileSystemEvent) (w : World) :
  (is_file w MASK || is_dir w MASK)%bool = false ->
  main cfg ext events w =
  (Raise (SystemExit 1),
   add_events w [PathExists MASK;
                 Print (Msg_mask_not_found (MASK_FILENAME cfg) (SCRIPT_DIR cfg));
                 Print Msg_place_mask_file]).
Proof.
  intros Hm. unfold main, bind at 1. rewrite os_path_exists_run, Hm.
  cbn [negb]. unfold bind, print, sys_exit, raise. rewrite !log_run.
  by rewrite !add_events_app.
Qed.

(** With it, the observer is started and every event is handed to the
    handler before the interrupt stops it. *)
Lemma main_mask_present (events : list FileSystemEvent) (w : World) :
  (is_file w MASK || is_dir w MASK)%bool = true ->
  main cfg ext events w =
  (Ret tt,
   add_events
     (snd (observer_run cfg ext events
             (add_events w [PathExists MASK;
                            ObserverSchedule (INPUT_DIR cfg) false;
                            ObserverStart;
                            Print (Msg_started_watching (INPUT_DIR cfg));
                            Print (Msg_saving_to (OUTPUT_DIR cfg));
                            Print (Msg_using_mask MASK);
                            Print Msg_press_ctrl_c])))
     [ObserverStop; ObserverJoin]).
Proof.
  intros Hm. unfold main, bind at 1. rewrite os_path_exists_run, Hm.
  cbn [negb]. unfold bind, print, ret. rewrite !log_run.
  by rewrite !add_events_app.
Qed.

End Startup.

(** ** The pipeline, the handler and the watcher: the properties *)

Section Claims.

Variable cfg : Config.
Variable ext : External.

Local Abbreviation MASK := (MASK_PATH cfg).
Local Abbreviation name_of ev := (Posixpath.basename (src_path ev)).
Local Abbreviation output_of ev :=
  (Posixpath.join (OUTPUT_DIR cfg) (Posixpath.basename (src_path ev))).
Local Abbreviation detected w ev :=
  (add_events w [Sleep 1; Print (Msg_new_image_detected (Posixpath.basename (src_path ev)))]).

(** C3. A run of [process_file_logic] that goes through is a run in
    which every step succeeded, in the order of [success_events]: the
    input is opened and resized, then the mask asset is opened and the
    mask built, then the inpainting is called, then the result, turned
    from BGR back to RGB, is saved with quality 95 at the output path.
    The handler calls it with the output directory joined to the file
    name of the event, whose base name is that of the input. *)
Theorem successful_run_order_quality_name
    (input_path output_path : string) (w : World) (ev : FileSystemEvent) :
  (successful_run (process_file_logic cfg ext input_path output_path w) ->
   exists content result_img result_cv rgb,
     reaches_save cfg ext input_path w result_img /\
     cv2_cvtColor result_cv COLOR_BGR2RGB = inr rgb /\
     Image_fromarray rgb = inr result_img /\
     pil_encode ext output_path result_img 95 = inr content /\
     process_file_logic cfg ext input_path output_path w =
     (Ret tt,
      write_file output_path content
        (add_events w
           [PathExists MASK;
            Print (Msg_loading_and_resizing input_path);
            Open input_path;
            Open MASK;
            Inpaint 15 INPAINT_NS;
            Print (Msg_saving_result output_path);
            Save output_path 95;
            Print (Msg_done (Posixpath.basename output_path))]))) /\
  (qualifies ev = true ->
   on_created cfg ext ev w =
   try_except
     (process_file_logic cfg ext (src_path ev) (output_of ev))
     (fun e => print (Msg_failed_to_process (name_of ev) e))
     (detected w ev)) /\
  Posixpath.basename (output_of ev) = Posixpath.basename (src_path ev).
Proof.
  split; [|split].
  - intros Hs. destruct (successful_run_inv cfg ext _ _ _ Hs) as (content & Hok & Hrun).
    destruct Hok as (result_img & Hreach & Henc & _).
    pose proof Hreach as (? & ? & ? & ? & result_cv & rgb & _ & _ & _ & _ & _ & Hc & Hf).
    exists content, result_img, result_cv, rgb. auto.
  - apply on_created_handled.
  - apply output_name_is_input_name.
Qed.


(** C6. Without the mask asset when the program starts (the module is
    loaded, the main block begins), the process exits with status 1 and
    the observer is neither scheduled nor started.  Without it when a file
    is processed, the run prints its error and returns, files and
    directories as they were; the handler returns and the observer goes
    on with the next event. *)
Theorem missing_mask_fatal_only_at_startup
    (events : list FileSystemEvent) (input_path output_path : string)
    (ev : FileSystemEvent) (w : World) :
  (is_file w MASK || is_dir w MASK)%bool = false ->
  (main cfg ext events w =
     (Raise (SystemExit 1),
      add_events w [PathExists MASK;
                    Print (Msg_mask_not_found (MASK_FILENAME cfg) (SCRIPT_DIR cfg));
                    Print Msg_place_mask_file]) /\
   exit_code (fst (main cfg ext events w)) = 1 /\
   (forall w0, ensure_directories cfg w0 = (Ret tt, w) ->
      exit_code (fst (script cfg ext events w0)) = 1 /\
      trace (snd (script cfg ext events w0)) = trace (snd (main cfg ext events w)))) /\
  process_file_logic cfg ext input_path output_path w =
    (Ret tt, add_events w [PathExists MASK; Print (Msg_critical_mask_not_found MASK)]) /\
  (fst (on_created cfg ext ev w) = Ret tt /\
   same_fs w (snd (on_created cfg ext ev w)) /\
   forall rest,
     observer_run cfg ext (ev :: rest) w =
     observer_run cfg ext rest (snd (on_created cfg ext ev w))).
Proof.
  intros Hm. split; [|split].
  - rewrite main_mask_missing by done. split; [done|]. split; [done|].
    intros w0 H0. unfold script, bind. rewrite H0.
    rewrite main_mask_missing by done. by split.
  - by apply process_file_logic_mask_missing.
  - split; [apply on_created_returns|]. split; [|intros rest; apply observer_run_step].
    destruct (qualifies ev) eqn:Hq.
    + rewrite on_created_run by done. cbn zeta.
      rewrite process_file_logic_mask_missing by exact Hm. by split.
    + rewrite on_created_dropped by done. by split.
Qed.

(** C7. A directory event, and an event for a file whose extension,
    compared without regard to case, is not png, jpg, jpeg, bmp or tiff,
    leave the world as it is: nothing is printed, read or written, and
    the pipeline is not called. *)
Theorem on_created_ignores_other_events (ev : FileSystemEvent) (w : World) :
  is_directory ev = true \/
  has_allowed_extension (Posixpath.basename (src_path ev)) = false ->
  on_created cfg ext ev w = (Ret tt, w).
Proof.
  intros H. apply on_created_dropped. unfold qualifies.
  destruct H as [-> | ->]; [reflexivity|apply andb_false_r].
Qed.

(** C8. For an event that qualifies, the first thing the handler does is
    to sleep for 1 second: whatever else it does (look for the mask,
    open the file, save) comes after the sleep. *)
Theorem on_created_sleeps_first (ev : FileSystemEvent) (w : World) :
  qualifies ev = true ->
  (exists rest,
     trace (snd (on_created cfg ext ev w)) =
     (trace w ++ Sleep 1 :: Print (Msg_new_image_detected (name_of ev))
              :: PathExists MASK :: rest)%list) /\
  (forall before e after,
     trace (snd (on_created cfg ext ev w)) = (trace w ++ before ++ e :: after)%list ->
     e <> Sleep 1 -> In (Sleep 1) before).
Proof.
  intros Hq.
  assert (Hfirst : exists rest,
     trace (snd (on_created cfg ext ev w)) =
     (trace w ++ Sleep 1 :: Print (Msg_new_image_detected (name_of ev))
              :: PathExists MASK :: rest)%list).
  { rewrite on_created_run by done. cbn zeta.
    destruct (process_file_logic_outcome cfg ext (src_path ev) (output_of ev)
                (detected w ev)) as (_ & _ & [evs Htr] & _).
    cbn [add_events trace] in Htr. rewrite <- app_assoc in Htr. cbn [app] in Htr.
    destruct (fst (process_file_logic _ _ _ _ _)) as [[]|[e| |]];
      cbn [snd add_events trace]; rewrite Htr; try by eexists.
    rewrite <- app_assoc. cbn [app]. by eexists. }
  split; [exact Hfirst|].
  intros before e after Htr Hne. destruct Hfirst as [rest Hfirst].
  rewrite Hfirst in Htr. apply app_inv_head in Htr.
  destruct before as [|b before]; cbn [app] in Htr.
  - congruence.
  - left. congruence.
Qed.

(** C9, as it holds of the code. The output directory is made when the module is
    loaded, once, and loading again changes nothing.  A run of
    [process_file_logic] makes no directory; when the directory of the
    output path is missing the run does not go through and writes
    nothing; when it goes through, the file at the output path is the
    encoded result, whether or not a file was there. *)
Theorem output_directory_is_made_at_startup
    (input_path output_path : string) (w : World) :
  let run := process_file_logic cfg ext input_path output_path w in
  (forall w', ensure_directories cfg w = (Ret tt, w') ->
     is_dir w' (OUTPUT_DIR cfg) = true /\
     fs_files w' = fs_files w /\
     ensure_directories cfg w' =
       (Ret tt, add_events w' [Makedirs (INPUT_DIR cfg); Makedirs (OUTPUT_DIR cfg)])) /\
  fs_dirs (snd run) = fs_dirs w /\
  (parent_exists w output_path = false ->
   fs_files (snd run) = fs_files w /\ ~ successful_run run) /\
  (successful_run run ->
   exists content, fs_files (snd run) = <[output_path := content]> (fs_files w)).
Proof.
  intros run. split; [|split; [|split]].
  - intros w' H. destruct (ensure_directories_returns cfg w w' H) as (_ & ? & ? & ?).
    auto.
  - apply (process_file_logic_outcome cfg ext input_path output_path w).
  - apply (process_file_logic_outcome cfg ext input_path output_path w).
  - intros Hs. destruct (successful_run_inv cfg ext _ _ _ Hs) as (content & _ & Hrun).
    exists content. unfold run. by rewrite Hrun.
Qed.

(** C10. When the mask asset is missing, or when [resize_image] returns
    [None] because the input cannot be opened or decoded, the run returns
    without raising; files and directories are as they were before. *)
Theorem early_return_leaves_files_untouched
    (input_path output_path : string) (w : World) :
  (is_file w MASK || is_dir w MASK)%bool = false \/
  fst (resize_image ext input_path w) = Ret None ->
  let run := process_file_logic cfg ext input_path output_path w in
  fst run = Ret tt /\
  fs_files (snd run) = fs_files w /\
  fs_dirs (snd run) = fs_dirs w /\
  forall quality, ~ In (Save output_path quality) (drop (length (trace w)) (trace (snd run))).
Proof.
  intros H run.
  assert (Hcases : exists evs, run = (Ret tt, add_events w evs) /\
                                forall q, ~ In (Save output_path q) evs).
  { destruct (is_file w MASK || is_dir w MASK)%bool eqn:Hm.
    - destruct H as [H|H]; [discriminate|]. apply resize_image_None in H.
      destruct (process_file_logic_unreadable cfg ext input_path output_path w Hm H)
        as [e He].
      eexists. split; [exact He|]. intros q Hin. cbn in Hin.
      intuition discriminate.
    - eexists. split; [by apply process_file_logic_mask_missing|].
      intros q Hin. cbn in Hin. intuition discriminate. }
  destruct Hcases as (evs & -> & Hno). cbn [fst snd add_events fs_files fs_dirs trace].
  repeat split; auto. intros q. by rewrite drop_app_length.
Qed.

End Claims.

(** ** The small instance at work *)

Lemma mask_rows_binary (grey : Image) : binary (mask_rows grey).
Proof.
  apply Forall_ztab. intros y _. apply Forall_ztab. intros x _.
  apply mask_value_binary.
Qed.

Lemma mask_rows_empty (grey : Image) :
  (forall x y, im_px grey x y 0%nat <= 127) ->
  forall y x, ~ nonzero_at (mask_rows grey) y x.
Proof.
  intros Hdark y x (row & v & Hr & Hv & Hy & Hx & Hnz).
  destruct (mask_rows_lookup grey y x row v Hy Hx Hr Hv) as (_ & _ & ->).
  apply Hnz. unfold mask_value.
  destruct ((1205 <=? x) && (x <? 1250) && (645 <=? y) && (y <? 690))%bool; [|done].
  specialize (Hdark (x - 1205) (y - 645)).
  destruct (Z.gtb_spec (im_px grey (x - 1205) (y - 645) 0%nat) 127); [lia|done].
Qed.

(** In a world with the demo photo and the white mask asset, the run
    reaches the save with an image that encodes. *)
Lemma demo_reaches_save (w : World) :
  fs_files w !! "in/photo.jpg" = Some Demo.photo ->
  fs_files w !! "/app/mask.png" = Some Demo.white ->
  exists result_img,
    reaches_save Demo.cfg Demo.ext "in/photo.jpg" w result_img /\
    pil_encode Demo.ext "out/photo.jpg" result_img 95 = inr [Byte.x50; Byte.x5f].
Proof.
  intros Hin Hmask. eexists. split.
  - unfold reaches_save. do 6 eexists.
    split; [exact Hin|]. split; [reflexivity|].
    split; [exact Hmask|]. split; [reflexivity|].
    split; [reflexivity|]. split; reflexivity.
  - reflexivity.
Qed.

Lemma demo_pipeline_ok :
  pipeline_ok Demo.cfg Demo.ext "in/photo.jpg" "out/photo.jpg" Demo.world
    [Byte.x50; Byte.x5f].
Proof.
  destruct (demo_reaches_save Demo.world eq_refl eq_refl) as (result_img & Hr & He).
  exists result_img. split; [exact Hr|]. split; [exact He|]. split; reflexivity.
Qed.

(** C1, on the white mask asset. *)
Lemma create_mask_canonical_binary_witness :
  fs_files Demo.world !! "/app/mask.png" = Some Demo.white /\
  exists rows,
    fst (create_mask Demo.ext "/app/mask.png" Demo.world) = Ret (Arr2 rows) /\
    raster_shape rows 720 1280 /\
    binary rows /\
    (forall x y, nonzero_at rows y x -> 1205 <= x < 1250 /\ 645 <= y < 690).
Proof.
  split; [reflexivity|].
  edestruct (create_mask_canonical_binary Demo.ext "/app/mask.png" Demo.world Demo.white)
    as (rows & H1 & H2 & H3 & _ & H5); [reflexivity|reflexivity|].
  exists rows. auto.
Defined.

(** C2, on a 2 x 2 photo with an alpha band. *)
Lemma resize_image_canonical_three_channels_witness :
  fs_files Demo.world !! "in/photo.jpg" = Some Demo.photo /\
  exists rows,
    fst (resize_image Demo.ext "in/photo.jpg" Demo.world) = Ret (Some (Arr3 rows)) /\
    image_shape rows 720 1280 3.
Proof.
  split; [reflexivity|].
  edestruct (resize_image_canonical_three_channels Demo.ext "in/photo.jpg" Demo.world
               Demo.photo) as (rows & H1 & H2 & _); [reflexivity|reflexivity|].
  exists rows. auto.
Defined.

(** C3, on the demo photo. *)
Lemma successful_run_order_quality_name_witness :
  successful_run
    (process_file_logic Demo.cfg Demo.ext "in/photo.jpg" "out/photo.jpg" Demo.world) /\
  qualifies Demo.photo_created = true /\
  exists content,
    process_file_logic Demo.cfg Demo.ext "in/photo.jpg" "out/photo.jpg" Demo.world =
    (Ret tt,
     write_file "out/photo.jpg" content
       (add_events Demo.world
          [PathExists "/app/mask.png";
           Print (Msg_loading_and_resizing "in/photo.jpg");
           Open "in/photo.jpg";
           Open "/app/mask.png";
           Inpaint 15 INPAINT_NS;
           Print (Msg_saving_result "out/photo.jpg");
           Save "out/photo.jpg" 95;
           Print (Msg_done "photo.jpg")])).
Proof.
  assert (Hs : successful_run
    (process_file_logic Demo.cfg Demo.ext "in/photo.jpg" "out/photo.jpg" Demo.world)).
  { rewrite (process_file_logic_ok _ _ _ _ _ _ demo_pipeline_ok).
    split; [reflexivity|]. by eexists. }
  split; [exact Hs|]. split; [reflexivity|].
  destruct (successful_run_order_quality_name Demo.cfg Demo.ext
              "in/photo.jpg" "out/photo.jpg" Demo.world Demo.photo_created)
    as (H & _ & _).
  destruct (H Hs) as (content & _ & _ & _ & _ & _ & _ & _ & Hrun).
  exists content. exact Hrun.
Defined.

(** C4, on a 3 x 3 mask with its centre set. *)
Lemma inpaint_image_dilates_before_filling_witness :
  let mask := [[0; 0; 0]; [0; 255; 0]; [0; 0; 0]] in
  binary mask /\ raster_shape mask 3 3 /\
  region_strictly_larger mask (dilate_once square3 (dilate_once square3 mask)).
Proof.
  intros mask.
  assert (Hb : binary mask) by (repeat constructor; auto).
  assert (Hs : raster_shape mask 3 3) by (split; [reflexivity|repeat constructor]).
  split; [exact Hb|]. split; [exact Hs|].
  destruct (inpaint_image_dilates_before_filling Demo.ext (Arr3 []) mask 3 3
              Demo.world Hb Hs eq_refl eq_refl) as (_ & _ & _ & _ & Hstrict).
  apply Hstrict.
  - exists 1, 1. apply nonzero_at_get2. discriminate.
  - exists 0, 0. split.
    + exists [0; 0; 0], 0. repeat split; lia.
    + intros H. apply nonzero_at_get2 in H. by apply H.
Defined.


(** C6, without the mask asset. *)
Lemma missing_mask_fatal_only_at_startup_witness :
  (is_file Demo.world_no_mask "/app/mask.png"
   || is_dir Demo.world_no_mask "/app/mask.png")%bool = false /\
  exit_code (fst (main Demo.cfg Demo.ext [Demo.photo_created] Demo.world_no_mask)) = 1 /\
  fst (on_created Demo.cfg Demo.ext Demo.photo_created Demo.world_no_mask) = Ret tt.
Proof.
  split; [reflexivity|].
  destruct (missing_mask_fatal_only_at_startup Demo.cfg Demo.ext [Demo.photo_created]
              "in/photo.jpg" "out/photo.jpg" Demo.photo_created Demo.world_no_mask
              eq_refl) as ((_ & Hexit & _) & _ & Hret & _).
  split; [exact Hexit|exact Hret].
Defined.

(** C7, on a text file. *)
Lemma on_created_ignores_other_events_witness :
  has_allowed_extension "notes.txt" = false /\
  on_created Demo.cfg Demo.ext {| is_directory := false; src_path := "in/notes.txt" |}
    Demo.world = (Ret tt, Demo.world).
Proof.
  split; [reflexivity|].
  apply (on_created_ignores_other_events Demo.cfg Demo.ext
           {| is_directory := false; src_path := "in/notes.txt" |} Demo.world).
  right. reflexivity.
Defined.

(** C8, on the demo photo. *)
Lemma on_created_sleeps_first_witness :
  qualifies Demo.photo_created = true /\
  exists rest,
    trace (snd (on_created Demo.cfg Demo.ext Demo.photo_created Demo.world)) =
    Sleep 1 :: Print (Msg_new_image_detected "photo.jpg")
            :: PathExists "/app/mask.png" :: rest.
Proof.
  split; [reflexivity|].
  destruct (on_created_sleeps_first Demo.cfg Demo.ext Demo.photo_created Demo.world
              eq_refl) as [[rest Hrest] _].
  exists rest. exact Hrest.
Defined.

(** C9, on the demo photo. *)
Lemma output_directory_is_made_at_startup_witness :
  successful_run
    (process_file_logic Demo.cfg Demo.ext "in/photo.jpg" "out/photo.jpg" Demo.world) /\
  exists content,
    fs_files (snd (process_file_logic Demo.cfg Demo.ext "in/photo.jpg" "out/photo.jpg"
                     Demo.world))
    = <[ "out/photo.jpg" := content ]> (fs_files Demo.world).
Proof.
  assert (Hs : successful_run
    (process_file_logic Demo.cfg Demo.ext "in/photo.jpg" "out/photo.jpg" Demo.world)).
  { rewrite (process_file_logic_ok _ _ _ _ _ _ demo_pipeline_ok).
    split; [reflexivity|]. by eexists. }
  split; [exact Hs|].
  destruct (output_directory_is_made_at_startup Demo.cfg Demo.ext
              "in/photo.jpg" "out/photo.jpg" Demo.world) as (_ & _ & _ & H).
  exact (H Hs).
Defined.

(** C10, on a file that is no image. *)
Lemma early_return_leaves_files_untouched_witness :
  fst (resize_image Demo.ext "in/bad.png" Demo.world_corrupt) = Ret None /\
  fs_files (snd (process_file_logic Demo.cfg Demo.ext "in/bad.png" "out/bad.png"
                   Demo.world_corrupt))
  = fs_files Demo.world_corrupt.
Proof.
  split; [reflexivity|].
  destruct (early_return_leaves_files_untouched Demo.cfg Demo.ext
              "in/bad.png" "out/bad.png" Demo.world_corrupt) as (_ & H & _).
  - right. reflexivity.
  - exact H.
Defined.

(** ** Where the code departs from the description *)

(** C4 as stated fails on an all-dark mask asset: the mask that
    [create_mask] returns is binary and has no nonzero pixel, and neither
    has the dilated mask, so its region is not strictly larger. *)
Lemma dark_mask_region_not_larger :
  exists mask dilated,
    fst (create_mask Demo.ext "/app/mask.png" Demo.world_dark_mask) = Ret (Arr2 mask) /\
    binary mask /\
    cv2_dilate (Arr2 mask) (np_ones (3, 3)) 2 = inr (Arr2 dilated) /\
    ~ region_strictly_larger mask dilated.
Proof.
  eexists _, _. split.
  { erewrite (create_mask_decoded Demo.ext "/app/mask.png" Demo.world_dark_mask
                Demo.black); reflexivity. }
  split; [apply mask_rows_binary|].
  split; [apply cv2_dilate_square3_twice, mask_rows_not_empty|].
  intros [_ (y & x & Hnz & _)]. revert Hnz.
  apply dilate_twice_empty. apply mask_rows_empty.
  intros x' y'. cbn. lia.
Qed.


(** C9 as stated fails when the output directory is gone at the time of
    the run: the run does not make it, the save raises
    [FileNotFoundError], and nothing is at the output path afterwards. *)
Lemma run_does_not_make_output_directory :
  let w := Demo.world_no_out in
  let run := process_file_logic Demo.cfg Demo.ext "in/photo.jpg" "out/photo.jpg" w in
  is_dir w (OUTPUT_DIR Demo.cfg) = false /\
  fst run = Raise (Exc (FileNotFoundError "out/photo.jpg")) /\
  is_dir (snd run) (OUTPUT_DIR Demo.cfg) = false /\
  fs_files (snd run) !! "out/photo.jpg" = None.
Proof.
  cbn zeta.
  destruct (demo_reaches_save Demo.world_no_out eq_refl eq_refl) as (result_img & Hr & He).
  rewrite (process_file_logic_no_directory Demo.cfg Demo.ext
             "in/photo.jpg" "out/photo.jpg" Demo.world_no_out result_img Hr eq_refl eq_refl).
  rewrite He. repeat split; reflexivity.
Qed.

(** ** More on the two readers: what they do with a file they cannot read *)

Section Readers.

Variable ext : External.

(** [resize_image], case by case. *)
Lemma resize_image_run (p : string) (w : World) :
  resize_image ext p w =
  match fs_files w !! p with
  | Some bytes =>
      match pil_decode ext bytes with
      | inr img =>
          (Ret (Some (bgr_array (working_rgb ext img))),
           add_events w [Print (Msg_loading_and_resizing p); Open p])
      | inl e =>
          (Ret None,
           add_events w [Print (Msg_loading_and_resizing p); Open p;
                         Print (Msg_error_reading_image e)])
      end
  | None =>
      (Ret None,
       add_events w [Print (Msg_loading_and_resizing p); Open p;
                     Print (Msg_error_reading_image (open_error w p))])
  end.
Proof.
  destruct (fs_files w !! p) as [bytes|] eqn:Ef.
  - destruct (pil_decode ext bytes) as [e|img] eqn:Ed.
    + unfold resize_image, try_except, bind at 1, print. rewrite log_run.
      unfold bind at 1. rewrite (Image_open_file ext p _ bytes) by exact Ef.
      rewrite Ed. unfold bind. rewrite log_run. unfold ret.
      by rewrite !add_events_app.
    + by apply (resize_image_decoded ext p w bytes img).
  - unfold resize_image, try_except, bind at 1, print. rewrite log_run.
    unfold bind at 1. rewrite Image_open_absent by exact Ef.
    unfold bind. rewrite log_run. unfold ret.
    by rewrite !add_events_app.
Qed.

(** [create_mask], case by case. *)
Lemma create_mask_run (p : string) (w : World) :
  create_mask ext p w =
  (match fs_files w !! p with
   | Some bytes =>
       match pil_decode ext bytes with
       | inr asset => Ret (Arr2 (mask_rows (mask_resized ext asset)))
       | inl e => Raise (Exc e)
       end
   | None => Raise (Exc (open_error w p))
   end,
   add_events w [Open p]).
Proof.
  destruct (fs_files w !! p) as [bytes|] eqn:Ef.
  - destruct (pil_decode ext bytes) as [e|asset] eqn:Ed.
    + unfold create_mask, bind.
      by rewrite (Image_open_file ext p w bytes Ef), Ed.
    + by apply (create_mask_decoded ext p w bytes asset).
  - unfold create_mask, bind. by rewrite Image_open_absent.
Qed.

(** X1. [resize_image] never changes a file or a directory, and raises
    nothing but what one of its two [print]s raises on a console that
    refuses the line: its first line is printed before the [try], and the
    line that reports an error is printed inside the [except] clause.
    Every exception of the opening, the decoding and the resizing is
    caught: on a path that is no file ([FileNotFoundError],
    [NotADirectoryError] below a regular file, [IsADirectoryError]) or a
    file that does not decode, it prints the exception and returns [None];
    on an input that decodes it returns the working image. *)
Theorem resize_image_raises_only_from_print
    (console : message -> option exception) (p : string) (w : World) :
  let r := resize_image_on ext console p w in
  let w1 := add_events w [Print (Msg_loading_and_resizing p); Open p] in
  same_fs w (snd r) /\
  match console (Msg_loading_and_resizing p) with
  | Some e0 => r = (Raise (Exc e0), w)
  | None =>
      (exists bytes img,
         fs_files w !! p = Some bytes /\ pil_decode ext bytes = inr img /\
         r = (Ret (Some (bgr_array (working_rgb ext img))), w1))
      \/
      (exists e,
         ((fs_files w !! p = None /\ e = open_error w p) \/
          (exists bytes, fs_files w !! p = Some bytes /\ pil_decode ext bytes = inl e)) /\
         fst (Image_open ext p w) = Raise (Exc e) /\
         r = match console (Msg_error_reading_image e) with
             | None => (Ret None, add_events w1 [Print (Msg_error_reading_image e)])
             | Some e1 => (Raise (Exc e1), w1)
             end)
  end.
Proof.
  cbn zeta. rewrite resize_image_on_run. cbv zeta.
  destruct (console (Msg_loading_and_resizing p)) as [e0|]; [by split|].
  destruct (fs_files w !! p) as [bytes|] eqn:Ef.
  - destruct (pil_decode ext bytes) as [e|img] eqn:Ed.
    + split; [by destruct (console (Msg_error_reading_image e))|].
      right. exists e. split; [right; by exists bytes|].
      split; [|done]. by rewrite (Image_open_file ext p w bytes Ef), Ed.
    + split; [by split|]. left. by exists bytes, img.
  - split; [by destruct (console (Msg_error_reading_image (open_error w p)))|].
    right. eexists. split; [by left|].
    split; [|done]. by rewrite (Image_open_absent ext p w Ef).
Qed.

(** X2. [create_mask] has no handler of its own: on a path that is no
    file ([FileNotFoundError], [NotADirectoryError] below a regular file,
    [IsADirectoryError]), or a file that does not decode, it raises the
    exception that [resize_image] only prints (on a console that takes
    its lines), having done nothing but the attempt to open; it raises in
    no other case, and never changes a file or a directory. *)
Theorem create_mask_raises_what_it_cannot_read (p : string) (w : World) :
  let r := create_mask ext p w in
  snd r = add_events w [Open p] /\
  ((exists bytes asset,
      fs_files w !! p = Some bytes /\ pil_decode ext bytes = inr asset /\
      fst r = Ret (Arr2 (mask_rows (mask_resized ext asset))))
   \/
   (exists e,
      fst r = Raise (Exc e) /\
      fst (resize_image ext p w) = Ret None /\
      last (trace (snd (resize_image ext p w))) = Some (Print (Msg_error_reading_image e)) /\
      ((fs_files w !! p = None /\ e = open_error w p) \/
       (exists bytes, fs_files w !! p = Some bytes /\ pil_decode ext bytes = inl e)))).
Proof.
  cbn zeta. rewrite create_mask_run, resize_image_run. split; [done|].
  destruct (fs_files w !! p) as [bytes|] eqn:Ef.
  - destruct (pil_decode ext bytes) as [e|asset] eqn:Ed.
    + right. exists e. split; [done|]. split; [done|].
      split; [cbn [snd add_events trace]; by rewrite last_app|].
      right. by exists bytes.
    + left. by exists bytes, asset.
  - right. eexists. split; [done|]. split; [done|].
    split; [cbn [snd add_events trace]; by rewrite last_app|]. by left.
Qed.

End Readers.

Example unreadable_path_ex :
  fst (resize_image Demo.ext "in/none.png" Demo.world) = Ret None /\
  fst (create_mask Demo.ext "in/none.png" Demo.world)
  = Raise (Exc (FileNotFoundError "in/none.png")).
Proof. split; reflexivity. Qed.

Example makedirs_below_a_file_ex :
  fst (os_makedirs "out/x/y" true Demo.world_out_is_file)
  = Raise (Exc (NotADirectoryError "out/x")) /\
  fst (os_makedirs "out" true Demo.world_out_is_file) = Raise (Exc (FileExistsError "out")) /\
  fst (os_makedirs "" true Demo.world_out_is_file) = Raise (Exc (FileNotFoundError "")).
Proof. repeat split; reflexivity. Qed.

Example save_below_a_file_ex :
  fst (Image_save Demo.ext (Image_new M_RGB (1, 1) 0) "out/photo.jpg" 95
         Demo.world_out_is_file)
  = Raise (Exc (NotADirectoryError "out/photo.jpg")).
Proof. reflexivity. Qed.

Example path_below_a_file_ex :
  fst (create_mask Demo.ext "in/photo.jpg/x.png" Demo.world)
  = Raise (Exc (NotADirectoryError "in/photo.jpg/x.png")) /\
  fst (create_mask Demo.ext "in" Demo.world) = Raise (Exc (IsADirectoryError "in")).
Proof. split; reflexivity. Qed.

(** ** More on a run: what it writes, and when *)

Section Runs.

Variable cfg : Config.
Variable ext : External.

Local Abbreviation MASK := (MASK_PATH cfg).

(** Either the run reaches the save, or it ends before any save is
    attempted. *)
Lemma process_file_logic_save_cases (input_path output_path : string) (w : World) :
  (exists result_img, reaches_save cfg ext input_path w result_img) \/
  (exists r evs,
     process_file_logic cfg ext input_path output_path w = (r, add_events w evs) /\
     omap save_attempt evs = []).
Proof.
  set (run := process_file_logic cfg ext input_path output_path w).
  assert (Hrun : run = process_file_logic cfg ext input_path output_path w)
    by reflexivity.
  clearbody run.
  unfold process_file_logic, bind at 1 in Hrun. rewrite os_path_exists_run in Hrun.
  destruct (is_file w MASK || is_dir w MASK)%bool eqn:Em; cbn [negb] in Hrun.
  2: { right. unfold print in Hrun. rewrite log_run, add_events_app in Hrun.
       eexists _, _. split; [exact Hrun|reflexivity]. }
  unfold bind at 1 in Hrun. rewrite resize_image_run in Hrun.
  change (fs_files (add_events w [PathExists MASK])) with (fs_files w) in Hrun.
  destruct (fs_files w !! input_path) as [bytes|] eqn:Ein.
  2: { right. unfold ret in Hrun. rewrite add_events_app in Hrun.
       eexists _, _. split; [exact Hrun|reflexivity]. }
  destruct (pil_decode ext bytes) as [e|img] eqn:Edec.
  { right. unfold ret in Hrun. rewrite add_events_app in Hrun.
    eexists _, _. split; [exact Hrun|reflexivity]. }
  rewrite add_events_app in Hrun. cbn [app] in Hrun.
  unfold bind at 1 in Hrun. rewrite create_mask_run, add_events_app in Hrun.
  cbn [app] in Hrun.
  change (fs_files (add_events w _)) with (fs_files w) in Hrun.
  destruct (fs_files w !! MASK) as [bytes'|] eqn:Emask.
  2: { right. eexists _, _. split; [exact Hrun|reflexivity]. }
  destruct (pil_decode ext bytes') as [e|asset] eqn:Edec'.
  { right. eexists _, _. split; [exact Hrun|reflexivity]. }
  unfold bind at 1 in Hrun. rewrite inpaint_image_run in Hrun by apply mask_rows_not_empty.
  rewrite add_events_app in Hrun.
  cbn [app] in Hrun.
  destruct (cv2_inpaint ext _ _ _ _) as [e|result_cv] eqn:Einp.
  { right. eexists _, _. split; [exact Hrun|reflexivity]. }
  unfold bind at 1, print in Hrun. rewrite log_run, add_events_app in Hrun.
  cbn [app] in Hrun. unfold bind at 1 in Hrun.
  destruct (cv2_cvtColor result_cv COLOR_BGR2RGB) as [e|rgb] eqn:Ecvt; cbn [lift] in Hrun.
  { right. eexists _, _. split; [exact Hrun|reflexivity]. }
  unfold ret at 1 in Hrun. unfold bind at 1 in Hrun.
  destruct (Image_fromarray rgb) as [e|result_img] eqn:Efrom; cbn [lift] in Hrun.
  { right. eexists _, _. split; [exact Hrun|reflexivity]. }
  left. exists result_img. unfold reaches_save. eauto 20.
Qed.

(** The save, once reached: one attempt, at the output path, with
    quality 95. *)
Lemma process_file_logic_saving
    (input_path output_path : string) (w : World) (result_img : Image) :
  reaches_save cfg ext input_path w result_img ->
  exists evs,
    trace (snd (process_file_logic cfg ext input_path output_path w))
    = (trace w ++ evs)%list /\
    omap save_attempt evs = [(output_path, 95)].
Proof.
  intros Hreach.
  rewrite (process_file_logic_until_save cfg ext _ _ _ result_img Hreach).
  destruct (Image_save_cases ext result_img output_path 95
              (add_events w (take 6 (success_events cfg input_path output_path))))
    as [(content & _ & _ & _ & Hsave) | (e & w' & Hsave & Htr & _)]; rewrite Hsave.
  - unfold print. rewrite log_run. cbn [snd write_file add_events trace].
    rewrite <- !app_assoc. eexists. split; [reflexivity|reflexivity].
  - cbn [snd]. rewrite Htr. cbn [add_events trace]. rewrite <- app_assoc.
    eexists. split; [reflexivity|reflexivity].
Qed.

(** X3. A run attempts at most one save, at the output path and with
    quality 95, and only when the input decoded, the mask was built, the
    inpainting returned and its result converted back to an RGB image;
    a run that attempts no save leaves every file as it was. *)
Theorem save_only_after_inpainting (input_path output_path : string) (w : World) :
  let run := process_file_logic cfg ext input_path output_path w in
  exists evs,
    trace (snd run) = (trace w ++ evs)%list /\
    ((omap save_attempt evs = [] /\ fs_files (snd run) = fs_files w) \/
     (omap save_attempt evs = [(output_path, 95)] /\
      exists result_img, reaches_save cfg ext input_path w result_img)).
Proof.
  cbn zeta.
  destruct (process_file_logic_save_cases input_path output_path w)
    as [[result_img Hreach] | (r & evs & Hrun & Hno)].
  - destruct (process_file_logic_saving input_path output_path w result_img Hreach)
      as (evs & Htr & Hs).
    exists evs. split; [exact Htr|]. right. split; [exact Hs|]. by exists result_img.
  - exists evs. rewrite Hrun. split; [reflexivity|]. left. by split.
Qed.

(** X4. A run changes no file but the one at the output path, and makes
    or removes no directory: the input and the mask asset, when they are
    other paths, are as they were. *)
Theorem run_touches_only_output_path (input_path output_path : string) (w : World) :
  let run := process_file_logic cfg ext input_path output_path w in
  fs_dirs (snd run) = fs_dirs w /\
  forall p, p <> output_path -> fs_files (snd run) !! p = fs_files w !! p.
Proof.
  cbn zeta.
  destruct (process_file_logic_cases cfg ext input_path output_path w)
    as [[_ Hrun] | [(_ & _ & e & Hrun)
       | [(e & n & w' & _ & Hrun & _ & Hdirs & _ & _ & Hfiles)
       | (content & _ & Hrun)]]]; rewrite Hrun; cbn [snd].
  - by split.
  - by split.
  - split; [exact Hdirs|]. intros p Hp.
    destruct Hfiles as [-> | (partial & _ & ->)]; [done|].
    by rewrite lookup_insert_ne.
  - split; [done|]. intros p Hp. cbn [write_file fs_files add_events].
    by rewrite lookup_insert_ne.
Qed.

(** A run on an input that decodes, with a mask asset that is there but
    cannot be read, raises what [create_mask] raises. *)
Lemma process_file_logic_mask_fails
    (input_path output_path : string) (w : World) (bytes : list byte) (img : Image)
    (e : exception) :
  (is_file w MASK || is_dir w MASK)%bool = true ->
  fs_files w !! input_path = Some bytes ->
  pil_decode ext bytes = inr img ->
  fst (create_mask ext MASK w) = Raise (Exc e) ->
  process_file_logic cfg ext input_path output_path w =
  (Raise (Exc e),
   add_events w [PathExists MASK; Print (Msg_loading_and_resizing input_path);
                 Open input_path; Open MASK]).
Proof.
  intros Hm Hin Hdec Hmask.
  rewrite create_mask_run in Hmask. cbn [fst] in Hmask.
  unfold process_file_logic, bind at 1. rewrite os_path_exists_run, Hm.
  cbn [negb]. unfold bind at 1.
  rewrite (resize_image_decoded ext input_path _ bytes img) by done.
  rewrite add_events_app. cbn [app]. unfold bind at 1.
  rewrite create_mask_run, add_events_app. cbn [app].
  change (fs_files (add_events w _)) with (fs_files w).
  change (open_error (add_events w _) MASK) with (open_error w MASK).
  by rewrite Hmask.
Qed.

(** X5. A mask asset that is there but cannot be read, a directory at its
    path or a file that does not decode, passes the check at start-up, so
    the observer is started; and then the run of every file that decodes
    raises when the mask is built, which the handler logs with the file
    name, nothing being written. *)
Theorem unreadable_mask_fails_every_file
    (ev : FileSystemEvent) (events : list FileSystemEvent) (w : World)
    (bytes : list byte) (img : Image) (e : exception) :
  qualifies ev = true ->
  fs_files w !! src_path ev = Some bytes ->
  pil_decode ext bytes = inr img ->
  (fs_files w !! MASK = None /\ is_dir w MASK = true /\ e = IsADirectoryError MASK) \/
  (exists bytes', fs_files w !! MASK = Some bytes' /\ pil_decode ext bytes' = inl e) ->
  main cfg ext events w =
  (Ret tt,
   add_events
     (snd (observer_run cfg ext events
             (add_events w [PathExists MASK;
                            ObserverSchedule (INPUT_DIR cfg) false;
                            ObserverStart;
                            Print (Msg_started_watching (INPUT_DIR cfg));
                            Print (Msg_saving_to (OUTPUT_DIR cfg));
                            Print (Msg_using_mask MASK);
                            Print Msg_press_ctrl_c])))
     [ObserverStop; ObserverJoin]) /\
  on_created cfg ext ev w =
  (Ret tt,
   add_events w [Sleep 1;
                 Print (Msg_new_image_detected (Posixpath.basename (src_path ev)));
                 PathExists MASK;
                 Print (Msg_loading_and_resizing (src_path ev));
                 Open (src_path ev);
                 Open MASK;
                 Print (Msg_failed_to_process (Posixpath.basename (src_path ev)) e)]) /\
  same_fs w (snd (on_created cfg ext ev w)).
Proof.
  intros Hq Hin Hdec Hmask.
  assert (Hm : (is_file w MASK || is_dir w MASK)%bool = true).
  { destruct Hmask as [(_ & Hd & _) | (bytes' & Hf & _)].
    - by rewrite Hd, orb_true_r.
    - unfold is_file. rewrite Hf. by rewrite bool_decide_eq_true_2. }
  assert (Hc : fst (create_mask ext MASK w) = Raise (Exc e)).
  { rewrite create_mask_run. cbn [fst].
    destruct Hmask as [(Hf & Hd & ->) | (bytes' & Hf & Hd)].
    - rewrite Hf. unfold open_error. by rewrite Hd.
    - by rewrite Hf, Hd. }
  assert (Hon : on_created cfg ext ev w =
    (Ret tt,
     add_events w [Sleep 1;
                   Print (Msg_new_image_detected (Posixpath.basename (src_path ev)));
                   PathExists MASK;
                   Print (Msg_loading_and_resizing (src_path ev));
                   Open (src_path ev);
                   Open MASK;
                   Print (Msg_failed_to_process (Posixpath.basename (src_path ev)) e)])).
  { rewrite on_created_run by done. cbn zeta.
    rewrite (process_file_logic_mask_fails _ _ _ bytes img e);
      [cbn [fst snd]; by rewrite !add_events_app| exact Hm | exact Hin | exact Hdec |].
    rewrite create_mask_run in Hc |- *. exact Hc. }
  split; [by apply main_mask_present|]. split; [exact Hon|].
  rewrite Hon. by split.
Qed.

End Runs.

(** ** More on a run: running again, and running in place *)

Section Reruns.

Variable cfg : Config.
Variable ext : External.

Local Abbreviation MASK := (MASK_PATH cfg).

(** What the steps before the save read is not what the save writes. *)
Lemma reaches_save_after_write
    (input_path output_path : string) (w : World) (result_img : Image)
    (content : list byte) (evs : list event) :
  output_path <> input_path -> output_path <> MASK ->
  reaches_save cfg ext input_path w result_img ->
  reaches_save cfg ext input_path
    (write_file output_path content (add_events w evs)) result_img.
Proof.
  intros Hin Hmask (bytes & img & bytes' & asset & result_cv & rgb
                    & H1 & H2 & H3 & H4 & H5 & H6 & H7).
  exists bytes, img, bytes', asset, result_cv, rgb.
  cbn [write_file fs_files add_events].
  rewrite !lookup_insert_ne by done. auto 10.
Qed.

(** X6. Running the pipeline again on the same input, after a run that
    went through, goes through again and leaves every file as the first
    run left it, provided the output path is neither the input nor the
    mask asset. *)
Theorem rerun_changes_nothing
    (input_path output_path : string) (w : World) (content : list byte) :
  pipeline_ok cfg ext input_path output_path w content ->
  output_path <> input_path -> output_path <> MASK ->
  let w1 := snd (process_file_logic cfg ext input_path output_path w) in
  let again := process_file_logic cfg ext input_path output_path w1 in
  fs_files w1 !! output_path = Some content /\
  successful_run again /\
  fs_files (snd again) = fs_files w1 /\
  fs_dirs (snd again) = fs_dirs w.
Proof.
  intros Hok Hin Hmask. cbn zeta.
  rewrite (process_file_logic_ok cfg ext _ _ _ _ Hok). cbn [snd].
  set (w1 := write_file output_path content _).
  assert (Hok1 : pipeline_ok cfg ext input_path output_path w1 content).
  { destruct Hok as (result_img & Hreach & Henc & Hnd & Hpar).
    exists result_img. split; [by apply reaches_save_after_write|]. auto. }
  rewrite (process_file_logic_ok cfg ext _ _ _ _ Hok1). cbn [snd fst].
  split; [unfold w1; cbn [write_file fs_files]; by rewrite lookup_insert_eq|].
  split.
  - split; [reflexivity|]. cbn [snd write_file add_events trace success_events].
    eexists. by rewrite last_app.
  - split; [|reflexivity]. unfold w1. cbn [write_file fs_files add_events].
    by rewrite insert_insert_eq.
Qed.

(** X7. When the created file is in the output directory itself (input
    and output directory the same), the output path is the path of the
    input: a run that goes through replaces the input by its result. *)
Theorem same_directory_overwrites_input
    (ev : FileSystemEvent) (w : World) (filename : string) (content : list byte) :
  Str.contains Posixpath.sep filename = false ->
  src_path ev = Posixpath.join (OUTPUT_DIR cfg) filename ->
  Posixpath.join (OUTPUT_DIR cfg) (Posixpath.basename (src_path ev)) = src_path ev /\
  (qualifies ev = true ->
   pipeline_ok cfg ext (src_path ev) (src_path ev)
     (add_events w [Sleep 1;
                    Print (Msg_new_image_detected (Posixpath.basename (src_path ev)))])
     content ->
   fst (on_created cfg ext ev w) = Ret tt /\
   fs_files (snd (on_created cfg ext ev w)) = <[ src_path ev := content ]> (fs_files w)).
Proof.
  intros Hf Hsrc.
  assert (Hout : Posixpath.join (OUTPUT_DIR cfg) (Posixpath.basename (src_path ev))
                 = src_path ev).
  { rewrite Hsrc at 1. by rewrite basename_join. }
  split; [exact Hout|]. intros Hq Hok.
  rewrite on_created_run by done. cbn zeta. rewrite Hout.
  rewrite (process_file_logic_ok cfg ext _ _ _ _ Hok). cbn [fst snd]. by split.
Qed.

End Reruns.

(** ** More on the watcher: what it handles and what it leaves alone *)

Section Watcher.

Variable cfg : Config.
Variable ext : External.

Local Abbreviation MASK := (MASK_PATH cfg).
Local Abbreviation name_of ev := (Posixpath.basename (src_path ev)).
Local Abbreviation output_of ev :=
  (Posixpath.join (OUTPUT_DIR cfg) (Posixpath.basename (src_path ev))).

(** A run looks for the mask asset once and announces nothing. *)
Lemma process_file_logic_events (input_path output_path : string) (w : World) :
  exists evs,
    trace (snd (process_file_logic cfg ext input_path output_path w))
    = (trace w ++ evs)%list /\
    omap detection evs = [] /\
    omap existence_check evs = [MASK].
Proof.
  destruct (process_file_logic_cases cfg ext input_path output_path w)
    as [[_ Hrun] | [(_ & _ & e & Hrun)
       | [(e & n & w' & Hn & Hrun & Htr & _)
       | (content & _ & Hrun)]]]; rewrite Hrun; cbn [snd].
  - eexists. split; [reflexivity|]. by split.
  - eexists. split; [reflexivity|]. by split.
  - eexists. split; [exact Htr|].
    do 8 (destruct n as [|n]; [try lia; by split|]). lia.
  - eexists. split; [reflexivity|]. by split.
Qed.

Lemma on_created_events (ev : FileSystemEvent) (w : World) :
  exists evs,
    trace (snd (on_created cfg ext ev w)) = (trace w ++ evs)%list /\
    omap detection evs = (if qualifies ev then [name_of ev] else []) /\
    omap existence_check evs = (if qualifies ev then [MASK] else []).
Proof.
  destruct (qualifies ev) eqn:Hq.
  - rewrite on_created_run by done. cbn zeta.
    destruct (process_file_logic_events (src_path ev) (output_of ev)
                (add_events w [Sleep 1; Print (Msg_new_image_detected (name_of ev))]))
      as (evs & Htr & Hd & Hc).
    cbn [add_events trace] in Htr. rewrite <- app_assoc in Htr.
    destruct (fst (process_file_logic _ _ _ _ _)) as [[]|[e| |]];
      cbn [snd add_events trace]; rewrite Htr.
    2: { rewrite <- app_assoc. eexists. split; [reflexivity|].
         rewrite !omap_app, Hd, Hc. by split. }
    all: eexists; split; [reflexivity|]; rewrite !omap_app, Hd, Hc; by split.
  - rewrite on_created_dropped by done. exists []. cbn [snd].
    rewrite app_nil_r. by split.
Qed.

(** X8. The observer runs the pipeline once for each event that
    qualifies, in the order of the events, and for no other: the file
    names announced are those of the qualifying events, and the mask asset
    is looked for once per qualifying event. *)
Theorem one_run_per_qualifying_event (events : list FileSystemEvent) (w : World) :
  exists evs,
    trace (snd (observer_run cfg ext events w)) = (trace w ++ evs)%list /\
    omap detection evs
    = map (fun ev => Posixpath.basename (src_path ev)) (List.filter qualifies events) /\
    omap existence_check evs
    = map (fun _ => MASK) (List.filter qualifies events).
Proof.
  revert w. induction events as [|ev rest IH]; intros w.
  - exists []. cbn. by rewrite app_nil_r.
  - rewrite observer_run_step.
    destruct (on_created_events ev w) as (evs1 & Htr1 & Hd1 & Hc1).
    destruct (IH (snd (on_created cfg ext ev w))) as (evs2 & Htr2 & Hd2 & Hc2).
    exists (evs1 ++ evs2)%list. rewrite Htr2, Htr1, <- app_assoc.
    split; [reflexivity|]. rewrite !omap_app, Hd1, Hd2, Hc1, Hc2.
    cbn [List.filter]. by destruct (qualifies ev).
Qed.

(** A run leaves the other files alone. *)
Lemma process_file_logic_frame (input_path output_path : string) (w : World) (p : string) :
  p <> output_path ->
  fs_files (snd (process_file_logic cfg ext input_path output_path w)) !! p
  = fs_files w !! p.
Proof.
  intros Hp.
  destruct (process_file_logic_cases cfg ext input_path output_path w)
    as [[_ Hrun] | [(_ & _ & e & Hrun)
       | [(e & n & w' & _ & Hrun & _ & _ & _ & _ & Hfiles)
       | (content & _ & Hrun)]]]; rewrite Hrun; cbn [snd]; try done.
  - destruct Hfiles as [-> | (partial & _ & ->)]; [done|].
    by rewrite lookup_insert_ne.
  - cbn [write_file fs_files add_events]. by rewrite lookup_insert_ne.
Qed.

Lemma on_created_frame (ev : FileSystemEvent) (w : World) (p : string) :
  (qualifies ev = true -> p <> output_of ev) ->
  fs_files (snd (on_created cfg ext ev w)) !! p = fs_files w !! p.
Proof.
  intros Hp. destruct (qualifies ev) eqn:Hq.
  - rewrite on_created_run by done. cbn zeta.
    pose proof (process_file_logic_frame (src_path ev) (output_of ev)
                  (add_events w [Sleep 1; Print (Msg_new_image_detected (name_of ev))])
                  p (Hp eq_refl)) as Hf.
    by destruct (fst (process_file_logic _ _ _ _ _)) as [[]|[e| |]].
  - by rewrite on_created_dropped.
Qed.

Lemma observer_run_dirs (events : list FileSystemEvent) (w : World) :
  fs_dirs (snd (observer_run cfg ext events w)) = fs_dirs w.
Proof.
  revert w. induction events as [|ev rest IH]; intros w; [reflexivity|].
  rewrite observer_run_step, IH. apply on_created_dirs.
Qed.

(** X9. Whatever the events, the watcher makes and removes no directory,
    and the only files it changes are at the output paths of the events
    that qualify: the output directory joined to the name of the created
    file.  Every other file, the inputs and the mask asset among them when
    they are elsewhere, is as it was. *)
Theorem watcher_touches_only_outputs (events : list FileSystemEvent) (w : World) :
  fs_dirs (snd (observer_run cfg ext events w)) = fs_dirs w /\
  forall p,
    (forall ev, In ev events -> qualifies ev = true ->
       p <> Posixpath.join (OUTPUT_DIR cfg) (Posixpath.basename (src_path ev))) ->
    fs_files (snd (observer_run cfg ext events w)) !! p = fs_files w !! p.
Proof.
  split; [apply observer_run_dirs|].
  revert w. induction events as [|ev rest IH]; intros w p Hp; [reflexivity|].
  rewrite observer_run_step, IH.
  - apply on_created_frame. intros Hq. apply Hp; [by left|done].
  - intros ev' Hin. apply Hp. by right.
Qed.

End Watcher.

(** ** More on the directories *)

Section Directories.

Variable cfg : Config.
Variable ext : External.

Implicit Types (s t a d f : string) (c : ascii).

Lemma str_take_app_sep c a t :
  Str.take (Z.to_nat (Z.of_nat (String.length a) + 1)) (a ++ String c t)
  = (a ++ String c "")%string.
Proof.
  replace (Z.to_nat (Z.of_nat (String.length a) + 1)) with (S (String.length a)) by lia.
  induction a as [|x a IH]; [reflexivity|].
  rewrite !append_cons.
  change (String x (Str.take (S (String.length a)) (a ++ String c t))
          = String x (a ++ String c "")).
  by rewrite IH.
Qed.

Lemma rstrip_snoc c a : Str.rstrip c (a ++ String c "") = Str.rstrip c a.
Proof.
  induction a as [|x a IH].
  - rewrite append_nil. cbn [Str.rstrip]. by rewrite Ascii.eqb_refl.
  - rewrite append_cons. cbn [Str.rstrip]. by rewrite IH.
Qed.

Lemma endswith_cons c x y t :
  Str.endswith (String x (String y t)) (String c "")
  = Str.endswith (String y t) (String c "").
Proof.
  unfold Str.endswith. cbn [String.length].
  replace (S (S (String.length t)) - 1)%nat with (S (String.length t)) by lia.
  replace (S (String.length t) - 1)%nat with (String.length t) by lia.
  reflexivity.
Qed.

(** A string that does not end in [c] has nothing to strip. *)
Lemma rstrip_nothing c d :
  Str.endswith d (String c "") = false -> Str.rstrip c d = d.
Proof.
  induction d as [|x t IH]; [reflexivity|]. intros H.
  destruct t as [|y t].
  - cbn [Str.rstrip]. destruct (Ascii.eqb_spec x c) as [->|]; [|reflexivity].
    assert (E : Str.endswith (String c "") (String c "") = true)
      by apply (endswith_app "" (String c "")).
    congruence.
  - rewrite endswith_cons in H. specialize (IH H).
    change (Str.rstrip c (String x (String y t)))
      with (match Str.rstrip c (String y t) with
            | EmptyString => if Ascii.eqb x c then EmptyString else String x EmptyString
            | t' => String x t'
            end).
    by rewrite IH.
Qed.

(** The directory of a plain name joined to a directory is that
    directory. *)
Lemma dirname_join d f :
  d <> "" -> Str.endswith d "/" = false -> Str.contains Posixpath.sep f = false ->
  Posixpath.dirname (Posixpath.join d f) = d.
Proof.
  intros Hd He Hf. unfold Posixpath.join.
  assert (Hs : Str.startswith f "/" = false).
  { destruct f as [|x f]; [done|]. cbn [Str.contains] in Hf.
    apply orb_false_iff in Hf as [Hf _]. unfold Posixpath.sep in Hf.
    change ((Ascii.eqb "/"%char x && Str.startswith f "")%bool = false).
    by rewrite Ascii.eqb_sym, Hf. }
  rewrite Hs, He. destruct (String.eqb_spec d "") as [|_]; [done|]. cbn [orb].
  change (d ++ "/" ++ f)%string with (d ++ String Posixpath.sep f)%string.
  unfold Posixpath.dirname. rewrite rfind_app by done.
  rewrite str_take_app_sep, rstrip_snoc, rstrip_nothing by exact He.
  by destruct d.
Qed.

(** With a directory that is there, the file named in it can be
    created. *)
Lemma parent_exists_join (w : World) d f :
  Str.endswith d "/" = false -> Str.contains Posixpath.sep f = false ->
  is_dir w d = true ->
  parent_exists w (Posixpath.join d f) = true.
Proof.
  intros He Hf Hd. unfold parent_exists.
  destruct (String.eqb_spec d "") as [->|Hne].
  - assert (Hj : Posixpath.join "" f = f).
    { unfold Posixpath.join.
      destruct (Str.startswith f "/"); [reflexivity|]. reflexivity. }
    rewrite Hj. unfold Posixpath.dirname.
    apply rfind_absent in Hf. pose proof (rfind_range Posixpath.sep f).
    replace (Str.rfind Posixpath.sep f) with (-1) by lia.
    destruct f; reflexivity.
  - rewrite dirname_join by done. by rewrite Hd, orb_true_r.
Qed.

(** X10. Once the module-level [makedirs] have returned, every output
    path the handler builds has its directory, however many events the
    watcher has handled since: a save of the watcher does not fail for a
    missing output directory unless something else removes it.  (For an
    [OUTPUT_DIR] written without a trailing slash.) *)
Theorem saves_find_the_output_directory
    (w0 w : World) (events : list FileSystemEvent) (ev : FileSystemEvent) :
  Str.endswith (OUTPUT_DIR cfg) "/" = false ->
  ensure_directories cfg w0 = (Ret tt, w) ->
  is_dir (snd (observer_run cfg ext events w)) (OUTPUT_DIR cfg) = true /\
  parent_exists (snd (observer_run cfg ext events w))
    (Posixpath.join (OUTPUT_DIR cfg) (Posixpath.basename (src_path ev))) = true.
Proof.
  intros He H0.
  destruct (ensure_directories_returns cfg w0 w H0) as (_ & Hd & _).
  assert (Hd' : is_dir (snd (observer_run cfg ext events w)) (OUTPUT_DIR cfg) = true).
  { unfold is_dir in *. by rewrite observer_run_dirs. }
  split; [exact Hd'|].
  apply parent_exists_join; [exact He|apply basename_no_sep|exact Hd'].
Qed.

(** [makedirs] raises only an [Exception], and then changes nothing. *)
Lemma os_makedirs_raises (name : string) (w : World) :
  is_file w name = true ->
  exists e, os_makedirs name true w = (Raise (Exc e), add_events w [Makedirs name]).
Proof.
  intros Hf. unfold os_makedirs, bind. rewrite log_run.
  change (is_file (add_events w [Makedirs name])) with (is_file w).
  rewrite Hf. cbn [orb].
  destruct (String.eqb name ""); [eauto|].
  destruct (existsb (is_file w) _); eauto.
Qed.

Lemma os_makedirs_outcome (name : string) (w : World) :
  exists r w',
    os_makedirs name true w = (r, w') /\
    fs_files w' = fs_files w /\
    trace w' = (trace w ++ [Makedirs name])%list /\
    (r = Ret tt \/ (exists e, r = Raise (Exc e)) /\ fs_dirs w' = fs_dirs w).
Proof.
  unfold os_makedirs, bind. rewrite log_run.
  destruct (String.eqb name ""); [eauto 10|].
  destruct (existsb _ _); [eauto 10|].
  destruct (_ || _)%bool; [eauto 10|].
  destruct (is_dir _ name); eauto 10.
Qed.

(** X11. When a file is where the output directory should be, loading the
    module raises ([exist_ok] only forgives a directory): the script ends
    with status 1 having changed no file and no directory but, possibly,
    made the input directory; the mask asset is never looked for and the
    observer never started. *)
Theorem output_directory_is_a_file (events : list FileSystemEvent) (w : World) :
  is_file w (OUTPUT_DIR cfg) = true ->
  let r := script cfg ext events w in
  (exists e, fst r = Raise (Exc e)) /\
  exit_code (fst r) = 1 /\
  fs_files (snd r) = fs_files w /\
  (trace (snd r) = (trace w ++ [Makedirs (INPUT_DIR cfg)])%list \/
   trace (snd r) = (trace w ++ [Makedirs (INPUT_DIR cfg); Makedirs (OUTPUT_DIR cfg)])%list).
Proof.
  intros Hf r. assert (Hr : r = script cfg ext events w) by reflexivity.
  clearbody r. unfold script, ensure_directories, bind in Hr.
  destruct (os_makedirs_outcome (INPUT_DIR cfg) w)
    as (r1 & w1 & H1 & Hfiles & Htr & [-> | [[e ->] _]]); rewrite H1 in Hr.
  - destruct (os_makedirs_raises (OUTPUT_DIR cfg) w1) as [e H2].
    { unfold is_file in *. by rewrite Hfiles. }
    rewrite H2 in Hr. subst r. cbn [fst snd exit_code add_events fs_files trace].
    split; [by exists e|]. split; [done|]. split; [done|].
    right. by rewrite Htr, <- app_assoc.
  - subst r. cbn [fst snd exit_code]. split; [by exists e|]. split; [done|].
    split; [done|]. by left.
Qed.

End Directories.

(** ** More on the colour order *)

Section ColourOrder.

Variable ext : External.

Lemma hd_ztab {A} (d : A) (n : Z) (f : Z -> A) : 0 < n -> hd d (ztab n f) = f 0.
Proof.
  intros Hn. unfold ztab. destruct (Z.to_nat n) as [|k] eqn:E; [lia|]. reflexivity.
Qed.

(** The array of a three-band image, from its BGR array. *)
Lemma cvtColor_back (im : Image) (code : ColorCode) :
  cv2_cvtColor (bgr_array im) code =
  inr (Arr3 (ztab (im_height im) (fun y =>
               ztab (im_width im) (fun x =>
                 [im_px im x y 0%nat; im_px im x y 1%nat; im_px im x y 2%nat])))).
Proof.
  unfold cv2_cvtColor, bgr_array.
  set (rev3 := fun px : list Z => [nth 2 px 0; nth 1 px 0; nth 0 px 0]).
  rewrite (mapM_ztab (mapM swap_rb) (map rev3)).
  - do 2 f_equal. apply ztab_ext. intros y _. by rewrite map_ztab.
  - intros y _. apply mapM_pointwise, Forall_ztab. reflexivity.
Qed.

Lemma np_array_three_bands (im : Image) :
  bands (im_mode im) = 3%nat ->
  np_array im =
  Arr3 (ztab (im_height im) (fun y =>
          ztab (im_width im) (fun x =>
            [im_px im x y 0%nat; im_px im x y 1%nat; im_px im x y 2%nat]))).
Proof. intros Hb. unfold np_array. by rewrite Hb. Qed.

(** X12. The two channel swaps cancel: the array [resize_image] returns,
    swapped back as [process_file_logic] does before saving, is the array
    of the resized RGB input, and the image made of it for the save has
    mode RGB, size 1280 x 720 and the pixels of the resized RGB input.
    Whatever differs in the saved image comes from the inpainting. *)
Theorem colour_order_round_trip
    (p : string) (w : World) (bytes : list byte) (img : Image) :
  fs_files w !! p = Some bytes ->
  pil_decode ext bytes = inr img ->
  exists img_cv result_img,
    fst (resize_image ext p w) = Ret (Some img_cv) /\
    cv2_cvtColor img_cv COLOR_BGR2RGB = inr (np_array (working_rgb ext img)) /\
    Image_fromarray (np_array (working_rgb ext img)) = inr result_img /\
    im_mode result_img = M_RGB /\
    im_width result_img = TARGET_WIDTH /\
    im_height result_img = TARGET_HEIGHT /\
    forall x y c, 0 <= x < TARGET_WIDTH -> 0 <= y < TARGET_HEIGHT -> (c < 3)%nat ->
      im_px result_img x y c = im_px (working_rgb ext img) x y c.
Proof.
  intros Hf Hd. rewrite (resize_image_decoded ext p w bytes img Hf Hd). cbn [fst].
  assert (Hb : bands (im_mode (working_rgb ext img)) = 3%nat)
    by (by rewrite working_rgb_mode).
  rewrite (np_array_three_bands _ Hb), working_rgb_width, working_rgb_height.
  eexists _, _. split; [reflexivity|]. split.
  { rewrite cvtColor_back. by rewrite working_rgb_width, working_rgb_height. }
  unfold Image_fromarray. rewrite (hd_ztab [] 720) by lia. rewrite (hd_ztab [] 1280) by lia.
  cbn [length Nat.eqb].
  split; [reflexivity|]. cbn [im_mode im_width im_height im_px].
  split; [reflexivity|]. rewrite !length_ztab.
  split; [reflexivity|]. split; [reflexivity|].
  intros x y c Hx Hy Hc. unfold TARGET_WIDTH, TARGET_HEIGHT in *. cbn [im_px].
  rewrite !nth_lookup, lookup_ztab by lia. cbn [from_option id].
  rewrite lookup_ztab by lia. cbn [from_option id].
  rewrite !Z2Nat.id by lia.
  destruct c as [|[|[|c]]]; [reflexivity..|lia].
Qed.

End ColourOrder.

(** ** More on the dilation: the region that is filled *)

Section FillRegion.

Variable ext : External.

Implicit Types (src rows : list (list Z)) (offsets : list (Z * Z)).

Lemma fold_max_nonzero (l : list Z) :
  fold_right Z.max 0 l <> 0 -> exists v, In v l /\ v <> 0.
Proof.
  induction l as [|a l IH]; cbn [fold_right]; [done|]. intros H.
  destruct (decide (a = 0)) as [->|Ha].
  - destruct (decide (fold_right Z.max 0 l = 0)) as [E|E].
    + rewrite E in H. done.
    + destruct (IH E) as (v & Hin & Hv). exists v. split; [by right|done].
  - exists a. split; [by left|done].
Qed.

Lemma fold_max_binary (l : list Z) :
  Forall (fun v => v = 0 \/ v = 255) l ->
  fold_right Z.max 0 l = 0 \/ fold_right Z.max 0 l = 255.
Proof.
  induction 1 as [|a l Ha _ IH]; cbn [fold_right]; [by left|].
  destruct Ha as [-> | ->], IH as [-> | ->]; cbn; auto.
Qed.

Lemma get2_binary rows (y x : Z) : binary rows -> get2 rows y x = 0 \/ get2 rows y x = 255.
Proof.
  intros Hb. destruct (decide (get2 rows y x = 0)) as [|Hnz]; [by left|].
  apply nonzero_at_get2 in Hnz as (row & v & Hr & Hv & Hy & Hx & _).
  rewrite get2_lookup by done. rewrite Hr. cbn. rewrite Hv. cbn.
  eapply Forall_lookup_1 in Hb; [|exact Hr].
  eapply Forall_lookup_1 in Hb; [|exact Hv]. exact Hb.
Qed.

(** A dilation keeps the shape and the two values. *)
Lemma dilate_once_shape offsets src (h w : Z) :
  raster_shape src h w -> raster_shape (dilate_once offsets src) h w.
Proof.
  intros [Hh Hw]. unfold dilate_once. split; [by rewrite length_imap|].
  apply Forall_lookup. intros i row Hi. rewrite list_lookup_imap in Hi.
  destruct (src !! i) as [row0|] eqn:E; [|done]. cbn in Hi. injection Hi as <-.
  rewrite length_imap. eapply Forall_lookup_1 in Hw; [|exact E]. exact Hw.
Qed.

Lemma dilate_once_binary offsets src : binary src -> binary (dilate_once offsets src).
Proof.
  intros Hb. unfold binary, dilate_once.
  apply Forall_lookup. intros i row Hi. rewrite list_lookup_imap in Hi.
  destruct (src !! i) as [row0|]; [|done]. cbn in Hi. injection Hi as <-.
  apply Forall_lookup. intros j v Hj. rewrite list_lookup_imap in Hj.
  destruct (row0 !! j); [|done]. cbn in Hj. injection Hj as <-.
  apply fold_max_binary. apply Forall_forall. intros v Hv.
  apply list_elem_of_fmap in Hv as (d & -> & _). by apply get2_binary.
Qed.

(** A pixel of the dilated region has a pixel of the region under the
    element. *)
Lemma dilate_once_from offsets src (y x : Z) :
  nonzero_at (dilate_once offsets src) y x ->
  in_raster src y x /\
  exists d, In d offsets /\ nonzero_at src (y + fst d) (x + snd d).
Proof.
  intros Hnz.
  assert (Hin : in_raster src y x).
  { apply in_raster_dilate_once with offsets. by apply nonzero_in_raster. }
  split; [exact Hin|].
  apply nonzero_at_get2 in Hnz. rewrite get2_dilate_once in Hnz by done.
  apply fold_max_nonzero in Hnz as (v & Hv & Hne).
  apply in_map_iff in Hv as (d & <- & Hd).
  exists d. split; [exact Hd|]. by apply nonzero_at_get2.
Qed.

Lemma in_square3 (d : Z * Z) :
  In d square3 <-> Z.abs (fst d) <= 1 /\ Z.abs (snd d) <= 1.
Proof.
  destruct d as [dy dx]. cbn [fst snd]. split.
  - cbn. intros H. repeat (destruct H as [H|H]; [injection H as <- <-; lia|]). done.
  - intros [Hy Hx].
    assert (dy = -1 \/ dy = 0 \/ dy = 1) as [-> | [-> | ->]] by lia;
    assert (dx = -1 \/ dx = 0 \/ dx = 1) as [-> | [-> | ->]] by lia;
    cbn; tauto.
Qed.

(** One pass of the 3 x 3 element: the pixels of the raster that have a
    pixel of the region among their eight neighbours and themselves. *)
Lemma dilate_once_square3 src (y x : Z) :
  nonneg src ->
  nonzero_at (dilate_once square3 src) y x <->
  in_raster src y x /\ exists y' x', within 1 y x y' x' /\ nonzero_at src y' x'.
Proof.
  intros Hn. split.
  - intros H. destruct (dilate_once_from square3 src y x H) as (Hin & d & Hd & Hnz).
    split; [exact Hin|]. exists (y + fst d), (x + snd d).
    apply in_square3 in Hd. split; [|exact Hnz]. unfold within. lia.
  - intros (Hin & y' & x' & [Hy Hx] & Hnz).
    apply (dilate_once_reaches square3 src y x (y' - y, x' - x)); [done|done| |].
    + apply in_square3. cbn [fst snd]. lia.
    + cbn [fst snd]. by replace (y + (y' - y)) with y' by lia;
        replace (x + (x' - x)) with x' by lia.
Qed.

(** Two passes: the pixels of the raster within two rows and two columns
    of the region. *)
Lemma dilate_twice_square3 rows (h w y x : Z) :
  binary rows -> raster_shape rows h w ->
  nonzero_at (dilate_once square3 (dilate_once square3 rows)) y x <->
  (0 <= y < h /\ 0 <= x < w) /\
  exists y' x', within 2 y x y' x' /\ nonzero_at rows y' x'.
Proof.
  intros Hb Hs.
  pose proof (binary_nonneg rows Hb) as Hn.
  rewrite dilate_once_square3 by apply dilate_once_nonneg.
  rewrite in_raster_dilate_once, (in_raster_rectangle rows h w) by done.
  split.
  - intros (Hin & y1 & x1 & [Hy1 Hx1] & H1).
    apply dilate_once_square3 in H1 as (_ & y0 & x0 & [Hy0 Hx0] & H0); [|done].
    split; [exact Hin|]. exists y0, x0. split; [|exact H0]. unfold within. lia.
  - intros (Hin & y0 & x0 & [Hy0 Hx0] & H0). split; [exact Hin|].
    pose proof (nonzero_in_raster _ _ _ H0) as Hin0.
    apply (in_raster_rectangle rows h w) in Hin0; [|done].
    exists (y + Z.max (-1) (Z.min 1 (y0 - y))), (x + Z.max (-1) (Z.min 1 (x0 - x))).
    split; [unfold within; lia|].
    apply dilate_once_square3; [done|]. split.
    + apply (in_raster_rectangle rows h w); [done|lia].
    + exists y0, x0. split; [unfold within; lia|exact H0].
Qed.

(** X13. For a binary mask with at least one row and one column, the
    mask [inpaint_image] hands to the inpainting has the shape of the
    mask it is given and is binary like it, and its region is exactly the
    pixels of the raster that are within two rows and two columns of a
    pixel of the region of the mask: the fill reaches two pixels beyond
    the mask in every direction, diagonals included, and stops at the
    border of the image. *)
Theorem dilated_mask_is_two_pixel_margin
    (img_cv : ndarray) (rows : list (list Z)) (h wd : Z) (w : World) :
  binary rows ->
  raster_shape rows h wd ->
  0 < h -> 0 < wd ->
  exists dilated,
    inpaint_image ext img_cv (Arr2 rows) w =
      (match cv2_inpaint ext img_cv (Arr2 dilated) 15 INPAINT_NS with
       | inr result_cv => Ret result_cv
       | inl e => Raise (Exc e)
       end,
       add_events w [Inpaint 15 INPAINT_NS]) /\
    raster_shape dilated h wd /\
    binary dilated /\
    forall y x,
      nonzero_at dilated y x <->
      (0 <= y < h /\ 0 <= x < wd) /\
      exists y' x', within 2 y x y' x' /\ nonzero_at rows y' x'.
Proof.
  intros Hb Hs Hh Hwd. exists (dilate_once square3 (dilate_once square3 rows)).
  split; [apply inpaint_image_run; by apply raster_not_empty with h wd|].
  split; [by do 2 apply dilate_once_shape|].
  split; [by do 2 apply dilate_once_binary|].
  intros y x. by apply dilate_twice_square3.
Qed.

Lemma mask_rows_shape (grey : Image) : raster_shape (mask_rows grey) 720 1280.
Proof.
  split; [unfold mask_rows; by rewrite length_ztab|].
  apply Forall_ztab. intros y _. by rewrite length_ztab.
Qed.

Lemma mask_rows_nonzero (grey : Image) (y x : Z) :
  nonzero_at (mask_rows grey) y x <->
  (0 <= y < 720 /\ 0 <= x < 1280) /\ mask_value grey x y <> 0.
Proof.
  split.
  - intros (row & v & Hr & Hv & Hy & Hx & Hnz).
    destruct (mask_rows_lookup grey y x row v Hy Hx Hr Hv) as (? & ? & ->).
    split; [lia|done].
  - intros [[Hy Hx] Hnz]. unfold mask_rows.
    eexists _, _. rewrite lookup_ztab by lia. split; [reflexivity|].
    rewrite lookup_ztab by lia. split; [reflexivity|].
    rewrite !Z2Nat.id by lia. split; [lia|]. split; [lia|]. exact Hnz.
Qed.

(** X14. Whatever the mask asset, the region the pipeline asks the
    inpainting to fill lies in the 49 x 49 square x in [1203, 1252),
    y in [643, 692) of the working image, and so never reaches its border;
    for an asset that is bright everywhere once resized, it is that whole
    square. *)
Theorem fill_region_of_the_pipeline
    (p : string) (w : World) (bytes : list byte) (asset : Image) :
  fs_files w !! p = Some bytes ->
  pil_decode ext bytes = inr asset ->
  exists mask dilated,
    fst (create_mask ext p w) = Ret (Arr2 mask) /\
    cv2_dilate (Arr2 mask) (np_ones (3, 3)) 2 = inr (Arr2 dilated) /\
    (forall y x, nonzero_at dilated y x -> 1203 <= x < 1252 /\ 643 <= y < 692) /\
    ((forall x y, 0 <= x < 45 -> 0 <= y < 45 ->
        127 < im_px (mask_resized ext asset) x y 0%nat) ->
     forall y x, nonzero_at dilated y x <-> 1203 <= x < 1252 /\ 643 <= y < 692).
Proof.
  intros Hf Hd. set (grey := mask_resized ext asset).
  exists (mask_rows grey), (dilate_once square3 (dilate_once square3 (mask_rows grey))).
  split; [by rewrite (create_mask_decoded ext p w bytes asset Hf Hd)|].
  split; [apply cv2_dilate_square3_twice, mask_rows_not_empty|].
  assert (Hchar := fun y x =>
    dilate_twice_square3 (mask_rows grey) 720 1280 y x
      (mask_rows_binary grey) (mask_rows_shape grey)).
  split.
  - intros y x H. apply Hchar in H as (_ & y0 & x0 & [Hy Hx] & H0).
    apply mask_rows_nonzero in H0 as [_ H0]. apply mask_value_nonzero in H0. lia.
  - intros Hbright y x. rewrite Hchar. split.
    + intros (_ & y0 & x0 & [Hy Hx] & H0).
      apply mask_rows_nonzero in H0 as [_ H0]. apply mask_value_nonzero in H0. lia.
    + intros [Hx Hy]. split; [lia|].
      exists (Z.max 645 (Z.min 689 y)), (Z.max 1205 (Z.min 1249 x)).
      split; [unfold within; lia|].
      apply mask_rows_nonzero. split; [lia|]. unfold mask_value.
      set (y0 := Z.max 645 (Z.min 689 y)). set (x0 := Z.max 1205 (Z.min 1249 x)).
      assert (Hbox : ((1205 <=? x0) && (x0 <? 1250) && (645 <=? y0) && (y0 <? 690))%bool
                     = true).
      { repeat (apply andb_true_iff; split); lia. }
      rewrite Hbox. specialize (Hbright (x0 - 1205) (y0 - 645)).
      destruct (Z.gtb_spec (im_px grey (x0 - 1205) (y0 - 645) 0%nat) 127); [done|].
      unfold grey in *. lia.
Qed.

End FillRegion.

(** ** More on the filter *)

Section Filter.

Variable cfg : Config.
Variable ext : External.

Lemma extension_after_last_dot (stem x : string) :
  Str.contains "."%char x = false ->
  extension (stem ++ String "."%char x) = Some x.
Proof.
  intros Hx. unfold extension. rewrite rfind_app by done.
  destruct (Z.ltb_spec (Z.of_nat (String.length stem)) 0); [lia|].
  by rewrite drop_after_sep.
Qed.

Lemma extension_without_dot (name : string) :
  Str.contains "."%char name = false -> extension name = None.
Proof.
  intros H. apply rfind_absent in H. unfold extension.
  by destruct (Z.ltb_spec (Str.rfind "."%char name) 0); [|lia].
Qed.

(** X15. The handler looks at the last component of the path and, in it,
    at what follows the last dot, whatever the case: a name with a
    further extension behind an image extension, or with no dot at all,
    is dropped and the world left as it is; a name whose last extension
    is on the list is handled, whatever comes before that dot, nothing
    included. *)
Theorem filter_looks_at_the_last_extension
    (ev : FileSystemEvent) (w : World) (stem x : string) :
  is_directory ev = false ->
  Str.contains "."%char x = false ->
  (Posixpath.basename (src_path ev) = (stem ++ String "."%char x)%string ->
   qualifies ev = existsb (String.eqb (Str.lower x)) allowed_extensions /\
   (existsb (String.eqb (Str.lower x)) allowed_extensions = false ->
    on_created cfg ext ev w = (Ret tt, w)) /\
   (existsb (String.eqb (Str.lower x)) allowed_extensions = true ->
    exists rest,
      trace (snd (on_created cfg ext ev w)) = (trace w ++ Sleep 1 :: rest)%list)) /\
  (Posixpath.basename (src_path ev) = x -> on_created cfg ext ev w = (Ret tt, w)).
Proof.
  intros Hd Hx. split.
  - intros Hn.
    assert (Hq : qualifies ev = existsb (String.eqb (Str.lower x)) allowed_extensions).
    { unfold qualifies, has_allowed_extension.
      by rewrite Hd, Hn, extension_after_last_dot. }
    split; [exact Hq|]. split.
    + intros H. apply on_created_dropped. by rewrite Hq.
    + intros H. rewrite on_created_run by (by rewrite Hq). cbn zeta.
      destruct (process_file_logic_outcome cfg ext (src_path ev)
                  (Posixpath.join (OUTPUT_DIR cfg) (Posixpath.basename (src_path ev)))
                  (add_events w [Sleep 1; Print (Msg_new_image_detected
                                                   (Posixpath.basename (src_path ev)))]))
        as (_ & _ & [evs Htr] & _).
      cbn [add_events trace] in Htr. rewrite <- app_assoc in Htr. cbn [app] in Htr.
      destruct (fst (process_file_logic _ _ _ _ _)) as [[]|[e| |]];
        cbn [snd add_events trace]; rewrite Htr; try by eexists.
      rewrite <- app_assoc. cbn [app]. by eexists.
  - intros Hn. apply on_created_dropped. unfold qualifies, has_allowed_extension.
    by rewrite Hn, extension_without_dot, andb_false_r.
Qed.

End Filter.

(** ** The further properties on the small instance *)

(** X4: the demo photo is still there after its run. *)
Lemma run_touches_only_output_path_witness :
  "in/photo.jpg" <> "out/photo.jpg" /\
  fs_files (snd (process_file_logic Demo.cfg Demo.ext "in/photo.jpg" "out/photo.jpg"
                   Demo.world)) !! "in/photo.jpg"
  = Some Demo.photo.
Proof.
  split; [discriminate|].
  destruct (run_touches_only_output_path Demo.cfg Demo.ext "in/photo.jpg" "out/photo.jpg"
              Demo.world) as [_ H].
  rewrite (H "in/photo.jpg"); [reflexivity|discriminate].
Defined.

(** X5: a directory where the mask asset should be. *)
Lemma unreadable_mask_fails_every_file_witness :
  qualifies Demo.photo_created = true /\
  is_dir Demo.world_mask_is_dir "/app/mask.png" = true /\
  on_created Demo.cfg Demo.ext Demo.photo_created Demo.world_mask_is_dir =
  (Ret tt,
   add_events Demo.world_mask_is_dir
     [Sleep 1;
      Print (Msg_new_image_detected "photo.jpg");
      PathExists "/app/mask.png";
      Print (Msg_loading_and_resizing "in/photo.jpg");
      Open "in/photo.jpg";
      Open "/app/mask.png";
      Print (Msg_failed_to_process "photo.jpg" (IsADirectoryError "/app/mask.png"))]).
Proof.
  split; [reflexivity|]. split; [reflexivity|].
  edestruct (unreadable_mask_fails_every_file Demo.cfg Demo.ext Demo.photo_created []
               Demo.world_mask_is_dir Demo.photo) as (_ & H & _);
    [reflexivity|reflexivity|reflexivity| |exact H].
  left. split; [reflexivity|]. split; reflexivity.
Defined.

(** X6: the demo photo, twice. *)
Lemma rerun_changes_nothing_witness :
  pipeline_ok Demo.cfg Demo.ext "in/photo.jpg" "out/photo.jpg" Demo.world
    [Byte.x50; Byte.x5f] /\
  successful_run
    (process_file_logic Demo.cfg Demo.ext "in/photo.jpg" "out/photo.jpg"
       (snd (process_file_logic Demo.cfg Demo.ext "in/photo.jpg" "out/photo.jpg"
               Demo.world))).
Proof.
  split; [exact demo_pipeline_ok|].
  destruct (rerun_changes_nothing Demo.cfg Demo.ext "in/photo.jpg" "out/photo.jpg"
              Demo.world [Byte.x50; Byte.x5f] demo_pipeline_ok) as (_ & H & _);
    [discriminate|discriminate|exact H].
Defined.

(** X7: the demo photo, with the input directory as output directory. *)
Lemma same_directory_overwrites_input_witness :
  Posixpath.join (OUTPUT_DIR Demo.cfg_in_place) "photo.jpg" = "in/photo.jpg" /\
  fs_files (snd (on_created Demo.cfg_in_place Demo.ext Demo.photo_created Demo.world))
  = <[ "in/photo.jpg" := [Byte.x50; Byte.x5f] ]> (fs_files Demo.world).
Proof.
  split; [reflexivity|].
  destruct (same_directory_overwrites_input Demo.cfg_in_place Demo.ext
              Demo.photo_created Demo.world "photo.jpg" [Byte.x50; Byte.x5f])
    as [_ H]; [reflexivity|reflexivity|].
  apply H; [reflexivity|].
  set (w0 := add_events Demo.world _).
  destruct (demo_reaches_save w0 eq_refl eq_refl) as (result_img & Hr & He).
  exists result_img. split; [exact Hr|]. split; [exact He|]. split; reflexivity.
Defined.

(** X9: two events, one of them dropped; the mask asset is untouched. *)
Lemma watcher_touches_only_outputs_witness :
  fs_files (snd (observer_run Demo.cfg Demo.ext
                   [Demo.photo_created; Demo.bad_created] Demo.world)) !! "/app/mask.png"
  = Some Demo.white.
Proof.
  destruct (watcher_touches_only_outputs Demo.cfg Demo.ext
              [Demo.photo_created; Demo.bad_created] Demo.world) as [_ H].
  rewrite (H "/app/mask.png"); [reflexivity|].
  intros ev [<- | [<- | []]] _; discriminate.
Defined.

(** X10: from a world without the two directories. *)
Lemma saves_find_the_output_directory_witness :
  fst (ensure_directories Demo.cfg Demo.world_fresh) = Ret tt /\
  parent_exists
    (snd (observer_run Demo.cfg Demo.ext [Demo.bad_created]
            (snd (ensure_directories Demo.cfg Demo.world_fresh))))
    "out/photo.jpg" = true.
Proof.
  split; [reflexivity|].
  apply (saves_find_the_output_directory Demo.cfg Demo.ext Demo.world_fresh
           (snd (ensure_directories Demo.cfg Demo.world_fresh))
           [Demo.bad_created] Demo.photo_created); reflexivity.
Defined.

(** X11: a file named [out]. *)
Lemma output_directory_is_a_file_witness :
  is_file Demo.world_out_is_file "out" = true /\
  exit_code (fst (script Demo.cfg Demo.ext [Demo.photo_created] Demo.world_out_is_file)) = 1.
Proof.
  split; [reflexivity|].
  destruct (output_directory_is_a_file Demo.cfg Demo.ext [Demo.photo_created]
              Demo.world_out_is_file eq_refl) as (_ & H & _).
  exact H.
Defined.

(** X12: the demo photo. *)
Lemma colour_order_round_trip_witness :
  fs_files Demo.world !! "in/photo.jpg" = Some Demo.photo /\
  exists img_cv result_img,
    fst (resize_image Demo.ext "in/photo.jpg" Demo.world) = Ret (Some img_cv) /\
    im_mode result_img = M_RGB /\
    im_width result_img = 1280 /\
    im_height result_img = 720.
Proof.
  split; [reflexivity|].
  edestruct (colour_order_round_trip Demo.ext "in/photo.jpg" Demo.world Demo.photo)
    as (img_cv & result_img & H1 & _ & _ & Hm & Hw & Hh & _); [reflexivity|reflexivity|].
  exists img_cv, result_img. auto.
Defined.

(** X13: a 3 x 3 mask with its centre set, which the dilation fills. *)
Lemma dilated_mask_is_two_pixel_margin_witness :
  let mask := [[0; 0; 0]; [0; 255; 0]; [0; 0; 0]] in
  binary mask /\ raster_shape mask 3 3 /\
  exists dilated,
    raster_shape dilated 3 3 /\ nonzero_at dilated 0 0 /\ nonzero_at dilated 2 2.
Proof.
  intros mask.
  assert (Hb : binary mask) by (repeat constructor; auto).
  assert (Hs : raster_shape mask 3 3) by (split; [reflexivity|repeat constructor]).
  split; [exact Hb|]. split; [exact Hs|].
  destruct (dilated_mask_is_two_pixel_margin Demo.ext (Arr3 []) mask 3 3 Demo.world Hb Hs
              eq_refl eq_refl)
    as (dilated & _ & Hshape & _ & Hchar).
  assert (Hc : nonzero_at mask 1 1) by (apply nonzero_at_get2; discriminate).
  exists dilated. split; [exact Hshape|].
  split; apply Hchar; (split; [lia|]); exists 1, 1; (split; [unfold within; lia|exact Hc]).
Defined.

(** X14: the white mask asset. *)
Lemma fill_region_of_the_pipeline_witness :
  fs_files Demo.world !! "/app/mask.png" = Some Demo.white /\
  exists mask dilated,
    fst (create_mask Demo.ext "/app/mask.png" Demo.world) = Ret (Arr2 mask) /\
    cv2_dilate (Arr2 mask) (np_ones (3, 3)) 2 = inr (Arr2 dilated) /\
    nonzero_at dilated 643 1203 /\ ~ nonzero_at dilated 642 1203.
Proof.
  split; [reflexivity|].
  edestruct (fill_region_of_the_pipeline Demo.ext "/app/mask.png" Demo.world Demo.white)
    as (mask & dilated & H1 & H2 & Hin & Hall); [reflexivity|reflexivity|].
  exists mask, dilated. split; [exact H1|]. split; [exact H2|]. split.
  - apply Hall; [|lia]. intros x y _ _. cbn. lia.
  - intros H. apply Hin in H. lia.
Defined.

(** X15: a partial download next to an image. *)
Lemma filter_looks_at_the_last_extension_witness :
  on_created Demo.cfg Demo.ext {| is_directory := false; src_path := "in/photo.png.part" |}
    Demo.world = (Ret tt, Demo.world).
Proof.
  destruct (filter_looks_at_the_last_extension Demo.cfg Demo.ext
              {| is_directory := false; src_path := "in/photo.png.part" |}
              Demo.world "photo.png" "part") as [H _]; [reflexivity|reflexivity|].
  destruct (H eq_refl) as (_ & Hdrop & _). apply Hdrop. reflexivity.
Defined.

(** ** The handler on a file that goes through *)

Section HappyPath.

Variable cfg : Config.
Variable ext : External.

Lemma pipeline_ok_add_events
    (input_path output_path : string) (w : World) (evs : list event) (content : list byte) :
  pipeline_ok cfg ext input_path output_path w content ->
  pipeline_ok cfg ext input_path output_path (add_events w evs) content.
Proof. intros H. exact H. Qed.

(** X16. For an event that qualifies, in a world where every step of the
    pipeline succeeds, the handler returns having slept, announced the
    file, run the steps in order and written the encoded result at the
    output directory joined to the name of the file; its last line
    reports that name as done, and no failure is logged. *)
Theorem handled_event_goes_through
    (ev : FileSystemEvent) (w : World) (content : list byte) :
  let name := Posixpath.basename (src_path ev) in
  let output_path := Posixpath.join (OUTPUT_DIR cfg) name in
  qualifies ev = true ->
  pipeline_ok cfg ext (src_path ev) output_path w content ->
  on_created cfg ext ev w =
  (Ret tt,
   write_file output_path content
     (add_events w
        [Sleep 1;
         Print (Msg_new_image_detected name);
         PathExists (MASK_PATH cfg);
         Print (Msg_loading_and_resizing (src_path ev));
         Open (src_path ev);
         Open (MASK_PATH cfg);
         Inpaint 15 INPAINT_NS;
         Print (Msg_saving_result output_path);
         Save output_path 95;
         Print (Msg_done name)])).
Proof.
  intros name output_path Hq Hok. subst name output_path.
  rewrite on_created_run by done. cbn zeta.
  rewrite (process_file_logic_ok cfg ext _ _ _ content
             (pipeline_ok_add_events _ _ _ _ _ Hok)).
  cbn [fst snd]. unfold success_events. rewrite output_name_is_input_name.
  unfold write_file, add_events. cbn [fs_files fs_dirs trace].
  by rewrite <- app_assoc.
Qed.

End HappyPath.

(** X16: the demo photo. *)
Lemma handled_event_goes_through_witness :
  qualifies Demo.photo_created = true /\
  fs_files (snd (on_created Demo.cfg Demo.ext Demo.photo_created Demo.world))
    !! "out/photo.jpg" = Some [Byte.x50; Byte.x5f].
Proof.
  split; [reflexivity|].
  rewrite (handled_event_goes_through Demo.cfg Demo.ext Demo.photo_created Demo.world
             [Byte.x50; Byte.x5f] eq_refl demo_pipeline_ok).
  reflexivity.
Defined.

(** ** More on the console: the lines around the [try] *)

Section Refusals.

Variable cfg : Config.
Variable ext : External.
Variable console : message -> option exception.

Local Abbreviation MASK := (MASK_PATH cfg).

Lemma Image_save_ok (img : Image) (p : string) (q : Z) (w : World) (content : list byte) :
  pil_encode ext p img q = inr content ->
  is_dir w p = false ->
  parent_exists w p = true ->
  Image_save ext img p q w = (Ret tt, write_file p content (add_events w [Save p q])).
Proof.
  intros Henc Hnd Hpar. unfold Image_save, bind. rewrite log_run, Henc.
  change (is_dir (add_events w [Save p q]) p) with (is_dir w p).
  change (parent_exists (add_events w [Save p q]) p) with (parent_exists w p).
  by rewrite Hnd, Hpar.
Qed.

(** When the steps before it succeed and the console takes the two
    lines on the way, the run is the save followed by the line that
    reports the file as done. *)
Lemma process_file_logic_on_until_save
    (input_path output_path : string) (w : World) (result_img : Image) :
  reaches_save cfg ext input_path w result_img ->
  console (Msg_loading_and_resizing input_path) = None ->
  console (Msg_saving_result output_path) = None ->
  process_file_logic_on cfg ext console input_path output_path w =
  (let (r, w') :=
     Image_save ext result_img output_path 95
       (add_events w (take 6 (success_events cfg input_path output_path))) in
   match r with
   | Ret _ => print_on console (Msg_done (Posixpath.basename output_path)) w'
   | Raise r => (Raise r, w')
   end).
Proof.
  intros (bytes & img & bytes' & asset & result_cv & rgb
          & Hin & Hdec & Hmask & Hdec' & Hinp & Hcvt & Hfrom) Hl Hs.
  assert (Hm : (is_file w MASK || is_dir w MASK)%bool = true).
  { unfold is_file. rewrite Hmask. by rewrite bool_decide_eq_true_2. }
  unfold process_file_logic_on, bind at 1. rewrite os_path_exists_run, Hm.
  cbn [negb]. unfold bind at 1.
  rewrite resize_image_on_run, Hl. cbv zeta.
  change (fs_files (add_events w [PathExists MASK]) !! input_path)
    with (fs_files w !! input_path).
  rewrite Hin, Hdec, add_events_app. cbn [app]. unfold bind at 1.
  rewrite (create_mask_decoded ext MASK _ bytes' asset) by done.
  rewrite add_events_app. cbn [app]. unfold bind at 1.
  rewrite inpaint_image_run by apply mask_rows_not_empty.
  rewrite add_events_app, Hinp. cbn [app].
  unfold bind at 1. rewrite print_on_taken by exact Hs.
  rewrite add_events_app. cbn [app].
  unfold bind at 1. rewrite Hcvt. cbn [lift]. unfold ret at 1.
  unfold bind at 1. rewrite Hfrom. cbn [lift]. unfold ret at 1.
  unfold bind at 1. reflexivity.
Qed.

(** X17. The line that announces a file is printed before the [try].
    When the console refuses it, as for a file name it cannot encode, the
    exception leaves the handler before anything of the file is looked
    at, and it ends the observer thread: the events behind this one are
    never handled. *)
Theorem refused_announcement_ends_the_watcher
    (ev : FileSystemEvent) (rest : list FileSystemEvent) (w : World) (e0 : exception) :
  qualifies ev = true ->
  console (Msg_new_image_detected (Posixpath.basename (src_path ev))) = Some e0 ->
  on_created_on cfg ext console ev w = (Raise (Exc e0), add_events w [Sleep 1]) /\
  observer_run_on cfg ext console (ev :: rest) w = (Raise (Exc e0), add_events w [Sleep 1]).
Proof.
  intros Hq Hc.
  pose proof (on_created_on_refused cfg ext console ev w e0 Hq Hc) as H.
  split; [exact H|]. by apply observer_run_on_stops.
Qed.

(** X18. The line that reports a file as done starts with a check mark
    and is printed inside the [try], after the save.  On a console that
    refuses it and takes the other lines, a file whose every step
    succeeded is written to the output path and then reported as failed:
    the last line of the handler is the failure, with the exception of
    [print]. *)
Theorem done_line_refused_reports_failure
    (ev : FileSystemEvent) (w : World) (content : list byte) (e1 : exception) :
  let name := Posixpath.basename (src_path ev) in
  let output_path := Posixpath.join (OUTPUT_DIR cfg) name in
  qualifies ev = true ->
  pipeline_ok cfg ext (src_path ev) output_path w content ->
  console (Msg_new_image_detected name) = None ->
  console (Msg_loading_and_resizing (src_path ev)) = None ->
  console (Msg_saving_result output_path) = None ->
  console (Msg_done name) = Some e1 ->
  console (Msg_failed_to_process name e1) = None ->
  on_created_on cfg ext console ev w =
  (Ret tt,
   write_file output_path content
     (add_events w
        [Sleep 1;
         Print (Msg_new_image_detected name);
         PathExists MASK;
         Print (Msg_loading_and_resizing (src_path ev));
         Open (src_path ev);
         Open MASK;
         Inpaint 15 INPAINT_NS;
         Print (Msg_saving_result output_path);
         Save output_path 95;
         Print (Msg_failed_to_process name e1)])).
Proof.
  intros name output_path Hq (result_img & Hreach & Henc & Hnd & Hpar) Ha Hl Hs Hd Hf.
  subst name output_path.
  rewrite on_created_on_run by done. cbn zeta.
  rewrite (process_file_logic_on_until_save _ _
             (add_events w [Sleep 1; Print (Msg_new_image_detected _)])
             result_img Hreach Hl Hs).
  rewrite (Image_save_ok result_img _ 95 _ content Henc) by first [exact Hnd | exact Hpar].
  rewrite output_name_is_input_name.
  rewrite (print_on_refused console _ e1 _ Hd). cbn [fst snd].
  rewrite print_on_taken by exact Hf.
  unfold success_events, write_file, add_events. cbn [fs_files fs_dirs trace take].
  by rewrite <- !app_assoc.
Qed.

End Refusals.

(** X17: a file name with an accent on an ASCII console, and a photo
    behind it that is never announced. *)
Lemma refused_announcement_ends_the_watcher_witness :
  qualifies Demo.accent_created = true /\
  Demo.isascii (Posixpath.basename (src_path Demo.accent_created)) = false /\
  exists e0,
    observer_run_on Demo.cfg Demo.ext Demo.ascii_console
      [Demo.accent_created; Demo.photo_created] Demo.world
    = (Raise (Exc e0), add_events Demo.world [Sleep 1]).
Proof.
  split; [reflexivity|]. split; [reflexivity|]. eexists.
  apply (refused_announcement_ends_the_watcher Demo.cfg Demo.ext Demo.ascii_console
           Demo.accent_created [Demo.photo_created] Demo.world); reflexivity.
Defined.

(** X18: the demo photo on an ASCII console. *)
Lemma done_line_refused_reports_failure_witness :
  let after :=
    on_created_on Demo.cfg Demo.ext Demo.ascii_console Demo.photo_created Demo.world in
  fst after = Ret tt /\
  fs_files (snd after) !! "out/photo.jpg" = Some [Byte.x50; Byte.x5f] /\
  last (trace (snd after)) =
    Some (Print (Msg_failed_to_process "photo.jpg"
                   (UnicodeEncodeError "'ascii' codec can't encode character"))).
Proof.
  cbn zeta.
  rewrite (done_line_refused_reports_failure Demo.cfg Demo.ext Demo.ascii_console
             Demo.photo_created Demo.world [Byte.x50; Byte.x5f]
             (UnicodeEncodeError "'ascii' codec can't encode character")
             eq_refl demo_pipeline_ok eq_refl eq_refl eq_refl eq_refl eq_refl).
  split; [reflexivity|]. split; [reflexivity|]. reflexivity.
Defined.
